(** * TurboTFTP: the wire codec and the four transfer loops

    A shallow embedding of [tftp_common.hpp] (packet creation and parsing),
    [tftp_client.cpp] ([receive_file], [send_file]) and [tftp_server.cpp]
    ([handle_read_request], [handle_write_request]).

    Conventions.
    - A [uint16_t] is an [N] below 65536; increments and decrements wrap.
    - A [char] buffer or a [std::string] is a [list byte].
    - A [size_t] is a [nat] (it only ever measures a buffer).
    - Each transfer loop is a total step function over the outcome of one
      [recvfrom] call; the packets handed to [sendto] and the state of the
      local file are part of the result.
    - An output file is kept as the bytes its [ofstream] has taken. They
      are on disk only as far as the flush of [close] gets, and the code
      never looks at the result of [close]: what is on disk after a call
      is [disk_after], for a given number of bytes that the flush wrote.
    - Sockets behave as on POSIX: a datagram longer than the receive
      buffer is cut to the size of the buffer. *)

From Stdlib Require Import Strings.Byte Strings.String.
From Stdlib Require Import List NArith Bool Arith Lia.
Import ListNotations.

Local Open Scope N_scope.

(** ** Wire codec ([tftp_common.hpp]) *)

Module Codec.

Definition TFTP_OPCODE_RRQ : N := 1.
Definition TFTP_OPCODE_WRQ : N := 2.
Definition TFTP_OPCODE_DATA : N := 3.
Definition TFTP_OPCODE_ACK : N := 4.
Definition TFTP_OPCODE_ERROR : N := 5.

Definition TFTP_ERROR_NOT_DEFINED : N := 0.
Definition TFTP_ERROR_FILE_NOT_FOUND : N := 1.
Definition TFTP_ERROR_ACCESS_VIOLATION : N := 2.
Definition TFTP_ERROR_DISK_FULL : N := 3.
Definition TFTP_ERROR_ILLEGAL_OPERATION : N := 4.
Definition TFTP_ERROR_UNKNOWN_TRANSFER_ID : N := 5.
Definition TFTP_ERROR_FILE_ALREADY_EXISTS : N := 6.
Definition TFTP_ERROR_NO_SUCH_USER : N := 7.

Definition MAX_PACKET_SIZE : nat := 516.
Definition DATA_HEADER_SIZE : nat := 4.
Definition MAX_DATA_SIZE : nat := 512.
Definition ACK_PACKET_SIZE : nat := 4.
Definition ERROR_HEADER_SIZE : nat := 4.

(** The low eight bits of a number, as a byte. *)
Definition byte_of_N (n : N) : byte :=
  match Byte.of_N (n mod 256) with
  | Some b => b
  | None => x00
  end.

(** [htons] followed by a two-byte [memcpy]: most significant byte first. *)
Definition put_u16 (v : N) : list byte :=
  [byte_of_N (v / 256); byte_of_N v].

(** A two-byte [memcpy] from [buffer + off] followed by [ntohs]. *)
Definition read_u16 (off : nat) (buffer : list byte) : N :=
  Byte.to_N (nth off buffer x00) * 256 + Byte.to_N (nth (S off) buffer x00).

(** A C string literal as the bytes of a [std::string]. *)
Definition str (s : string) : list byte := list_byte_of_string s.

(** [memchr(p, c, n)] over the whole of [p]: offset of the first [c]. *)
Fixpoint memchr (c : byte) (p : list byte) : option nat :=
  match p with
  | [] => None
  | x :: rest =>
      if Byte.eqb x c then Some O else option_map S (memchr c rest)
  end.

(** *** Packet creation *)

Definition create_rrq_packet (filename mode : list byte) : list byte :=
  put_u16 TFTP_OPCODE_RRQ ++ filename ++ [x00] ++ mode ++ [x00].

Definition create_wrq_packet (filename mode : list byte) : list byte :=
  put_u16 TFTP_OPCODE_WRQ ++ filename ++ [x00] ++ mode ++ [x00].

(** [None] stands for the [std::length_error] thrown on oversized data. *)
Definition create_data_packet (block_num : N) (data : list byte)
  : option (list byte) :=
  if (MAX_DATA_SIZE <? length data)%nat then None
  else Some (put_u16 TFTP_OPCODE_DATA ++ put_u16 block_num ++ data).

Definition create_ack_packet (block_num : N) : list byte :=
  put_u16 TFTP_OPCODE_ACK ++ put_u16 block_num.

Definition create_error_packet (error_code : N) (error_msg : list byte)
  : list byte :=
  put_u16 TFTP_OPCODE_ERROR ++ put_u16 error_code ++ error_msg ++ [x00].

(** *** Packet parsing *)

Definition get_opcode (buffer : list byte) : N :=
  if (length buffer <? 2)%nat then 0 else read_u16 0 buffer.

Definition parse_ack_packet (buffer : list byte) : option N :=
  if negb (length buffer =? ACK_PACKET_SIZE)%nat
     || negb (get_opcode buffer =? TFTP_OPCODE_ACK)
  then None
  else Some (read_u16 2 buffer).

(** Returns the block number and the payload [buffer + 4 .. buffer + size). *)
Definition parse_data_packet (buffer : list byte) : option (N * list byte) :=
  if (length buffer <? DATA_HEADER_SIZE)%nat
     || negb (get_opcode buffer =? TFTP_OPCODE_DATA)
  then None
  else Some (read_u16 2 buffer, skipn DATA_HEADER_SIZE buffer).

Definition malformed_error_text : list byte :=
  str "Malformed error packet received".

Definition parse_error_packet (buffer : list byte) : option (N * list byte) :=
  if (length buffer <? ERROR_HEADER_SIZE + 1)%nat
     || negb (get_opcode buffer =? TFTP_OPCODE_ERROR)
  then None
  else
    let error_code := read_u16 2 buffer in
    let msg_start := skipn ERROR_HEADER_SIZE buffer in
    match memchr x00 msg_start with
    | None => Some (error_code, malformed_error_text)
    | Some msg_len => Some (error_code, firstn msg_len msg_start)
    end.

(** Parses RRQ or WRQ: the file name and the mode. *)
Definition parse_request_packet (buffer : list byte)
  : option (list byte * list byte) :=
  let opcode := get_opcode buffer in
  if negb (opcode =? TFTP_OPCODE_RRQ) && negb (opcode =? TFTP_OPCODE_WRQ)
  then None
  else if (length buffer <? 6)%nat then None
  else
    let ptr := skipn 2 buffer in
    match memchr x00 ptr with
    | None => None
    | Some O => None
    | Some filename_len =>
        let filename := firstn filename_len ptr in
        let ptr' := skipn (S filename_len) ptr in
        match ptr' with
        | [] => None
        | _ =>
            match memchr x00 ptr' with
            | None => None
            | Some O => None
            | Some mode_len => Some (filename, firstn mode_len ptr')
            end
        end
    end.

(** *** The typed view of a packet *)

Inductive Packet : Type :=
| ReadRequest (filename mode : list byte)
| WriteRequest (filename mode : list byte)
| Data (block : N) (payload : list byte)
| Ack (block : N)
| Error (code : N) (message : list byte).

Definition encode (p : Packet) : option (list byte) :=
  match p with
  | ReadRequest f m => Some (create_rrq_packet f m)
  | WriteRequest f m => Some (create_wrq_packet f m)
  | Data b d => create_data_packet b d
  | Ack b => Some (create_ack_packet b)
  | Error c m => Some (create_error_packet c m)
  end.

(** Every receive site reads the opcode with [get_opcode] and then calls
    the parser of that packet kind; [parse] is that dispatch. *)
Definition parse (buffer : list byte) : option Packet :=
  let opcode := get_opcode buffer in
  if opcode =? TFTP_OPCODE_RRQ then
    option_map (fun r => ReadRequest (fst r) (snd r))
               (parse_request_packet buffer)
  else if opcode =? TFTP_OPCODE_WRQ then
    option_map (fun r => WriteRequest (fst r) (snd r))
               (parse_request_packet buffer)
  else if opcode =? TFTP_OPCODE_DATA then
    option_map (fun r => Data (fst r) (snd r)) (parse_data_packet buffer)
  else if opcode =? TFTP_OPCODE_ACK then
    option_map Ack (parse_ack_packet buffer)
  else if opcode =? TFTP_OPCODE_ERROR then
    option_map (fun r => Error (fst r) (snd r)) (parse_error_packet buffer)
  else None.

(** A string that can be framed by a terminating zero byte. *)
Definition c_string (s : list byte) : Prop := ~ In x00 s.

(** The data-model invariants of a packet value. *)
Definition valid_packet (p : Packet) : Prop :=
  match p with
  | ReadRequest f m | WriteRequest f m =>
      f <> [] /\ c_string f /\ m <> [] /\ c_string m
  | Data b d => b < 65536 /\ (length d <= MAX_DATA_SIZE)%nat
  | Ack b => b < 65536
  | Error c m => c < 65536 /\ c_string m
  end.

End Codec.

(** ** Sockets and the environment of one loop iteration *)

Module Net.

(** The two fields of [sockaddr_in] that the code compares. *)
Record sockaddr_in : Type := { s_addr : N; sin_port : N }.

Definition same_endpoint (a b : sockaddr_in) : bool :=
  (s_addr a =? s_addr b) && (sin_port a =? sin_port b).

(** What one call of [recvfrom] gives back. *)
Inductive recv_result : Type :=
| Timeout                      (* SOCKET_ERROR, errno EAGAIN / EWOULDBLOCK *)
| RecvFailed                   (* SOCKET_ERROR, any other errno *)
| Datagram (src : sockaddr_in) (payload : list byte).

(** One blocking receive together with what the environment answers to
    the calls made while its result is handled: whether [sendto] succeeds
    and whether the [ofstream] is still good after [write]. *)
Record input : Type :=
  { recv : recv_result; send_ok : bool; write_ok : bool }.

(** A packet handed to [sendto]. *)
Record sent : Type := { dst : sockaddr_in; pkt : list byte }.

(** Where control is after an iteration: blocked in the next [recvfrom],
    returned normally, or left by a [std::runtime_error]. *)
Inductive control : Type :=
| Await
| Return
| Throw (what : string).

(** [recvfrom(sock, buffer, MAX_PACKET_SIZE, ...)] keeps at most
    [MAX_PACKET_SIZE] bytes of the datagram. *)
Definition recvfrom_buffer (payload : list byte) : list byte :=
  firstn Codec.MAX_PACKET_SIZE payload.

(** [uint16_t] increment and decrement. *)
Definition incr16 (b : N) : N := (b + 1) mod 65536.
Definition decr16 (b : N) : N := (b + 65535) mod 65536.

(** [ifstream::read(buf, MAX_DATA_SIZE)] with [gcount]: the chunk read and
    what is left of the stream. *)
Definition read_chunk (file : list byte) : list byte * list byte :=
  (firstn Codec.MAX_DATA_SIZE file, skipn Codec.MAX_DATA_SIZE file).

(** Put the packets already sent in front of a later result. *)
Definition prepend {S : Type} (out : list sent) (r : control * S * list sent)
  : control * S * list sent :=
  let '(c, s, out') := r in (c, s, out ++ out').

(** The three components of a result. *)
Definition control_of {S : Type} (r : control * S * list sent) : control :=
  fst (fst r).
Definition state_of {S : Type} (r : control * S * list sent) : S :=
  snd (fst r).
Definition sent_of {S : Type} (r : control * S * list sent) : list sent :=
  snd r.

Section Run.
Context {S : Type}.
Variable step : S -> input -> control * S * list sent.

(** Feed the loop a finite sequence of receive outcomes; stop as soon as
    the function returns or throws. *)
Fixpoint run (s : S) (ins : list input) : control * S * list sent :=
  match ins with
  | [] => (Await, s, [])
  | i :: rest =>
      match step s i with
      | (Await, s', out) => prepend out (run s' rest)
      | r => r
      end
  end.

(** A whole call: what precedes the loop, then the loop. *)
Definition and_then (r : control * S * list sent) (ins : list input)
  : control * S * list sent :=
  match r with
  | (Await, s, out) => prepend out (run s ins)
  | _ => r
  end.
End Run.

End Net.

(** ** Client GET: [receive_file] in [tftp_client.cpp] *)

Module ReceiveFile.
Import Codec Net.

Record state : Type := {
  expected_block_num : N;
  server_addr : sockaddr_in;
  first_data_packet : bool;
  transfer_complete : bool;
  (* [local_filename]: before the [ofstream] is opened the file found on
     disk, afterwards the bytes the stream has taken; [None] when there
     is no file, in particular once it is removed *)
  local_file : option (list byte)
}.

(** [output_file.close(); remove(local_filename.c_str())]. *)
Definition remove (s : state) : state :=
  {| expected_block_num := expected_block_num s;
     server_addr := server_addr s;
     first_data_packet := first_data_packet s;
     transfer_complete := transfer_complete s;
     local_file := None |}.

(** [output_file.write(data_ptr, data_size)] on a stream that is good
    afterwards: the stream has taken the bytes. Whether they are on disk
    is settled only by the flush, see [disk_after]. *)
Definition write (s : state) (data : list byte) : state :=
  {| expected_block_num := expected_block_num s;
     server_addr := server_addr s;
     first_data_packet := first_data_packet s;
     transfer_complete := transfer_complete s;
     local_file := option_map (fun f => f ++ data) (local_file s) |}.

Definition lock_tid (s : state) (transfer_addr : sockaddr_in) : state :=
  {| expected_block_num := expected_block_num s;
     server_addr := transfer_addr;
     first_data_packet := false;
     transfer_complete := transfer_complete s;
     local_file := local_file s |}.

Definition set_complete (s : state) : state :=
  {| expected_block_num := expected_block_num s;
     server_addr := server_addr s;
     first_data_packet := first_data_packet s;
     transfer_complete := true;
     local_file := local_file s |}.

Definition next_block (s : state) : state :=
  {| expected_block_num := incr16 (expected_block_num s);
     server_addr := server_addr s;
     first_data_packet := first_data_packet s;
     transfer_complete := transfer_complete s;
     local_file := local_file s |}.

Definition to_server (s : state) (p : list byte) : sent :=
  {| dst := server_addr s; pkt := p |}.

(** The RRQ is sent and the local file opened with [trunc]. The text of
    the second exception goes on with the local file name, which is not
    part of this model. *)
Definition start (server : sockaddr_in) (remote_filename : list byte)
    (sendto_ok open_ok : bool) (on_disk : option (list byte))
  : control * state * list sent :=
  let rrq := {| dst := server;
                pkt := create_rrq_packet remote_filename (str "octet") |} in
  let s0 := {| expected_block_num := 1; server_addr := server;
               first_data_packet := true; transfer_complete := false;
               local_file := on_disk |} in
  if negb sendto_ok then (Throw "sendto failed (RRQ)", s0, [rrq])
  else if negb open_ok then
    (Throw "Failed to open local file for writing", s0, [rrq])
  else (Await,
        {| expected_block_num := 1; server_addr := server;
           first_data_packet := true; transfer_complete := false;
           local_file := Some [] |}, [rrq]).

(** The body of the loop below the TID check. *)
Definition handle_packet (s : state) (i : input) (buffer : list byte)
  : control * state * list sent :=
  let opcode := get_opcode buffer in
  if opcode =? TFTP_OPCODE_DATA then
    match parse_data_packet buffer with
    | None => (Await, s, [])
    | Some (block_num, data) =>
        if block_num =? expected_block_num s then
          if negb (write_ok i) then
            (Throw "File write error.", remove s,
             [to_server s (create_error_packet TFTP_ERROR_DISK_FULL
                             (str "Disk full or write error"))])
          else
            let s1 := write s data in
            let ack := to_server s (create_ack_packet block_num) in
            if negb (send_ok i) then
              (Throw "sendto failed (ACK)", remove s1, [ack])
            else if (length data <? MAX_DATA_SIZE)%nat then
              (Return, set_complete s1, [ack])
            else (Await, next_block s1, [ack])
        else if block_num <? expected_block_num s then
          (Await, s, [to_server s (create_ack_packet block_num)])
        else
          (Throw "Protocol error: Unexpected block number.", remove s,
           [to_server s (create_error_packet TFTP_ERROR_ILLEGAL_OPERATION
                           (str "Unexpected block number"))])
    end
  else if opcode =? TFTP_OPCODE_ERROR then
    (Throw "TFTP Error received from server.", remove s, [])
  else (Await, s, []).

(** One iteration of [while (!transfer_complete)]. *)
Definition step (s : state) (i : input) : control * state * list sent :=
  match recv i with
  | Timeout | RecvFailed =>
      (Throw "Receive failed or timed out.", remove s, [])
  | Datagram transfer_addr payload =>
      let buffer := recvfrom_buffer payload in
      if first_data_packet s then
        handle_packet (lock_tid s transfer_addr) i buffer
      else if negb (same_endpoint transfer_addr (server_addr s)) then
        (Await, s, [])
      else handle_packet s i buffer
  end.

(** The whole of [receive_file] against a sequence of receive outcomes. *)
Definition receive_file (server : sockaddr_in) (remote_filename : list byte)
    (sendto_ok open_ok : bool) (on_disk : option (list byte))
    (ins : list input) : control * state * list sent :=
  and_then step (start server remote_filename sendto_ok open_ok on_disk) ins.

(** The local file on disk after the call. On the normal return
    [output_file.close()] flushes the stream and its result is not looked
    at: of the bytes the stream has taken, the first [reached] are on
    disk. The same holds while the loop is still waiting. On the throwing
    paths the file has been removed, or is as it was found when the call
    threw before opening it. *)
Definition disk_after (r : control * state * list sent) (reached : nat)
  : option (list byte) :=
  match control_of r with
  | Throw _ => local_file (state_of r)
  | Return | Await => option_map (firstn reached) (local_file (state_of r))
  end.

End ReceiveFile.

(** ** Client PUT: [send_file] in [tftp_client.cpp] *)

Module SendFile.
Import Codec Net.

(** The three [recvfrom] calls of the function. *)
Inductive wait_point : Type :=
| WaitAck0            (* after the WRQ *)
| WaitAck             (* after a DATA packet *)
| WaitAckAfterResend. (* after the single resend on timeout *)

Record state : Type := {
  server_addr : sockaddr_in;
  input_file : list byte;        (* what the [ifstream] has not read yet *)
  current_block_num : N;
  last_data_sent : bool;
  data_packet : list byte;
  waiting : wait_point
}.

Definition to_server (s : state) (p : list byte) : sent :=
  {| dst := server_addr s; pkt := p |}.

Definition lock_tid (s : state) (transfer_addr : sockaddr_in) : state :=
  {| server_addr := transfer_addr;
     input_file := input_file s;
     current_block_num := current_block_num s;
     last_data_sent := last_data_sent s;
     data_packet := data_packet s;
     waiting := waiting s |}.

Definition set_block (s : state) (b : N) (last : bool) : state :=
  {| server_addr := server_addr s;
     input_file := input_file s;
     current_block_num := b;
     last_data_sent := last;
     data_packet := data_packet s;
     waiting := waiting s |}.

Definition set_waiting (s : state) (w : wait_point) : state :=
  {| server_addr := server_addr s;
     input_file := input_file s;
     current_block_num := current_block_num s;
     last_data_sent := last_data_sent s;
     data_packet := data_packet s;
     waiting := w |}.

(** The local file is open and the WRQ is sent. *)
Definition start (server : sockaddr_in) (remote_filename file : list byte)
    (sendto_ok : bool) : control * state * list sent :=
  let wrq := {| dst := server;
                pkt := create_wrq_packet remote_filename (str "octet") |} in
  let s0 := {| server_addr := server; input_file := file;
               current_block_num := 1; last_data_sent := false;
               data_packet := []; waiting := WaitAck0 |} in
  if negb sendto_ok then (Throw "sendto failed (WRQ)", s0, [wrq])
  else (Await, s0, [wrq]).

(** From the top of [while (!last_data_sent)] down to the first
    [recvfrom]: read a chunk, build the DATA packet, send it. *)
Definition send_next (s : state) (i : input) : control * state * list sent :=
  let '(chunk, rest) := read_chunk (input_file s) in
  match create_data_packet (current_block_num s) chunk with
  | None => (Throw "Data size exceeds maximum allowed", s, [])
  | Some packet =>
      let s1 := {| server_addr := server_addr s;
                   input_file := rest;
                   current_block_num := current_block_num s;
                   last_data_sent := last_data_sent s;
                   data_packet := packet;
                   waiting := WaitAck |} in
      if negb (send_ok i) then
        (Throw "sendto failed (DATA)", s1, [to_server s packet])
      else if (length chunk <? MAX_DATA_SIZE)%nat then
        (Await, set_block s1 (current_block_num s) true,
         [to_server s packet])
      else (Await, s1, [to_server s packet])
  end.

(** [continue], or the end of the loop body: test the loop condition. *)
Definition loop (s : state) (i : input) : control * state * list sent :=
  if last_data_sent s then (Return, s, []) else send_next s i.

(** The reply to the WRQ. *)
Definition handle_ack0 (s : state) (i : input) (buffer : list byte)
  : control * state * list sent :=
  let opcode := get_opcode buffer in
  if opcode =? TFTP_OPCODE_ACK then
    match parse_ack_packet buffer with
    | Some ack_block_num =>
        if ack_block_num =? 0 then loop s i
        else (Throw "Protocol error: Unexpected initial ACK number.", s, [])
    | None => (Throw "Protocol error: Malformed initial ACK.", s, [])
    end
  else if opcode =? TFTP_OPCODE_ERROR then
    (Throw "TFTP Error received from server.", s, [])
  else (Throw "Protocol error: Unexpected packet type.", s, []).

(** The loop body from the TID check on. *)
Definition handle_reply (s : state) (i : input)
    (transfer_addr : sockaddr_in) (buffer : list byte)
  : control * state * list sent :=
  if negb (same_endpoint transfer_addr (server_addr s)) then
    loop (set_block s (decr16 (current_block_num s)) false) i
  else
    let opcode := get_opcode buffer in
    if opcode =? TFTP_OPCODE_ACK then
      match parse_ack_packet buffer with
      | Some ack_block_num =>
          if ack_block_num =? current_block_num s then
            loop (set_block s (incr16 (current_block_num s))
                            (last_data_sent s)) i
          else if ack_block_num <? current_block_num s then
            loop (set_block s (decr16 (current_block_num s)) false) i
          else (Throw "Protocol error: Unexpected ACK number.", s, [])
      | None => (Throw "Protocol error: Malformed ACK.", s, [])
      end
    else if opcode =? TFTP_OPCODE_ERROR then
      (Throw "TFTP Error received from server during transfer.", s, [])
    else
      (Throw "Protocol error: Unexpected packet type during transfer.", s, []).

(** One [recvfrom] and everything up to the next one. *)
Definition step (s : state) (i : input) : control * state * list sent :=
  match waiting s with
  | WaitAck0 =>
      match recv i with
      | Timeout | RecvFailed =>
          (Throw "Receive failed or timed out waiting for initial ACK.", s, [])
      | Datagram transfer_addr payload =>
          handle_ack0 (lock_tid s transfer_addr) i (recvfrom_buffer payload)
      end
  | WaitAck =>
      match recv i with
      | Timeout =>
          let again := to_server s (data_packet s) in
          if negb (send_ok i) then
            (Throw "sendto failed on retry (DATA)", s, [again])
          else (Await, set_waiting s WaitAckAfterResend, [again])
      | RecvFailed => (Throw "Receive failed waiting for ACK.", s, [])
      | Datagram transfer_addr payload =>
          handle_reply s i transfer_addr (recvfrom_buffer payload)
      end
  | WaitAckAfterResend =>
      match recv i with
      | Timeout | RecvFailed =>
          (Throw "Receive failed or timed out waiting for ACK.", s, [])
      | Datagram transfer_addr payload =>
          handle_reply s i transfer_addr (recvfrom_buffer payload)
      end
  end.

(** The whole of [send_file] against a sequence of receive outcomes. *)
Definition send_file (server : sockaddr_in) (remote_filename file : list byte)
    (sendto_ok : bool) (ins : list input) : control * state * list sent :=
  and_then step (start server remote_filename file sendto_ok) ins.

End SendFile.

(** ** Server RRQ: [handle_read_request] in [tftp_server.cpp] *)

Module HandleReadRequest.
Import Codec Net.

Definition MAX_RETRIES : nat := 5.

Record state : Type := {
  client_addr : sockaddr_in;     (* overwritten by every [recvfrom] *)
  input_file : list byte;        (* what the [ifstream] has not read yet *)
  block_num : N;
  bytes_read : nat;
  data_packet : list byte;
  retry_count : nat;
  last_ack_received : bool       (* declared outside the loops *)
}.

Definition to_client (s : state) (p : list byte) : sent :=
  {| dst := client_addr s; pkt := p |}.

Definition set_client (s : state) (a : sockaddr_in) : state :=
  {| client_addr := a; input_file := input_file s;
     block_num := block_num s; bytes_read := bytes_read s;
     data_packet := data_packet s; retry_count := retry_count s;
     last_ack_received := last_ack_received s |}.

Definition set_retry (s : state) (n : nat) : state :=
  {| client_addr := client_addr s; input_file := input_file s;
     block_num := block_num s; bytes_read := bytes_read s;
     data_packet := data_packet s; retry_count := n;
     last_ack_received := last_ack_received s |}.

Definition set_acked (s : state) : state :=
  {| client_addr := client_addr s; input_file := input_file s;
     block_num := block_num s; bytes_read := bytes_read s;
     data_packet := data_packet s; retry_count := retry_count s;
     last_ack_received := true |}.

Definition set_block (s : state) (b : N) : state :=
  {| client_addr := client_addr s; input_file := input_file s;
     block_num := b; bytes_read := bytes_read s;
     data_packet := data_packet s; retry_count := retry_count s;
     last_ack_received := last_ack_received s |}.

(** From [do {] down to the first [recvfrom] of the retry loop. *)
Definition send_next (s : state) (i : input) : control * state * list sent :=
  let '(chunk, rest) := read_chunk (input_file s) in
  match create_data_packet (block_num s) chunk with
  | None => (Throw "Data size exceeds maximum allowed", s, [])
  | Some packet =>
      let s1 := {| client_addr := client_addr s; input_file := rest;
                   block_num := block_num s; bytes_read := length chunk;
                   data_packet := packet; retry_count := O;
                   last_ack_received := last_ack_received s |} in
      if negb (send_ok i) then
        (Throw "Send failed during RRQ.", s1, [to_client s packet])
      else (Await, s1, [to_client s packet])
  end.

(** Below the retry loop: the [last_ack_received] test, the increment and
    the [while (bytes_read == MAX_DATA_SIZE)] condition. *)
Definition after_retry_loop (s : state) (i : input)
  : control * state * list sent :=
  if negb (last_ack_received s) then
    (Throw "Transfer aborted due to timeout.", s, [])
  else
    let s1 := set_block s (incr16 (block_num s)) in
    if (bytes_read s =? MAX_DATA_SIZE)%nat then send_next s1 i
    else (Return, s1, []).

(** [continue] inside [while (retry_count < MAX_RETRIES)]. *)
Definition retry_loop (s : state) (i : input) : control * state * list sent :=
  if (retry_count s <? MAX_RETRIES)%nat then (Await, s, [])
  else after_retry_loop s i.

(** One [recvfrom] of the retry loop and everything up to the next one.
    The one [send_ok] of the input answers every [sendto] made here. *)
Definition step (s : state) (i : input) : control * state * list sent :=
  match recv i with
  | Timeout =>
      let s1 := set_retry s (S (retry_count s)) in
      let again := to_client s (data_packet s) in
      if negb (send_ok i) then
        (Throw "Send failed during RRQ retry.", s1, [again])
      else prepend [again] (retry_loop s1 i)
  | RecvFailed => (Throw "Receive failed waiting for ACK.", s, [])
  | Datagram src payload =>
      let s := set_client s src in
      let ack_buffer := recvfrom_buffer payload in
      let opcode := get_opcode ack_buffer in
      if opcode =? TFTP_OPCODE_ACK then
        match parse_ack_packet ack_buffer with
        | Some acked_block_num =>
            if acked_block_num =? block_num s then
              after_retry_loop (set_acked s) i
            else if acked_block_num <? block_num s then retry_loop s i
            else (Throw "Protocol error: Unexpected ACK number.", s, [])
        | None => retry_loop s i
        end
      else if opcode =? TFTP_OPCODE_ERROR then (Return, s, [])
      else retry_loop s i
  end.

(** Opening the file and the first DATA packet. [file] is [None] when the
    [ifstream] cannot be opened. *)
Definition start (client : sockaddr_in) (file : option (list byte))
    (i : input) : control * state * list sent :=
  let s0 := {| client_addr := client; input_file := [];
               block_num := 1; bytes_read := O; data_packet := [];
               retry_count := O; last_ack_received := false |} in
  match file with
  | None =>
      (Return, s0,
       [to_client s0 (create_error_packet TFTP_ERROR_FILE_NOT_FOUND
                        (str "File not found"))])
  | Some contents =>
      send_next {| client_addr := client; input_file := contents;
                   block_num := 1; bytes_read := O; data_packet := [];
                   retry_count := O; last_ack_received := false |} i
  end.

(** The whole of [handle_read_request]: the first input answers the calls
    made before the first [recvfrom] and carries no receive of its own. *)
Definition handle_read_request (client : sockaddr_in)
    (file : option (list byte)) (i0 : input) (ins : list input)
  : control * state * list sent :=
  and_then step (start client file i0) ins.

End HandleReadRequest.

(** ** Server WRQ: [handle_write_request] in [tftp_server.cpp] *)

Module HandleWriteRequest.
Import Codec Net.

Record state : Type := {
  client_addr : sockaddr_in;     (* overwritten by every [recvfrom] *)
  expected_block_num : N;
  transfer_complete : bool;
  (* [filename]: before the [ofstream] is opened the file found on disk,
     afterwards the bytes the stream has taken; [None] when there is no
     file, in particular once it is removed *)
  local_file : option (list byte)
}.

Definition to_client (s : state) (p : list byte) : sent :=
  {| dst := client_addr s; pkt := p |}.

(** [output_file.close(); remove(filepath.c_str())]. *)
Definition remove (s : state) : state :=
  {| client_addr := client_addr s;
     expected_block_num := expected_block_num s;
     transfer_complete := transfer_complete s;
     local_file := None |}.

(** [output_file.write(data_ptr, data_size)] on a stream that is good
    afterwards: the stream has taken the bytes. Whether they are on disk
    is settled only by the flush, see [disk_after]. *)
Definition write (s : state) (data : list byte) : state :=
  {| client_addr := client_addr s;
     expected_block_num := expected_block_num s;
     transfer_complete := transfer_complete s;
     local_file := option_map (fun f => f ++ data) (local_file s) |}.

Definition set_client (s : state) (a : sockaddr_in) : state :=
  {| client_addr := a;
     expected_block_num := expected_block_num s;
     transfer_complete := transfer_complete s;
     local_file := local_file s |}.

Definition set_complete (s : state) : state :=
  {| client_addr := client_addr s;
     expected_block_num := expected_block_num s;
     transfer_complete := true;
     local_file := local_file s |}.

Definition next_block (s : state) : state :=
  {| client_addr := client_addr s;
     expected_block_num := incr16 (expected_block_num s);
     transfer_complete := transfer_complete s;
     local_file := local_file s |}.

(** Everything before the receive loop. [status_ok] is whether
    [std::filesystem::exists(filepath)] can tell if the path exists: when
    it cannot (a name longer than the file system takes, a directory that
    may not be searched) it throws [std::filesystem::filesystem_error],
    and as the call is not guarded the exception leaves the handler
    before anything is sent; its text is the library's. [on_disk] is the
    file as [exists] finds it, [open_ok] whether the [ofstream] can be
    opened, [sendto_ok] whether the ACK 0 goes out. *)
Definition start (client : sockaddr_in) (status_ok : bool)
    (on_disk : option (list byte)) (open_ok sendto_ok : bool)
  : control * state * list sent :=
  let s0 := {| client_addr := client; expected_block_num := 1;
               transfer_complete := false; local_file := on_disk |} in
  if negb status_ok then (Throw "filesystem error", s0, [])
  else
    match on_disk with
    | Some _ =>
        (Return, s0,
         [to_client s0 (create_error_packet TFTP_ERROR_FILE_ALREADY_EXISTS
                          (str "File already exists"))])
    | None =>
        if negb open_ok then
          (Return, s0,
           [to_client s0 (create_error_packet TFTP_ERROR_ACCESS_VIOLATION
                            (str "Cannot write file"))])
        else
          let s1 := {| client_addr := client; expected_block_num := 1;
                       transfer_complete := false; local_file := Some [] |} in
          let ack0 := to_client s1 (create_ack_packet 0) in
          if negb sendto_ok then
            (Throw "Send failed (ACK 0).", remove s1, [ack0])
          else (Await, s1, [ack0])
    end.

(** One iteration of [while (!transfer_complete)]. *)
Definition step (s : state) (i : input) : control * state * list sent :=
  match recv i with
  | Timeout | RecvFailed =>
      (Throw "Receive failed or timed out waiting for DATA.", remove s, [])
  | Datagram src payload =>
      let s := set_client s src in
      let data_buffer := recvfrom_buffer payload in
      let opcode := get_opcode data_buffer in
      if opcode =? TFTP_OPCODE_DATA then
        match parse_data_packet data_buffer with
        | None =>
            (Throw "Malformed DATA received.", remove s,
             [to_client s (create_error_packet TFTP_ERROR_ILLEGAL_OPERATION
                             (str "Malformed DATA packet"))])
        | Some (block_num, data) =>
            if block_num =? expected_block_num s then
              if negb (write_ok i) then
                (Throw "File write error during WRQ.", remove s,
                 [to_client s (create_error_packet TFTP_ERROR_DISK_FULL
                                 (str "Disk full or write error"))])
              else
                let s1 := write s data in
                let ack := to_client s (create_ack_packet block_num) in
                if negb (send_ok i) then
                  (Throw "sendto failed (ACK)", remove s1, [ack])
                else if (length data <? MAX_DATA_SIZE)%nat then
                  (Return, set_complete s1, [ack])
                else (Await, next_block s1, [ack])
            else if block_num <? expected_block_num s then
              (Await, s, [to_client s (create_ack_packet block_num)])
            else
              (Throw "Protocol error: Unexpected block number.", remove s,
               [to_client s (create_error_packet TFTP_ERROR_ILLEGAL_OPERATION
                               (str "Unexpected block number"))])
        end
      else if opcode =? TFTP_OPCODE_ERROR then (Return, remove s, [])
      else
        (Throw "Protocol error: Unexpected packet type.", remove s,
         [to_client s (create_error_packet TFTP_ERROR_ILLEGAL_OPERATION
                         (str "Unexpected packet type"))])
  end.

(** The whole of [handle_write_request]. *)
Definition handle_write_request (client : sockaddr_in) (status_ok : bool)
    (on_disk : option (list byte)) (open_ok sendto_ok : bool)
    (ins : list input) : control * state * list sent :=
  and_then step (start client status_ok on_disk open_ok sendto_ok) ins.

(** The file on disk after the call. Where the transfer was completed,
    [output_file.close()] flushes the stream and its result is not looked
    at: of the bytes the stream has taken, the first [reached] are on
    disk. The same holds while the loop is still waiting. On the other
    paths no stream is left: the file has been removed, or the handler
    returned or threw before opening it and the file is as it was found. *)
Definition disk_after (r : control * state * list sent) (reached : nat)
  : option (list byte) :=
  let s := state_of r in
  match control_of r with
  | Throw _ => local_file s
  | Return =>
      if transfer_complete s then option_map (firstn reached) (local_file s)
      else local_file s
  | Await => option_map (firstn reached) (local_file s)
  end.

End HandleWriteRequest.

(** ** A peer that acknowledges every block once, in order *)

Module Peer.
Import Codec Net.

Definition ack_from (peer : sockaddr_in) (b : N) : input :=
  {| recv := Datagram peer (create_ack_packet b);
     send_ok := true; write_ok := true |}.

Fixpoint acks_from (peer : sockaddr_in) (b : N) (n : nat) : list input :=
  match n with
  | O => []
  | S n' => ack_from peer b :: acks_from peer (incr16 b) n'
  end.

(** The bytes of a packet value on the wire. *)
Definition wire (p : Packet) : list byte :=
  match encode p with
  | Some bytes => bytes
  | None => []
  end.

(** The first [k] blocks of [file], numbered from [b], as Data packets. *)
Fixpoint full_blocks (b : N) (file : list byte) (k : nat) : list Packet :=
  match k with
  | O => []
  | S k' =>
      Data b (firstn MAX_DATA_SIZE file)
      :: full_blocks (incr16 b) (skipn MAX_DATA_SIZE file) k'
  end.

(** The block number reached from [b] after [k] blocks. *)
Definition block_after (k : nat) (b : N) : N := Nat.iter k incr16 b.

(** A file of [k] full blocks as the sender must put it on the wire:
    the [k] full blocks, then one empty block. *)
Definition blocks_then_empty (b : N) (file : list byte) (k : nat)
  : list Packet :=
  full_blocks b file k ++ [Data (block_after k b) []].

Definition sent_to (peer : sockaddr_in) (ps : list Packet) : list sent :=
  map (fun p => {| dst := peer; pkt := wire p |}) ps.

Definition timeout : input :=
  {| recv := Timeout; send_ok := true; write_ok := true |}.

(** A Data packet from [peer], handled with working disk and socket. *)
Definition data_from (peer : sockaddr_in) (b : N) (d : list byte) : input :=
  {| recv := Datagram peer (wire (Data b d));
     send_ok := true; write_ok := true |}.

End Peer.

(** ** A whole file as the blocks that carry it *)

Module Blocks.
Import Codec Net.

(** [file] cut into [k] blocks of [MAX_DATA_SIZE] bytes numbered from [b],
    followed by one block holding what is left. *)
Fixpoint blocks_of (b : N) (file : list byte) (k : nat) : list Packet :=
  match k with
  | O => [Data b file]
  | S k' =>
      Data b (firstn MAX_DATA_SIZE file)
      :: blocks_of (incr16 b) (skipn MAX_DATA_SIZE file) k'
  end.

(** The number of full blocks of a file. *)
Definition full_count (file : list byte) : nat :=
  (length file / MAX_DATA_SIZE)%nat.

(** [n] acknowledgements in a row, the first for block [b]. *)
Fixpoint ack_run (b : N) (n : nat) : list Packet :=
  match n with
  | O => []
  | S n' => Ack b :: ack_run (incr16 b) n'
  end.

(** Packets arriving from [peer], one per receive, with disk and socket
    in working order. *)
Definition arriving (peer : sockaddr_in) (ps : list Packet) : list input :=
  map (fun p => {| recv := Datagram peer (Peer.wire p);
                   send_ok := true; write_ok := true |}) ps.

(** What was handed to [sendto], delivered to the other side as it is. *)
Definition delivered (from : sockaddr_in) (out : list sent) : list input :=
  map (fun p => {| recv := Datagram from (pkt p);
                   send_ok := true; write_ok := true |}) out.

(** What was handed to [sendto] as the receiver reads it: for each
    datagram its destination and what [parse] makes of its bytes. *)
Definition decoded (out : list sent) : list (sockaddr_in * option Packet) :=
  map (fun p => (dst p, parse (pkt p))) out.

(** The packets [ps], each one readable and on its way to [peer]. *)
Definition addressed (peer : sockaddr_in) (ps : list Packet)
  : list (sockaddr_in * option Packet) :=
  map (fun p => (peer, Some p)) ps.

(** A Data packet handed to [sendto]. *)
Definition is_data (p : sent) : Prop :=
  get_opcode (pkt p) = TFTP_OPCODE_DATA.

(** In [send_file] the packet kept for retransmission is a Data packet
    once the first block has been sent. *)
Definition client_ready (s : SendFile.state) : Prop :=
  SendFile.waiting s = SendFile.WaitAck0
  \/ get_opcode (SendFile.data_packet s) = TFTP_OPCODE_DATA.

(** The output file after, compared with the output file before:
    removed, or the same bytes with more bytes appended. *)
Definition grown (before after : option (list byte)) : Prop :=
  match before with
  | Some old => after = None \/ exists more, after = Some (old ++ more)
  | None => after = None
  end.

End Blocks.

(** ** The dispatcher: one iteration of [run_server] in [tftp_server.cpp] *)

Module RunServer.
Import Codec Net.

(** [tolower] in the C locale. *)
Definition tolower (c : byte) : byte :=
  let n := Byte.to_N c in
  if (65 <=? n) && (n <=? 90) then byte_of_N (n + 32) else c.

(** [operator==] on two [std::string]s. *)
Fixpoint string_eqb (a b : list byte) : bool :=
  match a, b with
  | [], [] => true
  | x :: a', y :: b' => Byte.eqb x y && string_eqb a' b'
  | _, _ => false
  end.

Fixpoint starts_with (pat s : list byte) : bool :=
  match pat, s with
  | [], _ => true
  | _ :: _, [] => false
  | p :: pat', x :: s' => Byte.eqb p x && starts_with pat' s'
  end.

(** [s.find(pat) != std::string::npos]. *)
Fixpoint find (pat s : list byte) : bool :=
  starts_with pat s
  || match s with
     | [] => false
     | _ :: s' => find pat s'
     end.

(** [pat] occurs somewhere in [s]. *)
Definition contains (pat s : list byte) : Prop :=
  exists before after, s = before ++ pat ++ after.

(** The test on the requested name: "..", '/' or a backslash. *)
Definition potential_path_traversal (filename : list byte) : bool :=
  find (str "..") filename || find [x2f] filename || find [x5c] filename.

(** What [std::filesystem] answers for the requested path: it lies under
    the base directory, it does not, or [absolute] throws. *)
Inductive path_outcome : Type :=
| InsideBase
| OutsideBase
| FilesystemError.

(** The environment of one iteration: whether the transfer socket can be
    created, whether its timeout can be set, and the path check. *)
Record server_env : Type :=
  { socket_ok : bool; timeout_ok : bool; path_check : path_outcome }.

(** The handler the iteration ends in, if any. *)
Inductive action : Type :=
| NoTransfer
| ServeRead (client : sockaddr_in) (filename : list byte)
| ServeWrite (client : sockaddr_in) (filename : list byte).

Definition reply (client : sockaddr_in) (code : N) (msg : string) : sent :=
  {| dst := client; pkt := create_error_packet code (str msg) |}.

(** One iteration of [while (true)] up to the call of a handler: the
    packets sent from the transfer socket and the handler to call. *)
Definition dispatch (r : recv_result) (env : server_env)
  : list sent * action :=
  match r with
  | Timeout | RecvFailed => ([], NoTransfer)
  | Datagram client_addr payload =>
      let buffer := recvfrom_buffer payload in
      let opcode := get_opcode buffer in
      if negb (socket_ok env) then ([], NoTransfer)
      else if negb (timeout_ok env) then ([], NoTransfer)
      else
        match parse_request_packet buffer with
        | Some (filename, mode) =>
            if potential_path_traversal filename then
              ([reply client_addr TFTP_ERROR_ACCESS_VIOLATION
                      "Invalid filename characters"], NoTransfer)
            else
              match path_check env with
              | OutsideBase =>
                  ([reply client_addr TFTP_ERROR_ACCESS_VIOLATION
                          "Access denied"], NoTransfer)
              | FilesystemError =>
                  ([reply client_addr TFTP_ERROR_NOT_DEFINED
                          "Internal server error processing path"],
                   NoTransfer)
              | InsideBase =>
                  let lower_mode := map tolower mode in
                  if negb (string_eqb lower_mode (str "octet")) then
                    ([reply client_addr TFTP_ERROR_ILLEGAL_OPERATION
                            "Unsupported mode (use octet)"], NoTransfer)
                  else if opcode =? TFTP_OPCODE_RRQ then
                    ([], ServeRead client_addr filename)
                  else ([], ServeWrite client_addr filename)
              end
        | None =>
            ([reply client_addr TFTP_ERROR_ILLEGAL_OPERATION
                    "Malformed request packet"], NoTransfer)
        end
  end.

(** One whole iteration: the dispatch, then the handler run against the
    receive outcomes of its transfer socket; the result is what was sent
    and the requested file on disk afterwards. [on_disk] is the requested
    file as the handler finds it, [status_ok] whether its existence can
    be checked, [open_ok] whether it can be created, [reached] how many
    bytes the flush of the final [close] writes; the exception a handler
    throws is caught and only logged. *)
Definition serve (r : recv_result) (env : server_env) (status_ok : bool)
    (on_disk : option (list byte)) (open_ok : bool) (reached : nat)
    (i0 : input) (ins : list input) : list sent * option (list byte) :=
  let '(out, act) := dispatch r env in
  match act with
  | NoTransfer => (out, on_disk)
  | ServeRead client filename =>
      (out ++ sent_of (HandleReadRequest.handle_read_request
                         client on_disk i0 ins),
       on_disk)
  | ServeWrite client filename =>
      let w := HandleWriteRequest.handle_write_request
                 client status_ok on_disk open_ok (send_ok i0) ins in
      (out ++ sent_of w, HandleWriteRequest.disk_after w reached)
  end.

End RunServer.

(** * Properties *)

(** Case analysis on every test a loop body makes. *)
Ltac split_step :=
  repeat match goal with
         | |- context [match ?x with _ => _ end] => destruct x
         | |- context [if ?b then _ else _] => destruct b
         end.

(** ** The codec *)

Section CodecFacts.
Import Codec.

Lemma byte_of_N_small (n : N) : n < 256 -> Byte.to_N (byte_of_N n) = n.
Proof.
  intros Hn. unfold byte_of_N. rewrite N.mod_small by exact Hn.
  destruct (Byte.of_N n) as [b|] eqn:E.
  - apply Byte.to_of_N. exact E.
  - apply Byte.of_N_None_iff in E. lia.
Qed.

Lemma byte_of_N_low (n : N) : Byte.to_N (byte_of_N n) = n mod 256.
Proof.
  unfold byte_of_N.
  assert (Hlt : n mod 256 < 256) by (apply N.mod_lt; lia).
  destruct (Byte.of_N (n mod 256)) as [b|] eqn:E.
  - apply Byte.to_of_N. exact E.
  - apply Byte.of_N_None_iff in E. lia.
Qed.

Lemma read_u16_put_u16 (v : N) (rest : list byte) :
  v < 65536 -> read_u16 0 (put_u16 v ++ rest) = v.
Proof.
  intros Hv. unfold read_u16, put_u16. cbn [app nth].
  rewrite (byte_of_N_low v), (byte_of_N_small (v / 256)).
  - rewrite N.mul_comm. symmetry. apply N.div_mod. lia.
  - apply N.Div0.div_lt_upper_bound. lia.
Qed.

Lemma memchr_terminator (s rest : list byte) :
  c_string s -> memchr x00 (s ++ x00 :: rest) = Some (length s).
Proof.
  unfold c_string. induction s as [|a s IH]; intros Hs.
  - reflexivity.
  - cbn [app memchr length].
    destruct (Byte.eqb a x00) eqn:E.
    + apply Byte.byte_dec_bl in E. subst a. exfalso. apply Hs. now left.
    + rewrite IH; [reflexivity|]. intros Hin. apply Hs. now right.
Qed.

Lemma memchr_absent (s : list byte) : c_string s -> memchr x00 s = None.
Proof.
  unfold c_string. induction s as [|a s IH]; intros Hs.
  - reflexivity.
  - cbn [memchr]. destruct (Byte.eqb a x00) eqn:E.
    + apply Byte.byte_dec_bl in E. subst a. exfalso. apply Hs. now left.
    + rewrite IH; [reflexivity|]. intros Hin. apply Hs. now right.
Qed.

Lemma firstn_prefix {A} (s rest : list A) : firstn (length s) (s ++ rest) = s.
Proof.
  induction s as [|a s IH]; [reflexivity|]. cbn. now rewrite IH.
Qed.

Lemma skipn_prefix {A} (s rest : list A) : skipn (length s) (s ++ rest) = rest.
Proof.
  induction s as [|a s IH]; [reflexivity|]. cbn. exact IH.
Qed.

Lemma skipn_past_terminator {A} (s rest : list A) (z : A) :
  skipn (S (length s)) (s ++ z :: rest) = rest.
Proof.
  induction s as [|a s IH]; [reflexivity|]. cbn [length app]. exact IH.
Qed.

(** The request parser on the bytes of a well-formed request. *)
Lemma parse_request_created (o0 o1 : byte) (f m : list byte) :
  get_opcode [o0; o1] = TFTP_OPCODE_RRQ \/
  get_opcode [o0; o1] = TFTP_OPCODE_WRQ ->
  f <> [] -> c_string f -> m <> [] -> c_string m ->
  parse_request_packet ([o0; o1] ++ f ++ [x00] ++ m ++ [x00]) = Some (f, m).
Proof.
  intros Hop Hf Hcf Hm Hcm.
  unfold parse_request_packet.
  assert (Hopc : get_opcode ([o0; o1] ++ f ++ [x00] ++ m ++ [x00])
                 = get_opcode [o0; o1]) by reflexivity.
  rewrite Hopc.
  assert (Hsel : negb (get_opcode [o0; o1] =? TFTP_OPCODE_RRQ)
                 && negb (get_opcode [o0; o1] =? TFTP_OPCODE_WRQ) = false).
  { destruct Hop as [-> | ->]; reflexivity. }
  rewrite Hsel.
  assert (Hlen : (length ([o0; o1] ++ f ++ [x00] ++ m ++ [x00]) <? 6)%nat
                 = false).
  { apply Nat.ltb_ge. destruct f; [congruence|]. destruct m; [congruence|].
    cbn [app length]. rewrite length_app. cbn [length].
    rewrite length_app. cbn [length]. lia. }
  rewrite Hlen.
  change (skipn 2 ([o0; o1] ++ f ++ [x00] ++ m ++ [x00]))
    with (f ++ x00 :: (m ++ [x00])).
  cbv zeta.
  rewrite (memchr_terminator f _ Hcf), skipn_past_terminator, firstn_prefix.
  destruct f as [|a f']; [congruence|]. cbn [length].
  destruct m as [|b m']; [congruence|].
  rewrite (memchr_terminator (b :: m') [] Hcm), firstn_prefix.
  reflexivity.
Qed.

End CodecFacts.

Section Roundtrip.
Import Codec.

Lemma read_u16_after_opcode (o0 o1 : byte) (v : N) (rest : list byte) :
  v < 65536 -> read_u16 2 ([o0; o1] ++ put_u16 v ++ rest) = v.
Proof.
  intros Hv.
  change (read_u16 2 ([o0; o1] ++ put_u16 v ++ rest))
    with (read_u16 0 (put_u16 v ++ rest)).
  now apply read_u16_put_u16.
Qed.

Lemma parse_data_created (b : N) (d : list byte) :
  b < 65536 ->
  parse_data_packet (put_u16 TFTP_OPCODE_DATA ++ put_u16 b ++ d)
  = Some (b, d).
Proof.
  intros Hb. unfold parse_data_packet.
  change (put_u16 TFTP_OPCODE_DATA) with [x00; x03].
  change (length ([x00; x03] ++ put_u16 b ++ d) <? DATA_HEADER_SIZE)%nat
    with false.
  change (get_opcode ([x00; x03] ++ put_u16 b ++ d)) with 3.
  cbn [orb negb N.eqb Pos.eqb TFTP_OPCODE_DATA].
  rewrite read_u16_after_opcode by exact Hb. reflexivity.
Qed.

Lemma parse_ack_created (b : N) :
  b < 65536 -> parse_ack_packet (create_ack_packet b) = Some b.
Proof.
  intros Hb. unfold parse_ack_packet, create_ack_packet.
  change (put_u16 TFTP_OPCODE_ACK) with [x00; x04].
  change (get_opcode ([x00; x04] ++ put_u16 b)) with 4.
  cbn [negb orb length app put_u16 Nat.eqb ACK_PACKET_SIZE N.eqb Pos.eqb
       TFTP_OPCODE_ACK].
  change [byte_of_N (b / 256); byte_of_N b] with (put_u16 b).
  rewrite <- (app_nil_r (put_u16 b)).
  change (x00 :: x04 :: put_u16 b ++ []) with ([x00; x04] ++ put_u16 b ++ []).
  rewrite read_u16_after_opcode by exact Hb. reflexivity.
Qed.

Lemma parse_error_created (c : N) (m : list byte) :
  c < 65536 -> c_string m ->
  parse_error_packet (create_error_packet c m) = Some (c, m).
Proof.
  intros Hc Hm. unfold parse_error_packet, create_error_packet.
  change (put_u16 TFTP_OPCODE_ERROR) with [x00; x05].
  change (get_opcode ([x00; x05] ++ put_u16 c ++ m ++ [x00])) with 5.
  assert (Hlen : (length ([x00; x05] ++ put_u16 c ++ m ++ [x00])
                  <? ERROR_HEADER_SIZE + 1)%nat = false).
  { apply Nat.ltb_ge. unfold put_u16, ERROR_HEADER_SIZE. cbn [app length].
    rewrite length_app. cbn [length]. lia. }
  rewrite Hlen. cbn [orb negb N.eqb Pos.eqb TFTP_OPCODE_ERROR]. cbv zeta.
  rewrite read_u16_after_opcode by exact Hc.
  change (skipn ERROR_HEADER_SIZE ([x00; x05] ++ put_u16 c ++ m ++ [x00]))
    with (m ++ [x00]).
  rewrite (memchr_terminator m [] Hm), firstn_prefix. reflexivity.
Qed.

(** C3. For every valid packet [P] (a request with non-empty, zero-free
    file name and mode, Data with at most 512 payload bytes, Ack, or Error
    with a zero-free message), encoding succeeds and parsing the encoded
    bytes gives [P] back: parse (encode P) = P. *)
Theorem parse_encode_roundtrip (P : Packet) :
  valid_packet P ->
  exists bytes, encode P = Some bytes /\ parse bytes = Some P.
Proof.
  destruct P as [f m | f m | b d | b | c m]; cbn [valid_packet encode].
  - intros (Hf & Hcf & Hm & Hcm).
    eexists; split; [reflexivity|].
    unfold parse, create_rrq_packet.
    change (put_u16 TFTP_OPCODE_RRQ) with [x00; x01].
    change (get_opcode ([x00; x01] ++ f ++ [x00] ++ m ++ [x00])) with 1.
    cbn [N.eqb Pos.eqb TFTP_OPCODE_RRQ].
    rewrite parse_request_created; auto.
  - intros (Hf & Hcf & Hm & Hcm).
    eexists; split; [reflexivity|].
    unfold parse, create_wrq_packet.
    change (put_u16 TFTP_OPCODE_WRQ) with [x00; x02].
    change (get_opcode ([x00; x02] ++ f ++ [x00] ++ m ++ [x00])) with 2.
    cbn [N.eqb Pos.eqb TFTP_OPCODE_RRQ TFTP_OPCODE_WRQ].
    rewrite parse_request_created; auto.
  - intros (Hb & Hd).
    unfold create_data_packet.
    apply Nat.ltb_ge in Hd. rewrite Hd.
    eexists; split; [reflexivity|].
    unfold parse.
    change (get_opcode (put_u16 TFTP_OPCODE_DATA ++ put_u16 b ++ d)) with 3.
    cbn [N.eqb Pos.eqb TFTP_OPCODE_RRQ TFTP_OPCODE_WRQ TFTP_OPCODE_DATA].
    rewrite parse_data_created by exact Hb. reflexivity.
  - intros Hb.
    eexists; split; [reflexivity|].
    unfold parse.
    change (get_opcode (create_ack_packet b)) with 4.
    cbn [N.eqb Pos.eqb TFTP_OPCODE_RRQ TFTP_OPCODE_WRQ TFTP_OPCODE_DATA
         TFTP_OPCODE_ACK].
    rewrite parse_ack_created by exact Hb. reflexivity.
  - intros (Hc & Hm).
    eexists; split; [reflexivity|].
    unfold parse.
    change (get_opcode (create_error_packet c m)) with 5.
    cbn [N.eqb Pos.eqb TFTP_OPCODE_RRQ TFTP_OPCODE_WRQ TFTP_OPCODE_DATA
         TFTP_OPCODE_ACK TFTP_OPCODE_ERROR].
    rewrite parse_error_created by assumption. reflexivity.
Qed.

End Roundtrip.

Section DataLength.
Import Codec Net.

(** C6, as stated, fails: a Data buffer carrying 513 payload bytes is
    parsed successfully, with all 513 bytes as its payload; and the same
    bytes arriving as a datagram in a GET are cut to 516 by the receive
    buffer, written and acknowledged as a full block, not rejected. *)
Lemma oversized_data_is_parsed :
  parse_data_packet ([x00; x03; x00; x01] ++ repeat x41 513)
  = Some (1, repeat x41 513)
  /\ (MAX_DATA_SIZE < length (repeat x41 513))%nat
  /\ ReceiveFile.step
       {| ReceiveFile.expected_block_num := 1;
          ReceiveFile.server_addr := {| s_addr := 10; sin_port := 2000 |};
          ReceiveFile.first_data_packet := false;
          ReceiveFile.transfer_complete := false;
          ReceiveFile.local_file := Some [] |}
       {| recv := Datagram {| s_addr := 10; sin_port := 2000 |}
                    ([x00; x03; x00; x01] ++ repeat x41 513);
          send_ok := true; write_ok := true |}
     = (Await,
        {| ReceiveFile.expected_block_num := 2;
           ReceiveFile.server_addr := {| s_addr := 10; sin_port := 2000 |};
           ReceiveFile.first_data_packet := false;
           ReceiveFile.transfer_complete := false;
           ReceiveFile.local_file := Some (repeat x41 512) |},
        [{| dst := {| s_addr := 10; sin_port := 2000 |};
            pkt := [x00; x04; x00; x01] |}]).
Proof.
  split; [vm_compute; reflexivity|].
  split; [rewrite repeat_length; unfold MAX_DATA_SIZE; lia|].
  vm_compute; reflexivity.
Qed.

(** C6, amended. The 512-byte limit is enforced on send only:
    [create_data_packet] fails exactly when the data is longer than 512
    bytes. On receive [parse_data_packet] accepts every buffer of at least
    four bytes with opcode 3, whatever the length of its payload, and
    returns everything after the header; the only bound on a received
    payload is the 516-byte receive buffer. *)
Theorem data_length_checked_on_send_only :
  (forall (b : N) (d : list byte),
      create_data_packet b d = None <-> (MAX_DATA_SIZE < length d)%nat)
  /\ (forall buffer : list byte,
         (DATA_HEADER_SIZE <= length buffer)%nat ->
         get_opcode buffer = TFTP_OPCODE_DATA ->
         parse_data_packet buffer
         = Some (read_u16 2 buffer, skipn DATA_HEADER_SIZE buffer))
  /\ (forall payload : list byte,
         (length (recvfrom_buffer payload) <= MAX_PACKET_SIZE)%nat).
Proof.
  split; [|split].
  - intros b d. unfold create_data_packet.
    destruct (MAX_DATA_SIZE <? length d)%nat eqn:E.
    + apply Nat.ltb_lt in E. split; [intros _; exact E | reflexivity].
    + apply Nat.ltb_ge in E. split; [discriminate | lia].
  - intros buffer Hlen Hop. unfold parse_data_packet.
    apply Nat.ltb_ge in Hlen. rewrite Hlen, Hop. reflexivity.
  - intros payload. unfold recvfrom_buffer. rewrite length_firstn. lia.
Qed.

Lemma data_length_checked_on_send_only_witness :
  ((DATA_HEADER_SIZE <= length ([x00; x03; x00; x07] ++ repeat x41 600))%nat
   /\ get_opcode ([x00; x03; x00; x07] ++ repeat x41 600) = TFTP_OPCODE_DATA)
  /\ parse_data_packet ([x00; x03; x00; x07] ++ repeat x41 600)
     = Some (read_u16 2 ([x00; x03; x00; x07] ++ repeat x41 600),
             skipn DATA_HEADER_SIZE ([x00; x03; x00; x07] ++ repeat x41 600)).
Proof.
  assert (H1 : (DATA_HEADER_SIZE
                <= length ([x00; x03; x00; x07] ++ repeat x41 600))%nat).
  { rewrite length_app, repeat_length. unfold DATA_HEADER_SIZE. cbn. lia. }
  assert (H2 : get_opcode ([x00; x03; x00; x07] ++ repeat x41 600)
               = TFTP_OPCODE_DATA) by (vm_compute; reflexivity).
  split; [split; assumption|].
  exact (proj1 (proj2 data_length_checked_on_send_only) _ H1 H2).
Defined.

End DataLength.

Section ErrorMessage.
Import Codec.

(** C7, as stated, fails: for the Error buffer 00 05 00 01 'A' 'B', which
    has no zero terminator, parsing succeeds but the message returned is
    the fixed text, not the remainder "AB" of the buffer. *)
Lemma unterminated_error_message_replaced :
  memchr x00 (skipn 4 [x00; x05; x00; x01; x41; x42]) = None
  /\ parse_error_packet [x00; x05; x00; x01; x41; x42]
     = Some (1, str "Malformed error packet received")
  /\ parse_error_packet [x00; x05; x00; x01; x41; x42]
     <> Some (1, skipn 4 [x00; x05; x00; x01; x41; x42]).
Proof.
  split; [reflexivity|]. split; [reflexivity|].
  vm_compute. discriminate.
Qed.

(** C7, amended. For every Error buffer of at least five bytes whose
    message bytes contain no zero terminator, parsing succeeds and yields
    the error code of the header; the message is replaced by the fixed
    text "Malformed error packet received", and no separate flag is
    returned. *)
Theorem unterminated_error_parses_with_fixed_text (buffer : list byte) :
  (ERROR_HEADER_SIZE + 1 <= length buffer)%nat ->
  get_opcode buffer = TFTP_OPCODE_ERROR ->
  c_string (skipn ERROR_HEADER_SIZE buffer) ->
  parse_error_packet buffer
  = Some (read_u16 2 buffer, str "Malformed error packet received").
Proof.
  intros Hlen Hop Hz. unfold parse_error_packet.
  apply Nat.ltb_ge in Hlen. rewrite Hlen, Hop. cbn [negb orb N.eqb].
  change (negb (TFTP_OPCODE_ERROR =? TFTP_OPCODE_ERROR)) with false.
  cbv zeta. rewrite (memchr_absent _ Hz). reflexivity.
Qed.

Lemma unterminated_error_parses_with_fixed_text_witness :
  ((ERROR_HEADER_SIZE + 1 <= length [x00; x05; x00; x01; x41; x42])%nat
   /\ get_opcode [x00; x05; x00; x01; x41; x42] = TFTP_OPCODE_ERROR
   /\ c_string (skipn ERROR_HEADER_SIZE [x00; x05; x00; x01; x41; x42]))
  /\ parse_error_packet [x00; x05; x00; x01; x41; x42]
     = Some (read_u16 2 [x00; x05; x00; x01; x41; x42],
             str "Malformed error packet received").
Proof.
  assert (H1 : (ERROR_HEADER_SIZE + 1
                <= length [x00; x05; x00; x01; x41; x42])%nat)
    by (cbn; lia).
  assert (H2 : get_opcode [x00; x05; x00; x01; x41; x42] = TFTP_OPCODE_ERROR)
    by reflexivity.
  assert (H3 : c_string (skipn ERROR_HEADER_SIZE
                           [x00; x05; x00; x01; x41; x42])).
  { unfold c_string. cbn. intros [H | [H | []]]; discriminate H. }
  split; [repeat split; assumption|].
  exact (unterminated_error_parses_with_fixed_text _ H1 H2 H3).
Defined.

End ErrorMessage.

Section RoundtripWitness.
Import Codec.

Lemma parse_encode_roundtrip_witness :
  valid_packet (Error 1 (str "File not found"))
  /\ exists bytes,
       encode (Error 1 (str "File not found")) = Some bytes
       /\ parse bytes = Some (Error 1 (str "File not found")).
Proof.
  assert (H : valid_packet (Error 1 (str "File not found"))).
  { split; [reflexivity|]. unfold c_string. cbn.
    intros Hin. repeat (destruct Hin as [Hin | Hin]; [discriminate Hin|]).
    exact Hin. }
  split; [exact H|].
  exact (parse_encode_roundtrip _ H).
Defined.

End RoundtripWitness.

(** ** Packets as the receiver reads them *)

Section OnTheWire.
Import Codec Net Blocks.

Lemma parse_created_data (b : N) (d : list byte) :
  b < 65536 ->
  parse (put_u16 TFTP_OPCODE_DATA ++ put_u16 b ++ d) = Some (Data b d).
Proof.
  intros Hb. unfold parse.
  change (get_opcode (put_u16 TFTP_OPCODE_DATA ++ put_u16 b ++ d)) with 3.
  cbn [N.eqb Pos.eqb TFTP_OPCODE_RRQ TFTP_OPCODE_WRQ TFTP_OPCODE_DATA].
  rewrite parse_data_created by exact Hb. reflexivity.
Qed.

Lemma parse_created_ack (b : N) :
  b < 65536 -> parse (create_ack_packet b) = Some (Ack b).
Proof.
  intros Hb. unfold parse.
  change (get_opcode (create_ack_packet b)) with 4.
  cbn [N.eqb Pos.eqb TFTP_OPCODE_RRQ TFTP_OPCODE_WRQ TFTP_OPCODE_DATA
       TFTP_OPCODE_ACK].
  rewrite parse_ack_created by exact Hb. reflexivity.
Qed.

Lemma parse_created_error (c : N) (m : list byte) :
  c < 65536 -> c_string m ->
  parse (create_error_packet c m) = Some (Error c m).
Proof.
  intros Hc Hm. unfold parse.
  change (get_opcode (create_error_packet c m)) with 5.
  cbn [N.eqb Pos.eqb TFTP_OPCODE_RRQ TFTP_OPCODE_WRQ TFTP_OPCODE_DATA
       TFTP_OPCODE_ACK TFTP_OPCODE_ERROR].
  rewrite parse_error_created by assumption. reflexivity.
Qed.

(** The receiver reads a valid packet as the packet that was sent. *)
Lemma parse_wire (P : Packet) :
  valid_packet P -> parse (Peer.wire P) = Some P.
Proof.
  destruct P as [f m | f m | b d | b | c m];
    unfold Peer.wire; cbn [valid_packet encode].
  - intros (Hf & Hcf & Hm & Hcm).
    unfold parse, create_rrq_packet.
    change (put_u16 TFTP_OPCODE_RRQ) with [x00; x01].
    change (get_opcode ([x00; x01] ++ f ++ [x00] ++ m ++ [x00])) with 1.
    cbn [N.eqb Pos.eqb TFTP_OPCODE_RRQ].
    rewrite parse_request_created; auto.
  - intros (Hf & Hcf & Hm & Hcm).
    unfold parse, create_wrq_packet.
    change (put_u16 TFTP_OPCODE_WRQ) with [x00; x02].
    change (get_opcode ([x00; x02] ++ f ++ [x00] ++ m ++ [x00])) with 2.
    cbn [N.eqb Pos.eqb TFTP_OPCODE_RRQ TFTP_OPCODE_WRQ].
    rewrite parse_request_created; auto.
  - intros (Hb & Hd). unfold create_data_packet.
    apply Nat.ltb_ge in Hd. rewrite Hd. now apply parse_created_data.
  - intros Hb. now apply parse_created_ack.
  - intros (Hc & Hm). now apply parse_created_error.
Qed.

Lemma decoded_sent_to (peer : sockaddr_in) (ps : list Packet) :
  Forall valid_packet ps ->
  decoded (Peer.sent_to peer ps) = addressed peer ps.
Proof.
  intros Hps. unfold decoded, Peer.sent_to, addressed. rewrite map_map.
  apply map_ext_in. intros P HP. cbn [dst pkt].
  rewrite parse_wire; [reflexivity|].
  rewrite Forall_forall in Hps. now apply Hps.
Qed.

Lemma decoded_app (a b : list sent) :
  decoded (a ++ b) = decoded a ++ decoded b.
Proof. apply map_app. Qed.

Lemma addressed_app (peer : sockaddr_in) (a b : list Packet) :
  addressed peer (a ++ b) = addressed peer a ++ addressed peer b.
Proof. apply map_app. Qed.

Lemma incr16_below (b : N) : incr16 b < 65536.
Proof. unfold incr16. apply N.mod_lt. discriminate. Qed.

Lemma full_blocks_valid (k : nat) :
  forall b file, b < 65536 -> Forall valid_packet (Peer.full_blocks b file k).
Proof.
  induction k as [|k IH]; intros b file Hb; cbn [Peer.full_blocks].
  - constructor.
  - constructor.
    + split; [exact Hb|]. apply firstn_le_length.
    + apply IH, incr16_below.
Qed.

Lemma block_after_below (k : nat) (b : N) :
  b < 65536 -> Peer.block_after k b < 65536.
Proof.
  intros Hb. destruct k as [|k]; [exact Hb|].
  unfold Peer.block_after. cbn [Nat.iter]. apply incr16_below.
Qed.

Lemma blocks_then_empty_valid (b : N) (file : list byte) (k : nat) :
  b < 65536 -> Forall valid_packet (Peer.blocks_then_empty b file k).
Proof.
  intros Hb. unfold Peer.blocks_then_empty. apply Forall_app. split.
  - now apply full_blocks_valid.
  - constructor; [|constructor]. split.
    + now apply block_after_below.
    + cbn. lia.
Qed.

Lemma blocks_of_valid (k : nat) :
  forall b file,
    b < 65536 -> (length file <= MAX_DATA_SIZE * S k)%nat ->
    Forall valid_packet (blocks_of b file k).
Proof.
  induction k as [|k IH]; intros b file Hb Hlen; cbn [blocks_of].
  - constructor; [|constructor]. split; [exact Hb|lia].
  - constructor.
    + split; [exact Hb|]. apply firstn_le_length.
    + apply IH; [apply incr16_below|].
      rewrite length_skipn. unfold MAX_DATA_SIZE in *. lia.
Qed.

Lemma ack_run_valid (n : nat) :
  forall b, b < 65536 -> Forall valid_packet (ack_run b n).
Proof.
  induction n as [|n IH]; intros b Hb; cbn [ack_run].
  - constructor.
  - constructor; [exact Hb|]. apply IH, incr16_below.
Qed.

(** Only a buffer with opcode 5 is read as an Error packet, and its code
    is the number in bytes 2 and 3. *)
Lemma parse_error_inv (buffer : list byte) (c : N) (m : list byte) :
  parse buffer = Some (Error c m) ->
  get_opcode buffer = TFTP_OPCODE_ERROR /\ read_u16 2 buffer = c.
Proof.
  unfold parse.
  destruct (get_opcode buffer =? TFTP_OPCODE_RRQ);
    [destruct (parse_request_packet buffer); discriminate|].
  destruct (get_opcode buffer =? TFTP_OPCODE_WRQ);
    [destruct (parse_request_packet buffer); discriminate|].
  destruct (get_opcode buffer =? TFTP_OPCODE_DATA);
    [destruct (parse_data_packet buffer); discriminate|].
  destruct (get_opcode buffer =? TFTP_OPCODE_ACK);
    [destruct (parse_ack_packet buffer); discriminate|].
  destruct (get_opcode buffer =? TFTP_OPCODE_ERROR) eqn:Hop;
    [|discriminate].
  apply N.eqb_eq in Hop. unfold parse_error_packet.
  destruct (_ || _); [discriminate|]. cbv zeta.
  destruct (memchr x00 _); cbn [option_map fst snd]; intros H;
    injection H as <- _; now split.
Qed.

(** A packet with another opcode, or with another code in bytes 2 and 3,
    is not read as Error(UnknownTransferID). *)
Lemma not_unknown_transfer_id (buffer : list byte) :
  get_opcode buffer <> TFTP_OPCODE_ERROR
  \/ read_u16 2 buffer <> TFTP_ERROR_UNKNOWN_TRANSFER_ID ->
  forall msg, parse buffer <> Some (Error TFTP_ERROR_UNKNOWN_TRANSFER_ID msg).
Proof.
  intros H msg Hp. apply parse_error_inv in Hp. destruct Hp as [Hop Hc].
  destruct H as [H | H]; contradiction.
Qed.

End OnTheWire.

(** ** Transfer identifiers *)

Section ForeignSource.
Import Codec Net.

Lemma same_endpoint_true (a b : sockaddr_in) :
  same_endpoint a b = true <-> a = b.
Proof.
  unfold same_endpoint. destruct a as [ia pa], b as [ib pb]. cbn.
  rewrite andb_true_iff, !N.eqb_eq. split.
  - intros [-> ->]. reflexivity.
  - intros H. injection H as -> ->. now split.
Qed.

Lemma same_endpoint_refl (a : sockaddr_in) : same_endpoint a a = true.
Proof. now apply same_endpoint_true. Qed.

Lemma same_endpoint_false (a b : sockaddr_in) :
  a <> b -> same_endpoint a b = false.
Proof.
  intros Hab. destruct (same_endpoint a b) eqn:E; [|reflexivity].
  apply same_endpoint_true in E. contradiction.
Qed.

(** Once the TID is locked, [receive_file] skips a datagram from anyone
    else: the iteration ends at [continue] with nothing sent. *)
Lemma foreign_datagram_dropped (s : ReceiveFile.state) (i : input)
    (src : sockaddr_in) (payload : list byte) :
  ReceiveFile.first_data_packet s = false ->
  recv i = Datagram src payload ->
  src <> ReceiveFile.server_addr s ->
  ReceiveFile.step s i = (Await, s, []).
Proof.
  intros Hfirst Hrecv Hsrc. unfold ReceiveFile.step.
  rewrite Hrecv, Hfirst, (same_endpoint_false _ _ Hsrc). reflexivity.
Qed.

(** C1, as stated, fails: in a GET locked to 10:2000 and waiting for
    block 2, a Data{7} from 99:3000 leaves the state alone but nothing at
    all is sent, so no Error(5) reaches 99:3000. *)
Lemma foreign_datagram_gets_no_error :
  let s := {| ReceiveFile.expected_block_num := 2;
              ReceiveFile.server_addr := {| s_addr := 10; sin_port := 2000 |};
              ReceiveFile.first_data_packet := false;
              ReceiveFile.transfer_complete := false;
              ReceiveFile.local_file := Some [x68; x69] |} in
  let stranger := {| s_addr := 99; sin_port := 3000 |} in
  let i := {| recv := Datagram stranger [x00; x03; x00; x07; x21];
              send_ok := true; write_ok := true |} in
  ReceiveFile.step s i = (Await, s, [])
  /\ ~ exists msg,
         In {| dst := stranger;
               pkt := create_error_packet TFTP_ERROR_UNKNOWN_TRANSFER_ID msg |}
            (snd (ReceiveFile.step s i)).
Proof.
  cbv zeta. split; [reflexivity|]. intros [msg []].
Qed.

(** The server handlers let [recvfrom] overwrite [client_addr] and never
    compare addresses: whoever sent the datagram is answered and becomes
    the peer. *)
Lemma write_request_adopts_source (s : HandleWriteRequest.state) (i : input)
    (src : sockaddr_in) (payload : list byte) :
  recv i = Datagram src payload ->
  HandleWriteRequest.client_addr (state_of (HandleWriteRequest.step s i)) = src
  /\ Forall (fun p => dst p = src) (sent_of (HandleWriteRequest.step s i)).
Proof.
  intros Hrecv. unfold HandleWriteRequest.step. rewrite Hrecv. cbv zeta.
  split_step; cbn; split; auto.
Qed.

Lemma read_request_adopts_source (s : HandleReadRequest.state) (i : input)
    (src : sockaddr_in) (payload : list byte) :
  recv i = Datagram src payload ->
  HandleReadRequest.client_addr (state_of (HandleReadRequest.step s i)) = src
  /\ Forall (fun p => dst p = src) (sent_of (HandleReadRequest.step s i)).
Proof.
  intros Hrecv. unfold HandleReadRequest.step. rewrite Hrecv. cbv zeta.
  unfold HandleReadRequest.retry_loop, HandleReadRequest.after_retry_loop,
         HandleReadRequest.send_next, read_chunk.
  split_step; cbn; split; auto.
Qed.

(** Nor do they look at the address they had stored: the datagram is
    handled as it would be had its source been the peer all along. *)
Lemma write_request_ignores_stored_address (s : HandleWriteRequest.state)
    (i : input) (src : sockaddr_in) (payload : list byte) :
  recv i = Datagram src payload ->
  HandleWriteRequest.step s i
  = HandleWriteRequest.step (HandleWriteRequest.set_client s src) i.
Proof.
  intros Hrecv. unfold HandleWriteRequest.step. rewrite Hrecv. reflexivity.
Qed.

Lemma read_request_ignores_stored_address (s : HandleReadRequest.state)
    (i : input) (src : sockaddr_in) (payload : list byte) :
  recv i = Datagram src payload ->
  HandleReadRequest.step s i
  = HandleReadRequest.step (HandleReadRequest.set_client s src) i.
Proof.
  intros Hrecv. unfold HandleReadRequest.step. rewrite Hrecv. reflexivity.
Qed.

Lemma created_data_is_data (b : N) (d p : list byte) :
  create_data_packet b d = Some p -> get_opcode p = TFTP_OPCODE_DATA.
Proof.
  unfold create_data_packet. destruct (_ <? _)%nat; [discriminate|].
  intros H. injection H as <-. reflexivity.
Qed.

(** What the write handler sends in answer to a datagram is an Ack, or an
    Error with code 3 or 4. *)
Lemma write_request_sends_no_unknown_tid (s : HandleWriteRequest.state)
    (i : input) :
  Forall (fun p => forall msg,
              parse (pkt p)
              <> Some (Error TFTP_ERROR_UNKNOWN_TRANSFER_ID msg))
         (sent_of (HandleWriteRequest.step s i)).
Proof.
  unfold HandleWriteRequest.step. cbv zeta.
  split_step; cbn [sent_of snd]; repeat constructor;
    apply not_unknown_transfer_id; cbn [pkt HandleWriteRequest.to_client];
    first [ left;
            match goal with
            | |- get_opcode (create_ack_packet ?n) <> _ =>
                change (get_opcode (create_ack_packet n)) with 4
            end; discriminate
          | right; vm_compute; discriminate ].
Qed.

(** What the read handler sends in answer to a datagram is the next Data
    packet. *)
Lemma read_request_sends_no_unknown_tid (s : HandleReadRequest.state)
    (i : input) (src : sockaddr_in) (payload : list byte) :
  recv i = Datagram src payload ->
  Forall (fun p => forall msg,
              parse (pkt p)
              <> Some (Error TFTP_ERROR_UNKNOWN_TRANSFER_ID msg))
         (sent_of (HandleReadRequest.step s i)).
Proof.
  intros Hrecv. unfold HandleReadRequest.step. rewrite Hrecv. cbv zeta.
  unfold HandleReadRequest.retry_loop, HandleReadRequest.after_retry_loop,
         HandleReadRequest.send_next, read_chunk.
  repeat match goal with
         | |- context [create_data_packet ?b ?d] =>
             destruct (create_data_packet b d) eqn:?
         | |- context [match ?x with _ => _ end] => destruct x
         | |- context [if ?b then _ else _] => destruct b
         end;
    cbn [sent_of snd]; repeat constructor;
    apply not_unknown_transfer_id; left;
    cbn [pkt HandleReadRequest.to_client];
    erewrite created_data_is_data by eassumption; discriminate.
Qed.

(** C1, amended. During an active client GET, whenever a datagram arrives
    from a source address distinct from the bound peer TID, the client
    sends nothing (no Error packet goes to that source) and the state of
    the transfer (expected block number, termination flag, bound TID,
    local file) is left unchanged; the client goes back to waiting. The
    server handlers compare no addresses: a datagram from any source is
    handled exactly as if its source had been the stored peer address,
    every reply to it goes to its source, none of these replies is read
    as Error(UnknownTransferID = 5), and that source is the peer address
    from then on. *)
Theorem foreign_source_is_not_answered_with_error :
  (forall (s : ReceiveFile.state) (i : input)
          (src : sockaddr_in) (payload : list byte),
      ReceiveFile.first_data_packet s = false ->
      recv i = Datagram src payload ->
      src <> ReceiveFile.server_addr s ->
      ReceiveFile.step s i = (Await, s, []))
  /\ (forall (s : HandleWriteRequest.state) (i : input)
             (src : sockaddr_in) (payload : list byte),
         recv i = Datagram src payload ->
         HandleWriteRequest.client_addr
           (state_of (HandleWriteRequest.step s i)) = src
         /\ Forall (fun p => dst p = src)
                   (sent_of (HandleWriteRequest.step s i))
         /\ HandleWriteRequest.step s i
            = HandleWriteRequest.step (HandleWriteRequest.set_client s src) i
         /\ Forall (fun p => forall msg,
                        parse (pkt p)
                        <> Some (Error TFTP_ERROR_UNKNOWN_TRANSFER_ID msg))
                   (sent_of (HandleWriteRequest.step s i)))
  /\ (forall (s : HandleReadRequest.state) (i : input)
             (src : sockaddr_in) (payload : list byte),
         recv i = Datagram src payload ->
         HandleReadRequest.client_addr
           (state_of (HandleReadRequest.step s i)) = src
         /\ Forall (fun p => dst p = src)
                   (sent_of (HandleReadRequest.step s i))
         /\ HandleReadRequest.step s i
            = HandleReadRequest.step (HandleReadRequest.set_client s src) i
         /\ Forall (fun p => forall msg,
                        parse (pkt p)
                        <> Some (Error TFTP_ERROR_UNKNOWN_TRANSFER_ID msg))
                   (sent_of (HandleReadRequest.step s i))).
Proof.
  split; [exact foreign_datagram_dropped|]. split.
  - intros s i src payload Hrecv.
    destruct (write_request_adopts_source s i src payload Hrecv) as [Ha Hd].
    repeat split; [exact Ha | exact Hd | |].
    + exact (write_request_ignores_stored_address s i src payload Hrecv).
    + exact (write_request_sends_no_unknown_tid s i).
  - intros s i src payload Hrecv.
    destruct (read_request_adopts_source s i src payload Hrecv) as [Ha Hd].
    repeat split; [exact Ha | exact Hd | |].
    + exact (read_request_ignores_stored_address s i src payload Hrecv).
    + exact (read_request_sends_no_unknown_tid s i src payload Hrecv).
Qed.

Lemma foreign_source_is_not_answered_with_error_witness :
  let s := {| ReceiveFile.expected_block_num := 2;
              ReceiveFile.server_addr := {| s_addr := 10; sin_port := 2000 |};
              ReceiveFile.first_data_packet := false;
              ReceiveFile.transfer_complete := false;
              ReceiveFile.local_file := Some [x68; x69] |} in
  let stranger := {| s_addr := 99; sin_port := 3000 |} in
  let i := {| recv := Datagram stranger [x00; x03; x00; x07; x21];
              send_ok := true; write_ok := true |} in
  let w := {| HandleWriteRequest.client_addr :=
                {| s_addr := 20; sin_port := 4000 |};
              HandleWriteRequest.expected_block_num := 7;
              HandleWriteRequest.transfer_complete := false;
              HandleWriteRequest.local_file := Some [x68; x69] |} in
  ((ReceiveFile.first_data_packet s = false
    /\ recv i = Datagram stranger [x00; x03; x00; x07; x21]
    /\ stranger <> ReceiveFile.server_addr s)
   /\ ReceiveFile.step s i = (Await, s, []))
  /\ (recv i = Datagram stranger [x00; x03; x00; x07; x21]
      /\ HandleWriteRequest.step w i
         = HandleWriteRequest.step
             (HandleWriteRequest.set_client w stranger) i
      /\ HandleWriteRequest.local_file
           (state_of (HandleWriteRequest.step w i))
         = Some [x68; x69; x21]
      /\ Blocks.decoded (sent_of (HandleWriteRequest.step w i))
         = [(stranger, Some (Ack 7))]).
Proof.
  cbv zeta.
  assert (H : {| s_addr := 99; sin_port := 3000 |}
              <> {| s_addr := 10; sin_port := 2000 |}) by discriminate.
  split.
  - split; [repeat split; exact H|].
    apply (proj1 foreign_source_is_not_answered_with_error _ _
             {| s_addr := 99; sin_port := 3000 |} [x00; x03; x00; x07; x21]);
      [reflexivity | reflexivity | exact H].
  - split; [reflexivity|]. split; [|split; reflexivity].
    match goal with
    | |- HandleWriteRequest.step ?w ?i = _ =>
        exact (proj1 (proj2 (proj2
                 (proj1 (proj2 foreign_source_is_not_answered_with_error)
                    w i {| s_addr := 99; sin_port := 3000 |}
                    [x00; x03; x00; x07; x21] eq_refl))))
    end.
Defined.

End ForeignSource.

(** ** Timeouts and retransmission *)

Section Retransmission.
Import Codec Net.

Lemma prepend_nil {S : Type} (r : control * S * list sent) :
  prepend [] r = r.
Proof. destruct r as [[c s] out]. reflexivity. Qed.

Lemma prepend_prepend {S : Type} (o1 o2 : list sent)
    (r : control * S * list sent) :
  prepend o1 (prepend o2 r) = prepend (o1 ++ o2) r.
Proof. destruct r as [[c s] out]. cbn. now rewrite app_assoc. Qed.

(** Running on two sequences in a row. *)
Lemma run_app {S : Type} (step : S -> input -> control * S * list sent)
    (l1 l2 : list input) :
  forall s : S,
    run step s (l1 ++ l2) = and_then step (run step s l1) l2.
Proof.
  induction l1 as [|i l1 IH]; intros s.
  - cbn [app run and_then]. now rewrite prepend_nil.
  - cbn [app run]. destruct (step s i) as [[c s'] out].
    destruct c; [|reflexivity|reflexivity].
    rewrite IH. destruct (run step s' l1) as [[c1 s1] o1].
    destruct c1; cbn [and_then prepend]; [|reflexivity|reflexivity].
    now rewrite prepend_prepend.
Qed.

Lemma set_retry_same (s : HandleReadRequest.state) :
  HandleReadRequest.set_retry s (HandleReadRequest.retry_count s) = s.
Proof. destruct s. reflexivity. Qed.

(** While fewer than five timeouts have been counted, each further timeout
    of [handle_read_request] puts the stored DATA packet on the wire again
    and only moves the counter. *)
Lemma read_request_timeouts_below_cap (n : nat) :
  forall s : HandleReadRequest.state,
    (HandleReadRequest.retry_count s + n < HandleReadRequest.MAX_RETRIES)%nat ->
    run HandleReadRequest.step s (repeat Peer.timeout n)
    = (Await,
       HandleReadRequest.set_retry s (HandleReadRequest.retry_count s + n),
       repeat (HandleReadRequest.to_client s (HandleReadRequest.data_packet s))
              n).
Proof.
  induction n as [|n IH]; intros s Hcap.
  - cbn [repeat run]. rewrite Nat.add_0_r, set_retry_same. reflexivity.
  - cbn [repeat run]. unfold HandleReadRequest.step at 1.
    cbn [recv send_ok Peer.timeout negb].
    unfold HandleReadRequest.retry_loop.
    cbn [HandleReadRequest.retry_count HandleReadRequest.set_retry].
    assert (Hlt : (S (HandleReadRequest.retry_count s)
                   <? HandleReadRequest.MAX_RETRIES)%nat = true)
      by (apply Nat.ltb_lt; lia).
    rewrite Hlt. cbn [prepend app].
    rewrite IH by (cbn [HandleReadRequest.retry_count
                        HandleReadRequest.set_retry]; lia).
    destruct s; cbn. rewrite <- plus_n_Sm. reflexivity.
Qed.

(** The fifth timeout on the first block: one more resend, then the throw. *)
Lemma read_request_fifth_timeout (s : HandleReadRequest.state) :
  HandleReadRequest.retry_count s = 4%nat ->
  HandleReadRequest.last_ack_received s = false ->
  HandleReadRequest.step s Peer.timeout
  = (Throw "Transfer aborted due to timeout.",
     HandleReadRequest.set_retry s 5,
     [HandleReadRequest.to_client s (HandleReadRequest.data_packet s)]).
Proof.
  intros Hr Hack. unfold HandleReadRequest.step.
  cbn [recv send_ok Peer.timeout negb].
  unfold HandleReadRequest.retry_loop, HandleReadRequest.after_retry_loop.
  cbn [HandleReadRequest.retry_count HandleReadRequest.set_retry
       HandleReadRequest.last_ack_received].
  rewrite Hr, Hack. reflexivity.
Qed.

(** C2, as stated, fails: a GET that has acknowledged block 1 and waits
    for block 2 throws on the very first timeout; its last packet is not
    sent again and no retry is counted. *)
Lemma receive_file_first_timeout_aborts :
  ReceiveFile.step
    {| ReceiveFile.expected_block_num := 2;
       ReceiveFile.server_addr := {| s_addr := 10; sin_port := 2000 |};
       ReceiveFile.first_data_packet := false;
       ReceiveFile.transfer_complete := false;
       ReceiveFile.local_file := Some (repeat x41 512) |}
    Peer.timeout
  = (Throw "Receive failed or timed out.",
     {| ReceiveFile.expected_block_num := 2;
        ReceiveFile.server_addr := {| s_addr := 10; sin_port := 2000 |};
        ReceiveFile.first_data_packet := false;
        ReceiveFile.transfer_complete := false;
        ReceiveFile.local_file := None |},
     []).
Proof. reflexivity. Qed.

(** C2, amended. The four awaits follow three different policies.
    - Server RRQ awaiting an Ack: each of the first four timeouts on a
      block retransmits the last Data packet verbatim and waits again;
      while the first block is unacknowledged the fifth timeout
      retransmits once more and then aborts the transfer.
    - Client PUT awaiting the Ack of a Data block: the first timeout
      retransmits the last Data packet verbatim, once; a second timeout
      in a row aborts.
    - Client PUT awaiting Ack 0, client GET awaiting Data and server WRQ
      awaiting Data: the first timeout aborts and nothing is retransmitted. *)
Theorem timeout_policy_per_path :
  (forall (s : HandleReadRequest.state) (n : nat),
      HandleReadRequest.retry_count s = O ->
      (n < HandleReadRequest.MAX_RETRIES)%nat ->
      run HandleReadRequest.step s (repeat Peer.timeout n)
      = (Await, HandleReadRequest.set_retry s n,
         repeat (HandleReadRequest.to_client s
                   (HandleReadRequest.data_packet s)) n))
  /\ (forall s : HandleReadRequest.state,
         HandleReadRequest.retry_count s = O ->
         HandleReadRequest.last_ack_received s = false ->
         run HandleReadRequest.step s
             (repeat Peer.timeout HandleReadRequest.MAX_RETRIES)
         = (Throw "Transfer aborted due to timeout.",
            HandleReadRequest.set_retry s HandleReadRequest.MAX_RETRIES,
            repeat (HandleReadRequest.to_client s
                      (HandleReadRequest.data_packet s))
                   HandleReadRequest.MAX_RETRIES))
  /\ (forall s : SendFile.state,
         SendFile.waiting s = SendFile.WaitAck ->
         SendFile.step s Peer.timeout
         = (Await, SendFile.set_waiting s SendFile.WaitAckAfterResend,
            [SendFile.to_server s (SendFile.data_packet s)])
         /\ SendFile.step
              (SendFile.set_waiting s SendFile.WaitAckAfterResend)
              Peer.timeout
            = (Throw "Receive failed or timed out waiting for ACK.",
               SendFile.set_waiting s SendFile.WaitAckAfterResend, []))
  /\ (forall (s : SendFile.state) (i : input),
         SendFile.waiting s = SendFile.WaitAck0 ->
         recv i = Timeout ->
         SendFile.step s i
         = (Throw "Receive failed or timed out waiting for initial ACK.",
            s, []))
  /\ (forall (s : ReceiveFile.state) (i : input),
         recv i = Timeout ->
         ReceiveFile.step s i
         = (Throw "Receive failed or timed out.", ReceiveFile.remove s, []))
  /\ (forall (s : HandleWriteRequest.state) (i : input),
         recv i = Timeout ->
         HandleWriteRequest.step s i
         = (Throw "Receive failed or timed out waiting for DATA.",
            HandleWriteRequest.remove s, [])).
Proof.
  split; [|split; [|split; [|split; [|split]]]].
  - intros s n Hr Hn.
    rewrite read_request_timeouts_below_cap by (rewrite Hr; exact Hn).
    rewrite Hr. reflexivity.
  - intros s Hr Hack.
    change (repeat Peer.timeout HandleReadRequest.MAX_RETRIES)
      with (repeat Peer.timeout 4 ++ [Peer.timeout]).
    rewrite run_app, read_request_timeouts_below_cap
      by (rewrite Hr; unfold HandleReadRequest.MAX_RETRIES; lia).
    rewrite Hr. cbn [Nat.add and_then run].
    rewrite read_request_fifth_timeout
      by (destruct s; cbn in *; solve [reflexivity | assumption]).
    destruct s; reflexivity.
  - intros s Hw. split.
    + unfold SendFile.step. rewrite Hw. reflexivity.
    + reflexivity.
  - intros s i Hw Hr. unfold SendFile.step. rewrite Hw, Hr. reflexivity.
  - intros s i Hr. unfold ReceiveFile.step. rewrite Hr. reflexivity.
  - intros s i Hr. unfold HandleWriteRequest.step. rewrite Hr. reflexivity.
Qed.

End Retransmission.

Section RetransmissionWitness.
Import Codec Net.

Lemma timeout_policy_per_path_witness :
  let s := {| HandleReadRequest.client_addr :=
                {| s_addr := 10; sin_port := 2000 |};
              HandleReadRequest.input_file := [];
              HandleReadRequest.block_num := 1;
              HandleReadRequest.bytes_read := 2;
              HandleReadRequest.data_packet := [x00; x03; x00; x01; x68; x69];
              HandleReadRequest.retry_count := O;
              HandleReadRequest.last_ack_received := false |} in
  (HandleReadRequest.retry_count s = O
   /\ HandleReadRequest.last_ack_received s = false)
  /\ run HandleReadRequest.step s (repeat Peer.timeout 5)
     = (Throw "Transfer aborted due to timeout.",
        HandleReadRequest.set_retry s 5,
        repeat (HandleReadRequest.to_client s
                  (HandleReadRequest.data_packet s)) 5).
Proof.
  cbv zeta. split; [split; reflexivity|].
  match goal with
  | |- run _ ?s _ = _ =>
      exact (proj1 (proj2 timeout_policy_per_path) s eq_refl eq_refl)
  end.
Defined.

End RetransmissionWitness.

(** ** Duplicate acknowledgements *)

Section DuplicateAck.
Import Codec Net.

(** [handle_read_request] does ignore an old Ack: nothing is sent, the
    block number and the retry count stay, the loop waits again. *)
Lemma read_request_ignores_old_ack (s : HandleReadRequest.state) (i : input)
    (src : sockaddr_in) (b : N) :
  recv i = Datagram src (create_ack_packet b) ->
  b < HandleReadRequest.block_num s -> b < 65536 ->
  (HandleReadRequest.retry_count s < HandleReadRequest.MAX_RETRIES)%nat ->
  HandleReadRequest.step s i = (Await, HandleReadRequest.set_client s src, []).
Proof.
  intros Hrecv Hold Hb Hretry. unfold HandleReadRequest.step. rewrite Hrecv.
  cbv zeta.
  change (recvfrom_buffer (create_ack_packet b)) with (create_ack_packet b).
  change (get_opcode (create_ack_packet b)) with TFTP_OPCODE_ACK.
  rewrite N.eqb_refl, (parse_ack_created b Hb).
  cbn [HandleReadRequest.block_num HandleReadRequest.set_client].
  assert (Hne : (b =? HandleReadRequest.block_num s) = false)
    by (apply N.eqb_neq; lia).
  assert (Hlt : (b <? HandleReadRequest.block_num s) = true)
    by (apply N.ltb_lt; exact Hold).
  rewrite Hne, Hlt. unfold HandleReadRequest.retry_loop.
  cbn [HandleReadRequest.retry_count HandleReadRequest.set_client].
  apply Nat.ltb_lt in Hretry. rewrite Hretry. reflexivity.
Qed.

(** C4, on the client, at an input where it fails. A PUT of 512 bytes
    of 'A', 512 bytes of 'B' and 100 bytes of 'C' receives Ack 0, Ack 1
    and then Ack 1 once more while block 2 is outstanding. On the
    duplicate the client steps its block number back from 2 to 1, reads
    the next chunk and sends it as Data{1}: a Data packet goes out and
    the current block has changed, where a duplicate Ack is to be ignored
    with nothing sent and the block number kept. *)
Theorem send_file_duplicate_ack_sends_data :
  let server := {| s_addr := 10; sin_port := 69 |} in
  let tid := {| s_addr := 10; sin_port := 2000 |} in
  let file := repeat x41 512 ++ repeat x42 512 ++ repeat x43 100 in
  SendFile.send_file server (str "f") file true
    [Peer.ack_from tid 0; Peer.ack_from tid 1; Peer.ack_from tid 1]
  = (Await,
     {| SendFile.server_addr := tid;
        SendFile.input_file := [];
        SendFile.current_block_num := 1;
        SendFile.last_data_sent := true;
        SendFile.data_packet := Peer.wire (Data 1 (repeat x43 100));
        SendFile.waiting := SendFile.WaitAck |},
     {| dst := server; pkt := create_wrq_packet (str "f") (str "octet") |}
     :: Peer.sent_to tid [Data 1 (repeat x41 512);
                          Data 2 (repeat x42 512);
                          Data 1 (repeat x43 100)]).
Proof. vm_compute. reflexivity. Qed.

End DuplicateAck.

(** ** Files whose length is a multiple of the block size *)

Section ExactMultiple.
Import Codec Net.

Lemma run_cons {S : Type} (step : S -> input -> control * S * list sent)
    (s : S) (i : input) (rest : list input) :
  run step s (i :: rest) = and_then step (step s i) rest.
Proof.
  cbn [run and_then]. destruct (step s i) as [[c s'] out].
  destruct c; reflexivity.
Qed.

Lemma incr16_bound (b : N) : incr16 b < 65536.
Proof. unfold incr16. apply N.mod_lt. lia. Qed.

Lemma chunk_length_full (file : list byte) (k : nat) :
  length file = (MAX_DATA_SIZE * S k)%nat ->
  length (firstn MAX_DATA_SIZE file) = MAX_DATA_SIZE
  /\ length (skipn MAX_DATA_SIZE file) = (MAX_DATA_SIZE * k)%nat.
Proof.
  intros Hlen. rewrite length_firstn, length_skipn, Hlen. lia.
Qed.

Lemma create_data_packet_chunk (b : N) (file : list byte) :
  create_data_packet b (firstn MAX_DATA_SIZE file)
  = Some (Peer.wire (Data b (firstn MAX_DATA_SIZE file))).
Proof.
  unfold Peer.wire. cbn [encode]. unfold create_data_packet.
  assert (H : (MAX_DATA_SIZE <? length (firstn MAX_DATA_SIZE file))%nat
              = false).
  { apply Nat.ltb_ge. rewrite length_firstn. lia. }
  rewrite H. reflexivity.
Qed.

Lemma recvfrom_ack (b : N) :
  recvfrom_buffer (create_ack_packet b) = create_ack_packet b.
Proof. reflexivity. Qed.

Lemma block_after_succ (k : nat) (b : N) :
  Peer.block_after (S k) b = Peer.block_after k (incr16 b).
Proof. unfold Peer.block_after. apply Nat.iter_succ_r. Qed.

Lemma blocks_then_empty_succ (b : N) (file : list byte) (k : nat) :
  Peer.blocks_then_empty b file (S k)
  = Data b (firstn MAX_DATA_SIZE file)
    :: Peer.blocks_then_empty (incr16 b) (skipn MAX_DATA_SIZE file) k.
Proof.
  unfold Peer.blocks_then_empty. cbn [Peer.full_blocks app].
  now rewrite block_after_succ.
Qed.

Lemma full_blocks_are_full (k : nat) :
  forall (b : N) (file : list byte),
    (MAX_DATA_SIZE * k <= length file)%nat ->
    Forall (fun p => exists n d,
                p = Data n d /\ length d = MAX_DATA_SIZE)
           (Peer.full_blocks b file k).
Proof.
  induction k as [|k IH]; intros b file Hlen; cbn [Peer.full_blocks].
  - constructor.
  - constructor.
    + eexists _, _. split; [reflexivity|]. rewrite length_firstn. lia.
    + apply IH. rewrite length_skipn. lia.
Qed.

(** What [send_file] does with the acknowledgement of the block it has
    just sent. *)
Lemma send_file_step_on_ack (s : SendFile.state) (tid : sockaddr_in) (b : N) :
  SendFile.waiting s = SendFile.WaitAck ->
  SendFile.server_addr s = tid ->
  SendFile.current_block_num s = b -> b < 65536 ->
  SendFile.step s (Peer.ack_from tid b)
  = SendFile.loop (SendFile.set_block s (incr16 b) (SendFile.last_data_sent s))
                  (Peer.ack_from tid b).
Proof.
  intros Hw Htid Hcur Hb. unfold SendFile.step. rewrite Hw.
  cbn [Peer.ack_from recv]. unfold SendFile.handle_reply.
  rewrite Htid, same_endpoint_refl, recvfrom_ack, Hcur.
  change (get_opcode (create_ack_packet b)) with TFTP_OPCODE_ACK.
  rewrite N.eqb_refl, (parse_ack_created b Hb), N.eqb_refl. reflexivity.
Qed.

(** The top of the write loop when [sendto] succeeds. *)
Lemma send_file_send_next (s : SendFile.state) (i : input) :
  send_ok i = true ->
  let chunk := firstn MAX_DATA_SIZE (SendFile.input_file s) in
  SendFile.send_next s i
  = (Await,
     {| SendFile.server_addr := SendFile.server_addr s;
        SendFile.input_file := skipn MAX_DATA_SIZE (SendFile.input_file s);
        SendFile.current_block_num := SendFile.current_block_num s;
        SendFile.last_data_sent :=
          if (length chunk <? MAX_DATA_SIZE)%nat then true
          else SendFile.last_data_sent s;
        SendFile.data_packet :=
          Peer.wire (Data (SendFile.current_block_num s) chunk);
        SendFile.waiting := SendFile.WaitAck |},
     Peer.sent_to (SendFile.server_addr s)
                  [Data (SendFile.current_block_num s) chunk]).
Proof.
  intros Hsend chunk. unfold SendFile.send_next, read_chunk.
  fold chunk. unfold chunk at 1.
  rewrite create_data_packet_chunk, Hsend. fold chunk. cbn [negb].
  destruct (length chunk <? MAX_DATA_SIZE)%nat; reflexivity.
Qed.

(** The client's write loop, entered with [k] full blocks left to read
    and fed the matching acknowledgements: [k] full Data packets, one
    empty Data packet, then the normal return. *)
Lemma send_file_loop_exact_multiple (k : nat) :
  forall (s : SendFile.state) (i : input),
    send_ok i = true ->
    SendFile.last_data_sent s = false ->
    SendFile.current_block_num s < 65536 ->
    length (SendFile.input_file s) = (MAX_DATA_SIZE * k)%nat ->
    exists s',
      and_then SendFile.step (SendFile.loop s i)
        (Peer.acks_from (SendFile.server_addr s)
                        (SendFile.current_block_num s) (S k))
      = (Return, s',
         Peer.sent_to (SendFile.server_addr s)
           (Peer.blocks_then_empty (SendFile.current_block_num s)
                                   (SendFile.input_file s) k)).
Proof.
  induction k as [|k IH]; intros s i Hsend Hlast Hb Hlen.
  - unfold SendFile.loop at 1. rewrite Hlast.
    rewrite (send_file_send_next s i Hsend). cbv zeta.
    rewrite Nat.mul_0_r in Hlen. apply length_zero_iff_nil in Hlen.
    rewrite Hlen. cbn [firstn skipn MAX_DATA_SIZE length Nat.ltb Nat.leb].
    cbn [and_then Peer.acks_from]. rewrite run_cons.
    rewrite (send_file_step_on_ack _ (SendFile.server_addr s)
               (SendFile.current_block_num s))
      by (reflexivity || exact Hb).
    unfold SendFile.loop.
    cbn [SendFile.set_block SendFile.last_data_sent and_then prepend].
    eexists. unfold Peer.blocks_then_empty, Peer.block_after.
    cbn [Peer.full_blocks Nat.iter nat_rect app]. rewrite ?app_nil_r.
    reflexivity.
  - destruct (chunk_length_full _ k Hlen) as [Hfull Hrest].
    unfold SendFile.loop at 1. rewrite Hlast.
    rewrite (send_file_send_next s i Hsend). cbv zeta.
    rewrite Hfull, Nat.ltb_irrefl, Hlast.
    cbn [and_then Peer.acks_from]. rewrite run_cons.
    rewrite (send_file_step_on_ack _ (SendFile.server_addr s)
               (SendFile.current_block_num s))
      by (reflexivity || exact Hb).
    match goal with
    | |- context [and_then _ (SendFile.loop ?st _) _] => set (s2 := st)
    end.
    destruct (IH s2 (Peer.ack_from (SendFile.server_addr s)
                                   (SendFile.current_block_num s))
                 eq_refl eq_refl
                 (incr16_bound (SendFile.current_block_num s)) Hrest)
      as [s' Hrun].
    change (SendFile.server_addr s2) with (SendFile.server_addr s) in Hrun.
    change (SendFile.current_block_num s2)
      with (incr16 (SendFile.current_block_num s)) in Hrun.
    change (SendFile.input_file s2)
      with (skipn MAX_DATA_SIZE (SendFile.input_file s)) in Hrun.
    cbn [Peer.acks_from] in Hrun.
    rewrite Hrun. exists s'. cbn [prepend].
    rewrite blocks_then_empty_succ. reflexivity.
Qed.

(** What [handle_read_request] does with the acknowledgement of the block
    it has just sent. *)
Lemma read_request_step_on_ack (s : HandleReadRequest.state)
    (client : sockaddr_in) (b : N) :
  HandleReadRequest.block_num s = b -> b < 65536 ->
  HandleReadRequest.step s (Peer.ack_from client b)
  = HandleReadRequest.after_retry_loop
      (HandleReadRequest.set_acked (HandleReadRequest.set_client s client))
      (Peer.ack_from client b).
Proof.
  intros Hblk Hb. unfold HandleReadRequest.step.
  cbn [Peer.ack_from recv]. cbv zeta. rewrite recvfrom_ack.
  change (get_opcode (create_ack_packet b)) with TFTP_OPCODE_ACK.
  rewrite N.eqb_refl, (parse_ack_created b Hb).
  cbn [HandleReadRequest.block_num HandleReadRequest.set_client].
  rewrite Hblk, N.eqb_refl. reflexivity.
Qed.

(** The top of the [do] loop when [sendto] succeeds. *)
Lemma read_request_send_next (s : HandleReadRequest.state) (i : input) :
  send_ok i = true ->
  let chunk := firstn MAX_DATA_SIZE (HandleReadRequest.input_file s) in
  HandleReadRequest.send_next s i
  = (Await,
     {| HandleReadRequest.client_addr := HandleReadRequest.client_addr s;
        HandleReadRequest.input_file :=
          skipn MAX_DATA_SIZE (HandleReadRequest.input_file s);
        HandleReadRequest.block_num := HandleReadRequest.block_num s;
        HandleReadRequest.bytes_read := length chunk;
        HandleReadRequest.data_packet :=
          Peer.wire (Data (HandleReadRequest.block_num s) chunk);
        HandleReadRequest.retry_count := O;
        HandleReadRequest.last_ack_received :=
          HandleReadRequest.last_ack_received s |},
     Peer.sent_to (HandleReadRequest.client_addr s)
                  [Data (HandleReadRequest.block_num s) chunk]).
Proof.
  intros Hsend chunk. unfold HandleReadRequest.send_next, read_chunk.
  fold chunk. unfold chunk at 1.
  rewrite create_data_packet_chunk, Hsend. reflexivity.
Qed.

(** The server's [do] loop, entered with [k] full blocks left to read and
    fed the matching acknowledgements. *)
Lemma read_request_loop_exact_multiple (k : nat) :
  forall (s : HandleReadRequest.state) (i : input),
    send_ok i = true ->
    HandleReadRequest.block_num s < 65536 ->
    length (HandleReadRequest.input_file s) = (MAX_DATA_SIZE * k)%nat ->
    exists s',
      and_then HandleReadRequest.step (HandleReadRequest.send_next s i)
        (Peer.acks_from (HandleReadRequest.client_addr s)
                        (HandleReadRequest.block_num s) (S k))
      = (Return, s',
         Peer.sent_to (HandleReadRequest.client_addr s)
           (Peer.blocks_then_empty (HandleReadRequest.block_num s)
                                   (HandleReadRequest.input_file s) k)).
Proof.
  induction k as [|k IH]; intros s i Hsend Hb Hlen.
  - rewrite (read_request_send_next s i Hsend). cbv zeta.
    rewrite Nat.mul_0_r in Hlen. apply length_zero_iff_nil in Hlen.
    rewrite Hlen. cbn [firstn skipn MAX_DATA_SIZE length].
    cbn [and_then Peer.acks_from]. rewrite run_cons.
    rewrite (read_request_step_on_ack _ _ (HandleReadRequest.block_num s))
      by (reflexivity || exact Hb).
    unfold HandleReadRequest.after_retry_loop.
    cbn [HandleReadRequest.set_acked HandleReadRequest.set_client
         HandleReadRequest.last_ack_received HandleReadRequest.bytes_read
         negb Nat.eqb and_then prepend].
    eexists. unfold Peer.blocks_then_empty, Peer.block_after.
    cbn [Peer.full_blocks Nat.iter nat_rect app]. rewrite ?app_nil_r.
    reflexivity.
  - destruct (chunk_length_full _ k Hlen) as [Hfull Hrest].
    rewrite (read_request_send_next s i Hsend). cbv zeta.
    rewrite Hfull.
    cbn [and_then]. change (Peer.acks_from ?p ?b (S (S k)))
      with (Peer.ack_from p b :: Peer.acks_from p (incr16 b) (S k)).
    rewrite run_cons.
    rewrite (read_request_step_on_ack _ _ (HandleReadRequest.block_num s))
      by (reflexivity || exact Hb).
    unfold HandleReadRequest.after_retry_loop.
    cbn [HandleReadRequest.set_acked HandleReadRequest.set_client
         HandleReadRequest.last_ack_received HandleReadRequest.bytes_read
         negb].
    rewrite Nat.eqb_refl.
    match goal with
    | |- context [and_then _ (HandleReadRequest.send_next ?st _) _] =>
        set (s2 := st)
    end.
    destruct (IH s2 (Peer.ack_from (HandleReadRequest.client_addr s)
                                   (HandleReadRequest.block_num s))
                 eq_refl (incr16_bound (HandleReadRequest.block_num s)) Hrest)
      as [s' Hrun].
    change (HandleReadRequest.client_addr s2)
      with (HandleReadRequest.client_addr s) in Hrun.
    change (HandleReadRequest.block_num s2)
      with (incr16 (HandleReadRequest.block_num s)) in Hrun.
    change (HandleReadRequest.input_file s2)
      with (skipn MAX_DATA_SIZE (HandleReadRequest.input_file s)) in Hrun.
    rewrite Hrun. exists s'. cbn [prepend].
    rewrite blocks_then_empty_succ. reflexivity.
Qed.

(** Both sending sides on a file of [k] full blocks. *)
Lemma exact_multiple_sent
    (file remote_filename : list byte) (k : nat)
    (server tid client : sockaddr_in) (i0 : input) :
  length file = (MAX_DATA_SIZE * k)%nat ->
  send_ok i0 = true ->
  (exists s',
      SendFile.send_file server remote_filename file true
        (Peer.ack_from tid 0 :: Peer.acks_from tid 1 (S k))
      = (Return, s',
         {| dst := server;
            pkt := create_wrq_packet remote_filename (str "octet") |}
         :: Peer.sent_to tid (Peer.blocks_then_empty 1 file k)))
  /\ (exists s',
         HandleReadRequest.handle_read_request client (Some file) i0
           (Peer.acks_from client 1 (S k))
         = (Return, s',
            Peer.sent_to client (Peer.blocks_then_empty 1 file k)))
  /\ Forall (fun p => exists n d, p = Data n d /\ length d = MAX_DATA_SIZE)
            (Peer.full_blocks 1 file k)
  /\ length (Peer.blocks_then_empty 1 file k) = S k.
Proof.
  intros Hlen Hsend. split; [|split; [|split]].
  - unfold SendFile.send_file, SendFile.start. cbn [negb and_then].
    rewrite run_cons. unfold SendFile.step at 2.
    cbn [SendFile.waiting Peer.ack_from recv].
    unfold SendFile.handle_ack0. rewrite recvfrom_ack.
    change (get_opcode (create_ack_packet 0)) with TFTP_OPCODE_ACK.
    rewrite N.eqb_refl, (parse_ack_created 0) by lia.
    rewrite N.eqb_refl.
    match goal with
    | |- context [and_then _ (SendFile.loop ?st ?i) _] =>
        destruct (send_file_loop_exact_multiple k st i eq_refl eq_refl
                    ltac:(cbn; lia) Hlen) as [s' Hrun]
    end.
    cbn [SendFile.lock_tid SendFile.server_addr SendFile.current_block_num
         SendFile.input_file] in Hrun.
    exists s'. rewrite Hrun. reflexivity.
  - unfold HandleReadRequest.handle_read_request, HandleReadRequest.start.
    match goal with
    | |- context [and_then _ (HandleReadRequest.send_next ?st _) _] =>
        destruct (read_request_loop_exact_multiple k st i0 Hsend
                    ltac:(cbn; lia) Hlen) as [s' Hrun]
    end.
    cbn [HandleReadRequest.client_addr HandleReadRequest.block_num
         HandleReadRequest.input_file] in Hrun.
    exists s'. exact Hrun.
  - apply full_blocks_are_full. lia.
  - unfold Peer.blocks_then_empty. rewrite length_app. cbn [length].
    assert (Hfb : forall n b f, length (Peer.full_blocks b f n) = n).
    { induction n as [|n IHn]; intros b f; cbn [Peer.full_blocks length];
        [reflexivity | now rewrite IHn]. }
    rewrite Hfb. lia.
Qed.

(** C5. When the length of the source file is an exact multiple [k * 512]
    of the block size and the peer acknowledges every block, both sending
    sides (client PUT and server RRQ) put [k + 1] datagrams on the wire
    (the client after its request) and return normally on the
    acknowledgement of the last one. The receiver reads them as the [k]
    full blocks of the file, each a Data packet with 512 bytes of payload,
    followed by one terminating Data packet with an empty payload. A
    512-byte file ([k = 1]) thus gives exactly two Data packets. *)
Theorem exact_multiple_ends_with_empty_block
    (file remote_filename : list byte) (k : nat)
    (server tid client : sockaddr_in) (i0 : input) :
  length file = (MAX_DATA_SIZE * k)%nat ->
  send_ok i0 = true ->
  (exists s' datagrams,
      SendFile.send_file server remote_filename file true
        (Peer.ack_from tid 0 :: Peer.acks_from tid 1 (S k))
      = (Return, s',
         {| dst := server;
            pkt := create_wrq_packet remote_filename (str "octet") |}
         :: datagrams)
      /\ datagrams = Peer.sent_to tid (Peer.blocks_then_empty 1 file k)
      /\ Blocks.decoded datagrams
         = Blocks.addressed tid
             (Peer.full_blocks 1 file k ++ [Data (Peer.block_after k 1) []]))
  /\ (exists s' datagrams,
         HandleReadRequest.handle_read_request client (Some file) i0
           (Peer.acks_from client 1 (S k))
         = (Return, s', datagrams)
         /\ datagrams = Peer.sent_to client (Peer.blocks_then_empty 1 file k)
         /\ Blocks.decoded datagrams
            = Blocks.addressed client
                (Peer.full_blocks 1 file k
                 ++ [Data (Peer.block_after k 1) []]))
  /\ Forall (fun p => exists n d, p = Data n d /\ length d = MAX_DATA_SIZE)
            (Peer.full_blocks 1 file k)
  /\ length (Peer.full_blocks 1 file k) = k.
Proof.
  intros Hlen Hsend.
  destruct (exact_multiple_sent file remote_filename k server tid client i0
              Hlen Hsend) as ((s1 & H1) & (s2 & H2) & Hfull & Hcount).
  assert (Hvalid : Forall valid_packet (Peer.blocks_then_empty 1 file k))
    by (apply blocks_then_empty_valid; lia).
  split; [|split; [|split]].
  - exists s1. eexists. split; [exact H1|]. split; [reflexivity|].
    now apply decoded_sent_to.
  - exists s2. eexists. split; [exact H2|]. split; [reflexivity|].
    now apply decoded_sent_to.
  - exact Hfull.
  - unfold Peer.blocks_then_empty in Hcount. rewrite length_app in Hcount.
    cbn [length] in Hcount. lia.
Qed.

End ExactMultiple.

Section ExactMultipleWitness.
Import Codec Net.

(** A PUT of 512 bytes, run: the request, one full block, one empty block. *)
Example put_512_bytes_two_data_packets :
  let server := {| s_addr := 10; sin_port := 69 |} in
  let tid := {| s_addr := 10; sin_port := 2000 |} in
  SendFile.send_file server (str "f") (repeat x41 512) true
    [Peer.ack_from tid 0; Peer.ack_from tid 1; Peer.ack_from tid 2]
  = (Return,
     {| SendFile.server_addr := tid;
        SendFile.input_file := [];
        SendFile.current_block_num := 3;
        SendFile.last_data_sent := true;
        SendFile.data_packet := [x00; x03; x00; x02];
        SendFile.waiting := SendFile.WaitAck |},
     [{| dst := server; pkt := create_wrq_packet (str "f") (str "octet") |};
      {| dst := tid; pkt := [x00; x03; x00; x01] ++ repeat x41 512 |};
      {| dst := tid; pkt := [x00; x03; x00; x02] |}]).
Proof. vm_compute. reflexivity. Qed.

Lemma exact_multiple_ends_with_empty_block_witness :
  let file := repeat x41 512 in
  let server := {| s_addr := 10; sin_port := 69 |} in
  let tid := {| s_addr := 10; sin_port := 2000 |} in
  let client := {| s_addr := 20; sin_port := 4000 |} in
  (length file = (MAX_DATA_SIZE * 1)%nat /\ send_ok Peer.timeout = true)
  /\ (exists s' datagrams,
         SendFile.send_file server (str "f") file true
           (Peer.ack_from tid 0 :: Peer.acks_from tid 1 2)
         = (Return, s',
            {| dst := server;
               pkt := create_wrq_packet (str "f") (str "octet") |}
            :: datagrams)
         /\ datagrams = Peer.sent_to tid (Peer.blocks_then_empty 1 file 1)
         /\ Blocks.decoded datagrams
            = Blocks.addressed tid
                (Peer.full_blocks 1 file 1
                 ++ [Data (Peer.block_after 1 1) []]))
  /\ (exists s' datagrams,
         HandleReadRequest.handle_read_request client (Some file)
           Peer.timeout (Peer.acks_from client 1 2)
         = (Return, s', datagrams)
         /\ datagrams = Peer.sent_to client (Peer.blocks_then_empty 1 file 1)
         /\ Blocks.decoded datagrams
            = Blocks.addressed client
                (Peer.full_blocks 1 file 1
                 ++ [Data (Peer.block_after 1 1) []]))
  /\ Forall (fun p => exists n d, p = Data n d /\ length d = MAX_DATA_SIZE)
            (Peer.full_blocks 1 file 1)
  /\ length (Peer.full_blocks 1 file 1) = 1%nat.
Proof.
  cbv zeta.
  assert (H1 : length (repeat x41 512) = (MAX_DATA_SIZE * 1)%nat)
    by (rewrite repeat_length; reflexivity).
  assert (H2 : send_ok Peer.timeout = true) by reflexivity.
  split; [split; assumption|].
  exact (exact_multiple_ends_with_empty_block (repeat x41 512) (str "f") 1
           {| s_addr := 10; sin_port := 69 |}
           {| s_addr := 10; sin_port := 2000 |}
           {| s_addr := 20; sin_port := 4000 |} Peer.timeout H1 H2).
Defined.

End ExactMultipleWitness.

(** ** The opening move of a write request *)

Section WriteRequestOpening.
Import Codec Net.

Lemma wire_data (b : N) (d : list byte) :
  (length d <= MAX_DATA_SIZE)%nat ->
  Peer.wire (Data b d) = put_u16 TFTP_OPCODE_DATA ++ put_u16 b ++ d.
Proof.
  intros Hd. unfold Peer.wire. cbn [encode]. unfold create_data_packet.
  apply Nat.ltb_ge in Hd. rewrite Hd. reflexivity.
Qed.

Lemma recvfrom_data (b : N) (d : list byte) :
  (length d <= MAX_DATA_SIZE)%nat ->
  recvfrom_buffer (Peer.wire (Data b d)) = Peer.wire (Data b d).
Proof.
  intros Hd. unfold recvfrom_buffer. apply firstn_all2.
  rewrite (wire_data b d Hd). unfold put_u16, MAX_PACKET_SIZE.
  unfold MAX_DATA_SIZE in Hd. cbn [app length]. lia.
Qed.

(** The loop entered after Ack 0 takes a short Data block 1 as the whole
    file: it is written, acknowledged, and the handler returns. *)
Lemma write_request_takes_block_1 (s : HandleWriteRequest.state)
    (src : sockaddr_in) (d : list byte) :
  HandleWriteRequest.expected_block_num s = 1 ->
  (length d < MAX_DATA_SIZE)%nat ->
  HandleWriteRequest.step s (Peer.data_from src 1 d)
  = (Return,
     HandleWriteRequest.set_complete
       (HandleWriteRequest.write (HandleWriteRequest.set_client s src) d),
     Peer.sent_to src [Ack 1]).
Proof.
  intros Hexp Hd. unfold HandleWriteRequest.step.
  cbn [Peer.data_from recv send_ok write_ok]. cbv zeta.
  rewrite recvfrom_data, wire_data by lia.
  change (get_opcode (put_u16 TFTP_OPCODE_DATA ++ put_u16 1 ++ d))
    with TFTP_OPCODE_DATA.
  rewrite N.eqb_refl, parse_data_created by lia.
  cbn [HandleWriteRequest.expected_block_num HandleWriteRequest.set_client].
  rewrite Hexp, N.eqb_refl. cbn [negb].
  apply Nat.ltb_lt in Hd. rewrite Hd. reflexivity.
Qed.

(** C8, where the code departs from it. [std::filesystem::exists] is
    called unguarded: for a path whose status cannot be determined -- a
    name of 256 bytes is longer than the file system takes -- it throws,
    and the write handler is left before it has sent anything. The file
    cannot be created, yet no Error(AccessViolation = 2), indeed no
    packet at all, goes to the client: the dispatcher, which starts the
    handler for such a request, only logs the exception, and the disk is
    as it was. *)
Theorem unchecked_name_gets_no_reply
    (client : sockaddr_in) (on_disk : option (list byte))
    (open_ok sendto_ok : bool) (reached : nat)
    (i0 : input) (ins : list input) :
  let long_name := repeat x61 256 in
  let wrq := Datagram client (create_wrq_packet long_name (str "octet")) in
  let env := {| RunServer.socket_ok := true; RunServer.timeout_ok := true;
                RunServer.path_check := RunServer.InsideBase |} in
  let r := HandleWriteRequest.handle_write_request client false on_disk
             open_ok sendto_ok ins in
  control_of r = Throw "filesystem error"
  /\ sent_of r = []
  /\ HandleWriteRequest.disk_after r reached = on_disk
  /\ RunServer.dispatch wrq env = ([], RunServer.ServeWrite client long_name)
  /\ RunServer.serve wrq env false None open_ok reached i0 ins = ([], None).
Proof.
  cbv zeta.
  assert (Hd : RunServer.dispatch
                 (Datagram client
                    (create_wrq_packet (repeat x61 256) (str "octet")))
                 {| RunServer.socket_ok := true;
                    RunServer.timeout_ok := true;
                    RunServer.path_check := RunServer.InsideBase |}
               = ([], RunServer.ServeWrite client (repeat x61 256)))
    by (vm_compute; reflexivity).
  split; [reflexivity|]. split; [reflexivity|]. split; [reflexivity|].
  split; [exact Hd|].
  unfold RunServer.serve. rewrite Hd. reflexivity.
Qed.

(** X27. The opening of a write request whose existence check answers.
    For a file that exists the client is sent one packet, read as
    Error(6) "File already exists", and the file keeps its contents; for
    a file that cannot be opened the client is sent one packet, read as
    Error(2) "Cannot write file", and there is no file; in both cases
    the handler returns. Otherwise the handler sends one packet, read as
    Ack 0, and enters its loop with an empty file, expecting block 1: a
    short Data block 1, from whatever source, is acknowledged to that
    source and ends the transfer with its payload as the bytes written,
    which are the file on disk when the flush of the final [close]
    writes them all. *)
Theorem write_request_opening_move
    (client src : sockaddr_in) (contents d : list byte)
    (open_ok sendto_ok : bool) (reached : nat) (ins : list input) :
  (let r := HandleWriteRequest.handle_write_request client true
              (Some contents) open_ok sendto_ok ins in
   control_of r = Return
   /\ Blocks.decoded (sent_of r)
      = [(client, Some (Error 6 (str "File already exists")))]
   /\ HandleWriteRequest.disk_after r reached = Some contents)
  /\ (let r := HandleWriteRequest.handle_write_request client true None
                 false sendto_ok ins in
      control_of r = Return
      /\ Blocks.decoded (sent_of r)
         = [(client, Some (Error 2 (str "Cannot write file")))]
      /\ HandleWriteRequest.disk_after r reached = None)
  /\ (exists ack0,
         HandleWriteRequest.handle_write_request client true None true true
           ins
         = prepend [ack0]
             (run HandleWriteRequest.step
                  {| HandleWriteRequest.client_addr := client;
                     HandleWriteRequest.expected_block_num := 1;
                     HandleWriteRequest.transfer_complete := false;
                     HandleWriteRequest.local_file := Some [] |}
                  ins)
         /\ Blocks.decoded [ack0] = [(client, Some (Ack 0))])
  /\ ((length d < MAX_DATA_SIZE)%nat ->
      let r := HandleWriteRequest.handle_write_request client true None
                 true true (Peer.data_from src 1 d :: ins) in
      control_of r = Return
      /\ Blocks.decoded (sent_of r)
         = [(client, Some (Ack 0)); (src, Some (Ack 1))]
      /\ HandleWriteRequest.local_file (state_of r) = Some d
      /\ ((length d <= reached)%nat ->
          HandleWriteRequest.disk_after r reached = Some d)).
Proof.
  split; [|split; [|split]].
  - cbv zeta. repeat split; reflexivity.
  - cbv zeta. repeat split; reflexivity.
  - eexists. split; reflexivity.
  - intros Hd. cbv zeta.
    unfold HandleWriteRequest.handle_write_request.
    cbn [HandleWriteRequest.start negb and_then run].
    rewrite write_request_takes_block_1 by (reflexivity || exact Hd).
    repeat split; try reflexivity.
    intros Hr. unfold HandleWriteRequest.disk_after.
    cbn. rewrite firstn_all2 by exact Hr. reflexivity.
Qed.

Lemma write_request_opening_move_witness :
  let client := {| s_addr := 20; sin_port := 4000 |} in
  let r := HandleWriteRequest.handle_write_request client true None
             true true [Peer.data_from client 1 [x68; x69]] in
  ((length [x68; x69] < MAX_DATA_SIZE)%nat /\ (length [x68; x69] <= 2)%nat)
  /\ control_of r = Return
  /\ Blocks.decoded (sent_of r)
     = [(client, Some (Ack 0)); (client, Some (Ack 1))]
  /\ HandleWriteRequest.local_file (state_of r) = Some [x68; x69]
  /\ HandleWriteRequest.disk_after r 2 = Some [x68; x69].
Proof.
  cbv zeta.
  assert (H : (length [x68; x69] < MAX_DATA_SIZE)%nat)
    by (unfold MAX_DATA_SIZE; cbn; lia).
  assert (H' : (length [x68; x69] <= 2)%nat) by (cbn; lia).
  split; [split; assumption|].
  destruct (proj2 (proj2 (proj2
              (write_request_opening_move
                 {| s_addr := 20; sin_port := 4000 |}
                 {| s_addr := 20; sin_port := 4000 |} [] [x68; x69]
                 true true 2 []))) H) as (Hc & Hs & Hf & Hdisk).
  split; [exact Hc|]. split; [exact Hs|]. split; [exact Hf|].
  exact (Hdisk H').
Defined.

End WriteRequestOpening.

(** ** Aborted receptions leave no file behind *)

Section ExitInvariant.
Import Net.
Context {S : Type}.
Variable step : S -> input -> control * S * list sent.
Variable Q : S -> Prop.
Hypothesis step_exit :
  forall s i, control_of (step s i) <> Await -> Q (state_of (step s i)).


End ExitInvariant.

Section AbortRemovesFile.
Import Codec Net.





End AbortRemovesFile.

(** ** The client binds the peer TID once *)

Section RunInvariant.
Import Net.
Context {S A : Type}.
Variable step : S -> input -> control * S * list sent.
Variable Inv : S -> Prop.
Variable f : S -> A.
Hypothesis step_keeps_inv :
  forall s i, Inv s -> control_of (step s i) = Await ->
              Inv (state_of (step s i)).
Hypothesis step_keeps_f :
  forall s i, Inv s -> f (state_of (step s i)) = f s.

(** A quantity that no iteration changes is the same at the end of a run. *)
Lemma run_preserves (ins : list input) :
  forall s, Inv s -> f (state_of (run step s ins)) = f s.
Proof.
  induction ins as [|i rest IH]; intros s Hs.
  - reflexivity.
  - cbn [run]. pose proof (step_keeps_inv s i Hs) as Hinv.
    pose proof (step_keeps_f s i Hs) as Hf.
    destruct (step s i) as [[c s1] out].
    destruct c; [|exact Hf|exact Hf].
    specialize (IH s1 (Hinv eq_refl)).
    destruct (run step s1 rest) as [[c2 s2] out2].
    cbn in IH, Hf |- *. congruence.
Qed.

End RunInvariant.

Section TidBinding.
Import Codec Net.

Lemma receive_file_step_binds (s : ReceiveFile.state) (i : input)
    (src : sockaddr_in) (payload : list byte) :
  ReceiveFile.first_data_packet s = true ->
  recv i = Datagram src payload ->
  ReceiveFile.server_addr (state_of (ReceiveFile.step s i)) = src
  /\ ReceiveFile.first_data_packet (state_of (ReceiveFile.step s i)) = false.
Proof.
  intros Hfirst Hrecv. unfold ReceiveFile.step. rewrite Hrecv, Hfirst.
  unfold ReceiveFile.handle_packet. split_step; cbn; auto.
Qed.

Lemma receive_file_step_keeps (s : ReceiveFile.state) (i : input) :
  ReceiveFile.first_data_packet s = false ->
  ReceiveFile.server_addr (state_of (ReceiveFile.step s i))
  = ReceiveFile.server_addr s
  /\ ReceiveFile.first_data_packet (state_of (ReceiveFile.step s i)) = false.
Proof.
  intros Hfirst. unfold ReceiveFile.step. rewrite Hfirst.
  unfold ReceiveFile.handle_packet. split_step; cbn; auto.
Qed.

Lemma receive_file_run_keeps (s : ReceiveFile.state) (ins : list input) :
  ReceiveFile.first_data_packet s = false ->
  ReceiveFile.server_addr (state_of (run ReceiveFile.step s ins))
  = ReceiveFile.server_addr s.
Proof.
  apply (run_preserves ReceiveFile.step
           (fun s => ReceiveFile.first_data_packet s = false)
           ReceiveFile.server_addr).
  - intros s0 i H _. apply receive_file_step_keeps, H.
  - intros s0 i H. apply receive_file_step_keeps, H.
Qed.

Lemma send_file_step_binds (s : SendFile.state) (i : input)
    (src : sockaddr_in) (payload : list byte) :
  SendFile.waiting s = SendFile.WaitAck0 ->
  recv i = Datagram src payload ->
  SendFile.server_addr (state_of (SendFile.step s i)) = src
  /\ (control_of (SendFile.step s i) = Await ->
      SendFile.waiting (state_of (SendFile.step s i)) <> SendFile.WaitAck0).
Proof.
  intros Hw Hrecv. unfold SendFile.step. rewrite Hw, Hrecv.
  unfold SendFile.handle_ack0, SendFile.loop, SendFile.send_next, read_chunk.
  split_step; cbn; split; auto; discriminate.
Qed.

Lemma send_file_step_keeps (s : SendFile.state) (i : input) :
  SendFile.waiting s <> SendFile.WaitAck0 ->
  SendFile.server_addr (state_of (SendFile.step s i)) = SendFile.server_addr s
  /\ (control_of (SendFile.step s i) = Await ->
      SendFile.waiting (state_of (SendFile.step s i)) <> SendFile.WaitAck0).
Proof.
  intros Hw. unfold SendFile.step.
  destruct (SendFile.waiting s) eqn:Ew; [contradiction| |];
    unfold SendFile.handle_reply, SendFile.loop, SendFile.send_next,
           read_chunk;
    split_step; cbn; split; auto; discriminate.
Qed.

Lemma send_file_run_keeps (s : SendFile.state) (ins : list input) :
  SendFile.waiting s <> SendFile.WaitAck0 ->
  SendFile.server_addr (state_of (run SendFile.step s ins))
  = SendFile.server_addr s.
Proof.
  apply (run_preserves SendFile.step
           (fun s => SendFile.waiting s <> SendFile.WaitAck0)
           SendFile.server_addr).
  - intros s0 i H. apply send_file_step_keeps, H.
  - intros s0 i H. apply send_file_step_keeps, H.
Qed.

Lemma state_of_run_cons {S : Type}
    (step : S -> input -> control * S * list sent) (f : S -> sockaddr_in)
    (s : S) (i : input) (rest : list input) :
  (control_of (step s i) = Await ->
   f (state_of (run step (state_of (step s i)) rest))
   = f (state_of (step s i))) ->
  f (state_of (run step s (i :: rest))) = f (state_of (step s i)).
Proof.
  cbn [run]. destruct (step s i) as [[c s1] out]. cbn.
  destruct c; [|reflexivity|reflexivity].
  intros H. specialize (H eq_refl).
  destruct (run step s1 rest) as [[c2 s2] out2]. exact H.
Qed.

(** C10. In the client the peer TID is bound once per transfer, to the
    source of the first datagram received, whatever that datagram holds
    (the binding precedes any look at its bytes); it is the bound TID at
    the end of every run and is never rebound; and in GET a later
    datagram from any other source is dropped: no reply, no change. *)
Theorem client_binds_tid_once :
  (forall (s : ReceiveFile.state) (i : input) (rest : list input)
          (src : sockaddr_in) (payload : list byte),
      ReceiveFile.first_data_packet s = true ->
      recv i = Datagram src payload ->
      ReceiveFile.server_addr (state_of (run ReceiveFile.step s (i :: rest)))
      = src)
  /\ (forall (s : SendFile.state) (i : input) (rest : list input)
             (src : sockaddr_in) (payload : list byte),
         SendFile.waiting s = SendFile.WaitAck0 ->
         recv i = Datagram src payload ->
         SendFile.server_addr (state_of (run SendFile.step s (i :: rest)))
         = src)
  /\ (forall (s : ReceiveFile.state) (ins : list input),
         ReceiveFile.first_data_packet s = false ->
         ReceiveFile.server_addr (state_of (run ReceiveFile.step s ins))
         = ReceiveFile.server_addr s)
  /\ (forall (s : SendFile.state) (ins : list input),
         SendFile.waiting s <> SendFile.WaitAck0 ->
         SendFile.server_addr (state_of (run SendFile.step s ins))
         = SendFile.server_addr s)
  /\ (forall (s : ReceiveFile.state) (i : input)
             (src : sockaddr_in) (payload : list byte),
         ReceiveFile.first_data_packet s = false ->
         recv i = Datagram src payload ->
         src <> ReceiveFile.server_addr s ->
         ReceiveFile.step s i = (Await, s, [])).
Proof.
  split; [|split; [|split; [|split]]].
  - intros s i rest src payload Hfirst Hrecv.
    destruct (receive_file_step_binds s i src payload Hfirst Hrecv)
      as [Hsrc Hbound].
    rewrite state_of_run_cons; [exact Hsrc|].
    intros _. apply receive_file_run_keeps, Hbound.
  - intros s i rest src payload Hw Hrecv.
    destruct (send_file_step_binds s i src payload Hw Hrecv)
      as [Hsrc Hbound].
    rewrite state_of_run_cons; [exact Hsrc|].
    intros Hc. apply send_file_run_keeps, Hbound, Hc.
  - exact receive_file_run_keeps.
  - exact send_file_run_keeps.
  - exact foreign_datagram_dropped.
Qed.

(** The first reply to an RRQ is an Error from a third party: its sender
    is nevertheless the address the client has locked on to. *)
Lemma client_binds_tid_once_witness :
  let s := {| ReceiveFile.expected_block_num := 1;
              ReceiveFile.server_addr := {| s_addr := 10; sin_port := 69 |};
              ReceiveFile.first_data_packet := true;
              ReceiveFile.transfer_complete := false;
              ReceiveFile.local_file := Some [] |} in
  let third := {| s_addr := 99; sin_port := 3000 |} in
  let i := {| recv := Datagram third (create_error_packet 0 (str "boo"));
              send_ok := true; write_ok := true |} in
  (ReceiveFile.first_data_packet s = true
   /\ recv i = Datagram third (create_error_packet 0 (str "boo")))
  /\ ReceiveFile.server_addr
       (state_of (run ReceiveFile.step s [i; Peer.timeout])) = third.
Proof.
  cbv zeta. split; [split; reflexivity|].
  match goal with
  | |- _ (state_of (run _ ?s [?i; _])) = ?src =>
      exact (proj1 client_binds_tid_once s i [Peer.timeout] src
               (create_error_packet 0 (str "boo")) eq_refl eq_refl)
  end.
Defined.

End TidBinding.

(** ** The retry cap after the first block *)

Section RetryCapLaterBlocks.
Import Codec Net.

(** [last_ack_received] is never cleared. Once block 1 has been
    acknowledged, five timeouts on block 2 do not stop a read request:
    the handler goes past the test below the retry loop, counts block 2
    as delivered and, the block being short, returns normally. *)
Example read_request_cap_on_second_block :
  let client := {| s_addr := 20; sin_port := 4000 |} in
  let r := HandleReadRequest.handle_read_request client
             (Some (repeat x41 512 ++ [x42])) Peer.timeout
             (Peer.ack_from client 1 :: repeat Peer.timeout 5) in
  control_of r = Return
  /\ HandleReadRequest.block_num (state_of r) = 3
  /\ sent_of r
     = Peer.sent_to client
         (Data 1 (repeat x41 512) :: repeat (Data 2 [x42]) 6).
Proof. cbv zeta. repeat split; vm_compute; reflexivity. Qed.

End RetryCapLaterBlocks.

(** * Further properties of the codec *)

Section CodecBounds.
Import Codec.

Lemma byte_of_N_to_N (b : byte) : byte_of_N (Byte.to_N b) = b.
Proof.
  unfold byte_of_N. pose proof (Byte.to_N_bounded b) as Hb.
  rewrite N.mod_small by lia. now rewrite Byte.of_to_N.
Qed.

Lemma put_u16_of_bytes (h l : byte) :
  put_u16 (Byte.to_N h * 256 + Byte.to_N l) = [h; l].
Proof.
  unfold put_u16. pose proof (Byte.to_N_bounded l) as Hl.
  assert (Hdiv : (Byte.to_N h * 256 + Byte.to_N l) / 256 = Byte.to_N h).
  { rewrite N.div_add_l by lia. rewrite N.div_small by lia. lia. }
  rewrite Hdiv, byte_of_N_to_N.
  assert (Hlow : byte_of_N (Byte.to_N h * 256 + Byte.to_N l) = l).
  { unfold byte_of_N.
    rewrite N.add_comm, N.Div0.mod_add, N.mod_small by lia.
    now rewrite Byte.of_to_N. }
  now rewrite Hlow.
Qed.

Lemma read_u16_bound (off : nat) (buffer : list byte) :
  read_u16 off buffer < 65536.
Proof.
  unfold read_u16.
  pose proof (Byte.to_N_bounded (nth off buffer x00)).
  pose proof (Byte.to_N_bounded (nth (S off) buffer x00)). lia.
Qed.

(** A buffer of at least four bytes is its two 16-bit header fields
    followed by the rest. *)
Lemma header_split (buffer : list byte) :
  (4 <= length buffer)%nat ->
  buffer = put_u16 (read_u16 0 buffer) ++ put_u16 (read_u16 2 buffer)
           ++ skipn 4 buffer.
Proof.
  intros Hlen.
  destruct buffer as [|b0 [|b1 [|b2 [|b3 rest]]]]; cbn in Hlen; try lia.
  unfold read_u16. cbn [nth skipn]. now rewrite !put_u16_of_bytes.
Qed.

Lemma get_opcode_short (buffer : list byte) :
  (length buffer < 2)%nat -> get_opcode buffer = 0.
Proof.
  intros H. unfold get_opcode. apply Nat.ltb_lt in H. now rewrite H.
Qed.

(** X1. A buffer of fewer than two bytes has opcode 0 and is rejected by
    every parser: it is neither a request nor Data, Ack or Error. *)
Theorem short_buffer_is_rejected (buffer : list byte) :
  (length buffer < 2)%nat ->
  get_opcode buffer = 0
  /\ parse_request_packet buffer = None
  /\ parse_data_packet buffer = None
  /\ parse_ack_packet buffer = None
  /\ parse_error_packet buffer = None
  /\ parse buffer = None.
Proof.
  intros H. pose proof (get_opcode_short buffer H) as Hop.
  split; [exact Hop|].
  unfold parse_request_packet, parse_data_packet, parse_ack_packet,
         parse_error_packet, parse.
  rewrite Hop. cbn [N.eqb negb andb orb TFTP_OPCODE_RRQ TFTP_OPCODE_WRQ
                    TFTP_OPCODE_DATA TFTP_OPCODE_ACK TFTP_OPCODE_ERROR].
  rewrite !orb_true_r. repeat split; reflexivity.
Qed.

Lemma short_buffer_is_rejected_witness :
  (length [x03] < 2)%nat
  /\ get_opcode [x03] = 0
  /\ parse_request_packet [x03] = None
  /\ parse_data_packet [x03] = None
  /\ parse_ack_packet [x03] = None
  /\ parse_error_packet [x03] = None
  /\ parse [x03] = None.
Proof.
  assert (H : (length [x03] < 2)%nat) by (cbn; lia).
  split; [exact H|]. exact (short_buffer_is_rejected [x03] H).
Defined.

(** X2. Decoding then encoding gives the bytes back for the two
    fixed-layout packets: whenever [parse] reads an Ack, or a Data packet
    of at most 512 payload bytes, from a buffer, encoding that packet
    yields exactly the buffer. *)
Theorem encode_parse_roundtrip (buffer : list byte) (P : Packet) :
  parse buffer = Some P ->
  match P with
  | Ack _ => True
  | Data _ d => (length d <= MAX_DATA_SIZE)%nat
  | _ => False
  end ->
  encode P = Some buffer.
Proof.
  unfold parse.
  destruct (get_opcode buffer =? TFTP_OPCODE_RRQ) eqn:E1.
  { destruct (parse_request_packet buffer) as [[f m]|]; cbn;
      intros H; inversion H; subst; contradiction. }
  destruct (get_opcode buffer =? TFTP_OPCODE_WRQ) eqn:E2.
  { destruct (parse_request_packet buffer) as [[f m]|]; cbn;
      intros H; inversion H; subst; contradiction. }
  destruct (get_opcode buffer =? TFTP_OPCODE_DATA) eqn:E3.
  { unfold parse_data_packet. rewrite E3. cbn [negb].
    rewrite orb_false_r.
    destruct (length buffer <? DATA_HEADER_SIZE)%nat eqn:El;
      cbn [option_map fst snd]; intros H; [discriminate|].
    injection H as <-. intros Hd.
    apply Nat.ltb_ge in El. change DATA_HEADER_SIZE with 4%nat in *.
    cbn [encode]. unfold create_data_packet.
    apply Nat.ltb_ge in Hd. rewrite Hd.
    f_equal. rewrite (header_split buffer El) at 3.
    apply N.eqb_eq in E3. unfold get_opcode in E3.
    assert (H2 : (length buffer <? 2)%nat = false)
      by (apply Nat.ltb_ge; lia).
    rewrite H2 in E3. rewrite E3. reflexivity. }
  destruct (get_opcode buffer =? TFTP_OPCODE_ACK) eqn:E4.
  { unfold parse_ack_packet. rewrite E4. cbn [negb].
    rewrite orb_false_r.
    destruct (length buffer =? ACK_PACKET_SIZE)%nat eqn:El;
      cbn [option_map negb]; intros H; [|discriminate].
    injection H as <-. intros _.
    apply Nat.eqb_eq in El. change ACK_PACKET_SIZE with 4%nat in El.
    cbn [encode]. f_equal. unfold create_ack_packet.
    rewrite (header_split buffer) at 2 by lia.
    apply N.eqb_eq in E4. unfold get_opcode in E4.
    assert (H2 : (length buffer <? 2)%nat = false)
      by (apply Nat.ltb_ge; lia).
    rewrite H2 in E4. rewrite E4.
    rewrite (skipn_all2 buffer) by lia. reflexivity. }
  destruct (get_opcode buffer =? TFTP_OPCODE_ERROR) eqn:E5.
  { destruct (parse_error_packet buffer) as [[c m]|]; cbn;
      intros H; inversion H; subst; contradiction. }
  discriminate.
Qed.

Lemma encode_parse_roundtrip_witness :
  (parse [x00; x03; x00; x09; x68; x69] = Some (Data 9 [x68; x69])
   /\ (length [x68; x69] <= MAX_DATA_SIZE)%nat)
  /\ encode (Data 9 [x68; x69]) = Some [x00; x03; x00; x09; x68; x69].
Proof.
  assert (H1 : parse [x00; x03; x00; x09; x68; x69]
               = Some (Data 9 [x68; x69])) by reflexivity.
  assert (H2 : (length [x68; x69] <= MAX_DATA_SIZE)%nat)
    by (unfold MAX_DATA_SIZE; cbn; lia).
  split; [split; assumption|].
  exact (encode_parse_roundtrip _ (Data 9 [x68; x69]) H1 H2).
Defined.

End CodecBounds.

Section RequestParsing.
Import Codec.

(** Where [memchr] finds the byte: nothing before it is that byte. *)
Lemma memchr_found (c : byte) (p : list byte) :
  forall n, memchr c p = Some n ->
            firstn n p ++ c :: skipn (S n) p = p
            /\ ~ In c (firstn n p)
            /\ (n < length p)%nat.
Proof.
  induction p as [|x rest IH]; intros n; cbn [memchr]; [discriminate|].
  destruct (Byte.eqb x c) eqn:E.
  - intros H. injection H as <-. apply Byte.byte_dec_bl in E. subst x.
    cbn. repeat split; auto; lia.
  - destruct (memchr c rest) as [k|]; cbn [option_map]; [|discriminate].
    intros H. injection H as <-.
    destruct (IH k eq_refl) as (Hsplit & Hnot & Hlt).
    cbn [firstn skipn app length]. repeat split.
    + f_equal. exact Hsplit.
    + intros [Hx | Hin]; [|now apply Hnot].
      subst x. rewrite (Byte.byte_dec_lb eq_refl) in E. discriminate E.
    + lia.
Qed.

Lemma opcode_bytes (buffer : list byte) :
  (2 <= length buffer)%nat ->
  buffer = put_u16 (get_opcode buffer) ++ skipn 2 buffer.
Proof.
  intros Hlen. unfold get_opcode.
  assert (H2 : (length buffer <? 2)%nat = false) by (apply Nat.ltb_ge; lia).
  rewrite H2. destruct buffer as [|b0 [|b1 rest]]; cbn in Hlen; try lia.
  unfold read_u16. cbn [nth skipn]. now rewrite put_u16_of_bytes.
Qed.

(** The shape of every buffer [parse_request_packet] accepts. *)
Lemma accepted_request_is_well_formed (buffer f m : list byte) :
  parse_request_packet buffer = Some (f, m) ->
  (get_opcode buffer = TFTP_OPCODE_RRQ \/ get_opcode buffer = TFTP_OPCODE_WRQ)
  /\ f <> [] /\ c_string f /\ m <> [] /\ c_string m
  /\ exists extra,
       buffer = put_u16 (get_opcode buffer)
                ++ f ++ [x00] ++ m ++ [x00] ++ extra.
Proof.
  unfold parse_request_packet.
  destruct (negb (get_opcode buffer =? TFTP_OPCODE_RRQ)
            && negb (get_opcode buffer =? TFTP_OPCODE_WRQ)) eqn:Eop;
    [discriminate|].
  destruct (length buffer <? 6)%nat eqn:El; [discriminate|].
  apply Nat.ltb_ge in El. cbv zeta.
  remember (skipn 2 buffer) as ptr eqn:Hptr.
  destruct (memchr x00 ptr) as [[|n]|] eqn:Ef; try discriminate.
  remember (skipn (S (S n)) ptr) as ptr' eqn:Hptr'.
  destruct ptr' as [|y rest]; [discriminate|].
  remember (y :: rest) as ptr2 eqn:Hptr2.
  destruct (memchr x00 ptr2) as [[|j]|] eqn:Em; try discriminate.
  intros H. injection H as <- <-.
  destruct (memchr_found _ _ _ Ef) as (Hsf & Hnf & Hlf).
  destruct (memchr_found _ _ _ Em) as (Hsm & Hnm & Hlm).
  split.
  { apply andb_false_iff in Eop.
    destruct Eop as [E | E]; apply negb_false_iff, N.eqb_eq in E; auto. }
  split.
  { destruct ptr; [cbn in Hlf; lia|]. cbn [firstn]. discriminate. }
  split; [exact Hnf|].
  split; [subst ptr2; cbn [firstn]; discriminate|].
  split; [exact Hnm|].
  exists (skipn (S (S j)) ptr2).
  rewrite (opcode_bytes buffer) at 1 by lia.
  f_equal. rewrite <- Hptr, <- Hsf at 1. f_equal.
  cbn [app]. f_equal. rewrite <- Hptr'.
  rewrite <- Hsm at 1. subst ptr2.
  rewrite ?app_assoc; reflexivity.
Qed.

(** X3. Whatever [parse_request_packet] accepts is a well-formed request:
    the opcode is RRQ or WRQ, file name and mode are non-empty and free of
    zero bytes, and the buffer is the opcode, the name, a zero, the mode,
    a zero, and then possibly more bytes, which are ignored. *)
Theorem parse_request_packet_sound (buffer f m : list byte) :
  parse_request_packet buffer = Some (f, m) ->
  (get_opcode buffer = TFTP_OPCODE_RRQ \/ get_opcode buffer = TFTP_OPCODE_WRQ)
  /\ f <> [] /\ c_string f /\ m <> [] /\ c_string m
  /\ exists extra,
       buffer = put_u16 (get_opcode buffer)
                ++ f ++ [x00] ++ m ++ [x00] ++ extra.
Proof. exact (accepted_request_is_well_formed buffer f m). Qed.

Lemma parse_request_packet_sound_witness :
  parse_request_packet (create_wrq_packet (str "a.bin") (str "OCTET")
                        ++ [x62; x00])
  = Some (str "a.bin", str "OCTET")
  /\ (get_opcode (create_wrq_packet (str "a.bin") (str "OCTET")
                  ++ [x62; x00]) = TFTP_OPCODE_RRQ
      \/ get_opcode (create_wrq_packet (str "a.bin") (str "OCTET")
                     ++ [x62; x00]) = TFTP_OPCODE_WRQ)
  /\ str "a.bin" <> [] /\ c_string (str "a.bin")
  /\ str "OCTET" <> [] /\ c_string (str "OCTET")
  /\ exists extra,
       create_wrq_packet (str "a.bin") (str "OCTET") ++ [x62; x00]
       = put_u16 (get_opcode (create_wrq_packet (str "a.bin") (str "OCTET")
                              ++ [x62; x00]))
         ++ str "a.bin" ++ [x00] ++ str "OCTET" ++ [x00] ++ extra.
Proof.
  assert (H : parse_request_packet
                (create_wrq_packet (str "a.bin") (str "OCTET")
                 ++ [x62; x00])
              = Some (str "a.bin", str "OCTET")) by reflexivity.
  split; [exact H|].
  exact (parse_request_packet_sound _ _ _ H).
Defined.

(** A well-formed request with further bytes after it. *)
Lemma request_with_trailing_bytes (f m extra : list byte) :
  f <> [] -> c_string f -> m <> [] -> c_string m ->
  parse_request_packet (create_rrq_packet f m ++ extra) = Some (f, m)
  /\ parse_request_packet (create_wrq_packet f m ++ extra) = Some (f, m).
Proof.
  intros Hf Hcf Hm Hcm.
  assert (Hgen : forall o1 : byte,
             get_opcode [x00; o1] = TFTP_OPCODE_RRQ \/
             get_opcode [x00; o1] = TFTP_OPCODE_WRQ ->
             parse_request_packet
               (([x00; o1] ++ f ++ [x00] ++ m ++ [x00]) ++ extra)
             = Some (f, m)).
  { intros o1 Hop. unfold parse_request_packet.
    assert (Hopc : get_opcode
                     (([x00; o1] ++ f ++ [x00] ++ m ++ [x00]) ++ extra)
                   = get_opcode [x00; o1]) by reflexivity.
    rewrite Hopc.
    assert (Hsel : negb (get_opcode [x00; o1] =? TFTP_OPCODE_RRQ)
                   && negb (get_opcode [x00; o1] =? TFTP_OPCODE_WRQ)
                   = false)
      by (destruct Hop as [-> | ->]; reflexivity).
    rewrite Hsel.
    assert (Hlen : (length (([x00; o1] ++ f ++ [x00] ++ m ++ [x00])
                            ++ extra) <? 6)%nat = false).
    { apply Nat.ltb_ge. destruct f; [congruence|]. destruct m; [congruence|].
      repeat (rewrite ?length_app; cbn [length app]). lia. }
    rewrite Hlen.
    change (skipn 2 (([x00; o1] ++ f ++ [x00] ++ m ++ [x00]) ++ extra))
      with ((f ++ [x00] ++ m ++ [x00]) ++ extra).
    rewrite <- !app_assoc. cbn [app]. cbv zeta.
    rewrite (memchr_terminator f _ Hcf), skipn_past_terminator,
            firstn_prefix.
    destruct f as [|a f']; [congruence|]. cbn [length].
    destruct m as [|b m']; [congruence|].
    change ((b :: m') ++ x00 :: extra)
      with (b :: (m' ++ x00 :: extra)).
    change (b :: (m' ++ x00 :: extra))
      with ((b :: m') ++ x00 :: extra).
    rewrite (memchr_terminator (b :: m') extra Hcm), firstn_prefix.
    reflexivity. }
  split.
  - apply (Hgen x01). now left.
  - apply (Hgen x02). now right.
Qed.

(** X4. Bytes after the terminator of the mode do not disturb a request:
    a well-formed RRQ or WRQ followed by anything at all parses to the
    same file name and mode. *)
Theorem parse_request_packet_ignores_trailing (f m extra : list byte) :
  f <> [] -> c_string f -> m <> [] -> c_string m ->
  parse_request_packet (create_rrq_packet f m ++ extra) = Some (f, m)
  /\ parse_request_packet (create_wrq_packet f m ++ extra) = Some (f, m).
Proof. exact (request_with_trailing_bytes f m extra). Qed.

Lemma parse_request_packet_ignores_trailing_witness :
  (str "a" <> [] /\ c_string (str "a")
   /\ str "octet" <> [] /\ c_string (str "octet"))
  /\ parse_request_packet (create_rrq_packet (str "a") (str "octet")
                           ++ str "blksize")
     = Some (str "a", str "octet").
Proof.
  assert (H1 : str "a" <> []) by discriminate.
  assert (H3 : str "octet" <> []) by discriminate.
  assert (H2 : c_string (str "a")).
  { unfold c_string. cbn. intros [H | []]. discriminate H. }
  assert (H4 : c_string (str "octet")).
  { unfold c_string. cbn. intros Hin.
    repeat (destruct Hin as [Hin | Hin]; [discriminate Hin|]). exact Hin. }
  split; [repeat split; assumption|].
  exact (proj1 (parse_request_packet_ignores_trailing
                  (str "a") (str "octet") (str "blksize") H1 H2 H3 H4)).
Defined.

End RequestParsing.

Section ReceivedPackets.
Import Codec Net.

(** X5. An Error message ends at its first zero byte: a well-formed Error
    packet followed by any further bytes parses to the same code and
    message, the bytes after the terminator being ignored. *)
Theorem parse_error_packet_stops_at_terminator
    (c : N) (m extra : list byte) :
  c < 65536 -> c_string m ->
  parse_error_packet (create_error_packet c m ++ extra) = Some (c, m).
Proof.
  intros Hc Hm. unfold parse_error_packet, create_error_packet.
  change (put_u16 TFTP_OPCODE_ERROR) with [x00; x05].
  change (get_opcode (([x00; x05] ++ put_u16 c ++ m ++ [x00]) ++ extra))
    with 5.
  assert (Hlen : (length (([x00; x05] ++ put_u16 c ++ m ++ [x00]) ++ extra)
                  <? ERROR_HEADER_SIZE + 1)%nat = false).
  { apply Nat.ltb_ge. unfold put_u16, ERROR_HEADER_SIZE.
    repeat (rewrite ?length_app; cbn [length app]). lia. }
  rewrite Hlen. cbn [orb negb N.eqb Pos.eqb TFTP_OPCODE_ERROR]. cbv zeta.
  rewrite <- !app_assoc.
  rewrite read_u16_after_opcode by exact Hc.
  change (skipn ERROR_HEADER_SIZE
            ([x00; x05] ++ put_u16 c ++ m ++ [x00] ++ extra))
    with (m ++ x00 :: extra).
  rewrite (memchr_terminator m extra Hm), firstn_prefix. reflexivity.
Qed.

Lemma parse_error_packet_stops_at_terminator_witness :
  (1 < 65536 /\ c_string [x6e; x6f])
  /\ parse_error_packet (create_error_packet 1 [x6e; x6f] ++ [x21; x00; x3f])
     = Some (1, [x6e; x6f]).
Proof.
  assert (H1 : 1 < 65536) by reflexivity.
  assert (H2 : c_string [x6e; x6f]).
  { unfold c_string. cbn. intros [H | [H | []]]; discriminate H. }
  split; [split; assumption|].
  exact (parse_error_packet_stops_at_terminator 1 _ [x21; x00; x3f] H1 H2).
Defined.

Lemma malformed_error_text_c_string : c_string malformed_error_text.
Proof.
  unfold c_string. cbn. intros Hin.
  repeat (destruct Hin as [Hin | Hin]; [discriminate Hin|]). exact Hin.
Qed.

(** X6. Every packet parsed from a received datagram satisfies the
    invariants of the data model: request strings are non-empty and
    zero-free, block numbers and error codes fit 16 bits, an Error message
    is zero-free, and -- the receive buffer holding 516 bytes -- a Data
    payload has at most 512 bytes. *)
Theorem received_packet_is_valid (payload : list byte) (P : Packet) :
  parse (recvfrom_buffer payload) = Some P -> valid_packet P.
Proof.
  assert (Hbuf : (length (recvfrom_buffer payload) <= MAX_PACKET_SIZE)%nat).
  { unfold recvfrom_buffer. rewrite length_firstn. lia. }
  revert Hbuf. generalize (recvfrom_buffer payload) as buffer.
  intros buffer Hbuf. unfold parse.
  assert (Hreq : forall f m, parse_request_packet buffer = Some (f, m) ->
                             f <> [] /\ c_string f /\ m <> [] /\ c_string m).
  { intros f m H.
    destruct (accepted_request_is_well_formed buffer f m H)
      as (_ & H1 & H2 & H3 & H4 & _). auto. }
  destruct (get_opcode buffer =? TFTP_OPCODE_RRQ).
  { destruct (parse_request_packet buffer) as [[f m]|] eqn:E;
      cbn [option_map fst snd]; intros H; [|discriminate].
    injection H as <-. cbn [valid_packet]. now apply Hreq. }
  destruct (get_opcode buffer =? TFTP_OPCODE_WRQ).
  { destruct (parse_request_packet buffer) as [[f m]|] eqn:E;
      cbn [option_map fst snd]; intros H; [|discriminate].
    injection H as <-. cbn [valid_packet]. now apply Hreq. }
  destruct (get_opcode buffer =? TFTP_OPCODE_DATA).
  { unfold parse_data_packet.
    destruct ((length buffer <? DATA_HEADER_SIZE)%nat
              || negb (get_opcode buffer =? TFTP_OPCODE_DATA));
      cbn [option_map fst snd]; intros H; [discriminate|].
    injection H as <-. cbn [valid_packet]. split.
    - apply read_u16_bound.
    - change (length (skipn 4 buffer) <= MAX_DATA_SIZE)%nat.
      rewrite length_skipn.
      unfold MAX_PACKET_SIZE, MAX_DATA_SIZE in *. lia. }
  destruct (get_opcode buffer =? TFTP_OPCODE_ACK).
  { unfold parse_ack_packet.
    destruct (negb (length buffer =? ACK_PACKET_SIZE)%nat
              || negb (get_opcode buffer =? TFTP_OPCODE_ACK));
      cbn [option_map]; intros H; [discriminate|].
    injection H as <-. cbn [valid_packet]. apply read_u16_bound. }
  destruct (get_opcode buffer =? TFTP_OPCODE_ERROR); [|discriminate].
  unfold parse_error_packet.
  destruct ((length buffer <? ERROR_HEADER_SIZE + 1)%nat
            || negb (get_opcode buffer =? TFTP_OPCODE_ERROR));
    [discriminate|]. cbv zeta.
  destruct (memchr x00 (skipn ERROR_HEADER_SIZE buffer)) as [n|] eqn:E;
    cbn [option_map fst snd]; intros H; injection H as <-;
    cbn [valid_packet]; (split; [apply read_u16_bound|]).
  - destruct (memchr_found _ _ _ E) as (_ & Hnot & _). exact Hnot.
  - exact malformed_error_text_c_string.
Qed.

Lemma received_packet_is_valid_witness :
  parse (recvfrom_buffer ([x00; x03; x00; x01] ++ repeat x41 600))
  = Some (Data 1 (repeat x41 512))
  /\ valid_packet (Data 1 (repeat x41 512)).
Proof.
  assert (H : parse (recvfrom_buffer ([x00; x03; x00; x01] ++ repeat x41 600))
              = Some (Data 1 (repeat x41 512)))
    by (vm_compute; reflexivity).
  split; [exact H|].
  exact (received_packet_is_valid _ _ H).
Defined.

(** X7. A Data packet that [create_data_packet] builds is four bytes
    longer than its payload and never longer than the 516-byte receive
    buffer of the other side, so it is received whole. *)
Theorem created_data_packet_fits (b : N) (d p : list byte) :
  create_data_packet b d = Some p ->
  length p = (DATA_HEADER_SIZE + length d)%nat
  /\ (length p <= MAX_PACKET_SIZE)%nat
  /\ recvfrom_buffer p = p.
Proof.
  unfold create_data_packet.
  destruct (MAX_DATA_SIZE <? length d)%nat eqn:E; [discriminate|].
  apply Nat.ltb_ge in E. intros H.
  assert (Hp : p = put_u16 TFTP_OPCODE_DATA ++ put_u16 b ++ d)
    by congruence.
  clear H. subst p.
  assert (Hlen : length (put_u16 TFTP_OPCODE_DATA ++ put_u16 b ++ d)
                 = (DATA_HEADER_SIZE + length d)%nat).
  { unfold put_u16. cbn [app length]. reflexivity. }
  split; [exact Hlen|].
  unfold MAX_DATA_SIZE, DATA_HEADER_SIZE in *.
  split; [rewrite Hlen; unfold MAX_PACKET_SIZE; lia|].
  unfold recvfrom_buffer. apply firstn_all2. rewrite Hlen.
  unfold MAX_PACKET_SIZE. lia.
Qed.

Lemma created_data_packet_fits_witness :
  create_data_packet 7 (repeat x41 512)
  = Some ([x00; x03; x00; x07] ++ repeat x41 512)
  /\ length ([x00; x03; x00; x07] ++ repeat x41 512)
     = (DATA_HEADER_SIZE + length (repeat x41 512))%nat
  /\ (length ([x00; x03; x00; x07] ++ repeat x41 512) <= MAX_PACKET_SIZE)%nat
  /\ recvfrom_buffer ([x00; x03; x00; x07] ++ repeat x41 512)
     = [x00; x03; x00; x07] ++ repeat x41 512.
Proof.
  assert (H : create_data_packet 7 (repeat x41 512)
              = Some ([x00; x03; x00; x07] ++ repeat x41 512))
    by (vm_compute; reflexivity).
  split; [exact H|].
  exact (created_data_packet_fits 7 _ _ H).
Defined.

End ReceivedPackets.

(** * The dispatcher *)

Section DispatcherFacts.
Import Codec Net RunServer.

Lemma starts_with_spec (pat : list byte) :
  forall s, starts_with pat s = true <-> exists after, s = pat ++ after.
Proof.
  induction pat as [|p pat IH]; intros s; cbn [starts_with].
  - split; [intros _; now exists s | reflexivity].
  - destruct s as [|x s'].
    + split; [discriminate | intros [after H]; discriminate H].
    + rewrite andb_true_iff, IH. split.
      * intros [E [after ->]]. apply Byte.byte_dec_bl in E. subst x.
        now exists after.
      * intros [after H]. cbn [app] in H. injection H as -> ->.
        split; [now apply Byte.byte_dec_lb | now exists after].
Qed.

Lemma find_spec (pat : list byte) :
  forall s, find pat s = true <-> contains pat s.
Proof.
  unfold contains.
  induction s as [|x s' IH]; cbn [find]; rewrite orb_true_iff.
  - rewrite starts_with_spec. split.
    + intros [[after H] | H]; [|discriminate]. now exists [], after.
    + intros (before & after & H). left.
      destruct before as [|b before]; [now exists after|]. discriminate H.
  - rewrite starts_with_spec, IH. split.
    + intros [[after H] | (before & after & H)].
      * now exists [], after.
      * exists (x :: before), after. cbn [app]. now rewrite H.
    + intros (before & after & H).
      destruct before as [|b before].
      * left. now exists after.
      * right. cbn [app] in H. injection H as -> H.
        now exists before, after.
Qed.

Lemma string_eqb_spec (a : list byte) :
  forall b, string_eqb a b = true <-> a = b.
Proof.
  induction a as [|x a IH]; intros [|y b]; cbn [string_eqb];
    try (split; [discriminate | intros H; discriminate H]);
    try (split; reflexivity).
  rewrite andb_true_iff, IH. split.
  - intros [E ->]. apply Byte.byte_dec_bl in E. now subst.
  - intros H. injection H as -> ->.
    split; [now apply Byte.byte_dec_lb | reflexivity].
Qed.

Lemma get_opcode_recvfrom (payload : list byte) :
  get_opcode (recvfrom_buffer payload) = get_opcode payload.
Proof.
  unfold recvfrom_buffer.
  destruct payload as [|b0 [|b1 rest]]; reflexivity.
Qed.

Lemma recvfrom_short (p : list byte) :
  (length p <= MAX_PACKET_SIZE)%nat -> recvfrom_buffer p = p.
Proof. intros H. unfold recvfrom_buffer. now apply firstn_all2. Qed.

Lemma request_length (o : N) (f m : list byte) :
  length (put_u16 o ++ f ++ [x00] ++ m ++ [x00])
  = (length f + length m + 4)%nat.
Proof.
  unfold put_u16. repeat (rewrite ?length_app; cbn [length app]). lia.
Qed.

(** What the dispatcher reads from a well-formed request that fits the
    receive buffer. *)
Lemma dispatcher_reads_request (f m : list byte) :
  f <> [] -> c_string f -> m <> [] -> c_string m ->
  (length f + length m + 4 <= MAX_PACKET_SIZE)%nat ->
  (parse_request_packet (recvfrom_buffer (create_rrq_packet f m))
   = Some (f, m)
   /\ get_opcode (recvfrom_buffer (create_rrq_packet f m)) = TFTP_OPCODE_RRQ)
  /\ (parse_request_packet (recvfrom_buffer (create_wrq_packet f m))
      = Some (f, m)
      /\ get_opcode (recvfrom_buffer (create_wrq_packet f m))
         = TFTP_OPCODE_WRQ).
Proof.
  intros Hf Hcf Hm Hcm Hlen.
  destruct (request_with_trailing_bytes f m [] Hf Hcf Hm Hcm)
    as [Hr Hw].
  rewrite !app_nil_r in Hr, Hw.
  rewrite !get_opcode_recvfrom.
  rewrite !recvfrom_short
    by (unfold create_rrq_packet, create_wrq_packet;
        rewrite request_length; exact Hlen).
  repeat split; assumption.
Qed.

(** The three tests on the file name, as facts about its bytes. *)
Lemma potential_path_traversal_spec (f : list byte) :
  potential_path_traversal f = true
  <-> contains (str "..") f \/ contains [x2f] f \/ contains [x5c] f.
Proof.
  unfold potential_path_traversal.
  rewrite !orb_true_iff, !find_spec. tauto.
Qed.

End DispatcherFacts.

Section Dispatcher.
Import Codec Net RunServer.

(** X8. A read or write request whose file name contains "..", a slash or
    a backslash is refused, whatever its mode and whatever the path check
    would say: exactly one packet is sent, it goes to the requester, who
    reads it as Error(AccessViolation = 2) "Invalid filename characters";
    no handler runs. *)
Theorem dispatch_refuses_path_characters
    (client : sockaddr_in) (f m : list byte) (env : server_env) :
  f <> [] -> c_string f -> m <> [] -> c_string m ->
  (length f + length m + 4 <= MAX_PACKET_SIZE)%nat ->
  socket_ok env = true -> timeout_ok env = true ->
  contains (str "..") f \/ contains [x2f] f \/ contains [x5c] f ->
  (exists out,
      dispatch (Datagram client (create_rrq_packet f m)) env
      = (out, NoTransfer)
      /\ Blocks.decoded out
         = [(client, Some (Error 2 (str "Invalid filename characters")))])
  /\ (exists out,
         dispatch (Datagram client (create_wrq_packet f m)) env
         = (out, NoTransfer)
         /\ Blocks.decoded out
            = [(client, Some (Error 2 (str "Invalid filename characters")))]).
Proof.
  intros Hf Hcf Hm Hcm Hlen Hsock Htime Hbad.
  destruct (dispatcher_reads_request f m Hf Hcf Hm Hcm Hlen)
    as [[Hr _] [Hw _]].
  apply potential_path_traversal_spec in Hbad.
  unfold dispatch. rewrite Hsock, Htime, Hr, Hw, Hbad.
  split; eexists; split; reflexivity.
Qed.

Lemma dispatch_refuses_path_characters_witness :
  (str "../etc/passwd" <> [] /\ c_string (str "../etc/passwd")
   /\ str "octet" <> [] /\ c_string (str "octet")
   /\ (length (str "../etc/passwd") + length (str "octet") + 4
       <= MAX_PACKET_SIZE)%nat
   /\ (contains (str "..") (str "../etc/passwd")
       \/ contains [x2f] (str "../etc/passwd")
       \/ contains [x5c] (str "../etc/passwd")))
  /\ exists out,
       dispatch (Datagram {| s_addr := 7; sin_port := 1234 |}
                   (create_rrq_packet (str "../etc/passwd") (str "octet")))
         {| socket_ok := true; timeout_ok := true; path_check := InsideBase |}
       = (out, NoTransfer)
       /\ Blocks.decoded out
          = [({| s_addr := 7; sin_port := 1234 |},
              Some (Error 2 (str "Invalid filename characters")))].
Proof.
  assert (H1 : str "../etc/passwd" <> []) by discriminate.
  assert (H2 : c_string (str "../etc/passwd")).
  { unfold c_string. cbn. intros Hin.
    repeat (destruct Hin as [Hin | Hin]; [discriminate Hin|]). exact Hin. }
  assert (H3 : str "octet" <> []) by discriminate.
  assert (H4 : c_string (str "octet")).
  { unfold c_string. cbn. intros Hin.
    repeat (destruct Hin as [Hin | Hin]; [discriminate Hin|]). exact Hin. }
  assert (H5 : (length (str "../etc/passwd") + length (str "octet") + 4
                <= MAX_PACKET_SIZE)%nat)
    by (unfold MAX_PACKET_SIZE; cbn; lia).
  assert (H6 : contains (str "..") (str "../etc/passwd")
               \/ contains [x2f] (str "../etc/passwd")
               \/ contains [x5c] (str "../etc/passwd")).
  { left. exists [], (str "/etc/passwd"). reflexivity. }
  split; [repeat split; assumption|].
  exact (proj1 (dispatch_refuses_path_characters
                  {| s_addr := 7; sin_port := 1234 |} _ _
                  {| socket_ok := true; timeout_ok := true;
                     path_check := InsideBase |}
                  H1 H2 H3 H4 H5 eq_refl eq_refl H6)).
Defined.

(** The dispatcher on a request with an acceptable file name. *)
Lemma dispatch_on_clean_request
    (client : sockaddr_in) (f m : list byte) (env : server_env) :
  f <> [] -> c_string f -> m <> [] -> c_string m ->
  (length f + length m + 4 <= MAX_PACKET_SIZE)%nat ->
  socket_ok env = true -> timeout_ok env = true ->
  path_check env = InsideBase ->
  ~ contains (str "..") f -> ~ contains [x2f] f -> ~ contains [x5c] f ->
  (map tolower m = str "octet" ->
   dispatch (Datagram client (create_rrq_packet f m)) env
   = ([], ServeRead client f)
   /\ dispatch (Datagram client (create_wrq_packet f m)) env
      = ([], ServeWrite client f))
  /\ (map tolower m <> str "octet" ->
      dispatch (Datagram client (create_rrq_packet f m)) env
      = (Peer.sent_to client
           [Error TFTP_ERROR_ILLEGAL_OPERATION
                  (str "Unsupported mode (use octet)")],
         NoTransfer)
      /\ dispatch (Datagram client (create_wrq_packet f m)) env
         = (Peer.sent_to client
              [Error TFTP_ERROR_ILLEGAL_OPERATION
                     (str "Unsupported mode (use octet)")],
            NoTransfer)).
Proof.
  intros Hf Hcf Hm Hcm Hlen Hsock Htime Hpath Hdd Hsl Hbs.
  destruct (dispatcher_reads_request f m Hf Hcf Hm Hcm Hlen)
    as [[Hr Hor] [Hw How]].
  assert (Hclean : potential_path_traversal f = false).
  { destruct (potential_path_traversal f) eqn:E; [|reflexivity].
    apply potential_path_traversal_spec in E. tauto. }
  unfold dispatch.
  rewrite Hsock, Htime, Hr, Hw, Hclean, Hpath, Hor, How.
  cbn [negb]. cbv zeta. split; intros Hmode.
  - apply string_eqb_spec in Hmode. rewrite Hmode. split; reflexivity.
  - assert (Hne : string_eqb (map tolower m) (str "octet") = false).
    { destruct (string_eqb (map tolower m) (str "octet")) eqn:E;
        [|reflexivity]. apply string_eqb_spec in E. contradiction. }
    rewrite Hne. split; reflexivity.
Qed.

(** X9. The transfer mode is compared without regard to case and only
    "octet" is served: a request with an acceptable file name inside the
    base directory starts the read handler (RRQ) or the write handler
    (WRQ) for that name when its mode lower-cases to "octet"; otherwise
    no handler runs and exactly one packet is sent, to the requester, who
    reads it as Error(IllegalOperation = 4) "Unsupported mode (use
    octet)". *)
Theorem dispatch_serves_octet_only
    (client : sockaddr_in) (f m : list byte) (env : server_env) :
  f <> [] -> c_string f -> m <> [] -> c_string m ->
  (length f + length m + 4 <= MAX_PACKET_SIZE)%nat ->
  socket_ok env = true -> timeout_ok env = true ->
  path_check env = InsideBase ->
  ~ contains (str "..") f -> ~ contains [x2f] f -> ~ contains [x5c] f ->
  (map tolower m = str "octet" ->
   dispatch (Datagram client (create_rrq_packet f m)) env
   = ([], ServeRead client f)
   /\ dispatch (Datagram client (create_wrq_packet f m)) env
      = ([], ServeWrite client f))
  /\ (map tolower m <> str "octet" ->
      (exists out,
          dispatch (Datagram client (create_rrq_packet f m)) env
          = (out, NoTransfer)
          /\ Blocks.decoded out
             = [(client,
                 Some (Error 4 (str "Unsupported mode (use octet)")))])
      /\ (exists out,
             dispatch (Datagram client (create_wrq_packet f m)) env
             = (out, NoTransfer)
             /\ Blocks.decoded out
                = [(client,
                    Some (Error 4 (str "Unsupported mode (use octet)")))])).
Proof.
  intros Hf Hcf Hm Hcm Hlen Hsock Htime Hpath Hdd Hsl Hbs.
  destruct (dispatch_on_clean_request client f m env
              Hf Hcf Hm Hcm Hlen Hsock Htime Hpath Hdd Hsl Hbs)
    as [Hoctet Hother].
  split; [exact Hoctet|]. intros Hmode.
  destruct (Hother Hmode) as [Hr Hw]. rewrite Hr, Hw.
  split; eexists; split; reflexivity.
Qed.

End Dispatcher.

Section DispatcherInvariants.
Import Codec Net RunServer.

Lemma not_contains (pat s : list byte) :
  find pat s = false -> ~ contains pat s.
Proof.
  intros H Hc. apply find_spec in Hc. rewrite Hc in H. discriminate H.
Qed.

Lemma dispatch_serves_octet_only_witness :
  let client := {| s_addr := 7; sin_port := 1234 |} in
  let env := {| socket_ok := true; timeout_ok := true;
                path_check := InsideBase |} in
  (str "a.txt" <> [] /\ c_string (str "a.txt")
   /\ ~ contains (str "..") (str "a.txt")
   /\ ~ contains [x2f] (str "a.txt")
   /\ ~ contains [x5c] (str "a.txt"))
  /\ ((str "OcTeT" <> [] /\ c_string (str "OcTeT")
       /\ (length (str "a.txt") + length (str "OcTeT") + 4
           <= MAX_PACKET_SIZE)%nat
       /\ map tolower (str "OcTeT") = str "octet")
      /\ dispatch (Datagram client
                     (create_wrq_packet (str "a.txt") (str "OcTeT"))) env
         = ([], ServeWrite client (str "a.txt")))
  /\ ((str "netascii" <> [] /\ c_string (str "netascii")
       /\ (length (str "a.txt") + length (str "netascii") + 4
           <= MAX_PACKET_SIZE)%nat
       /\ map tolower (str "netascii") <> str "octet")
      /\ exists out,
           dispatch (Datagram client
                       (create_rrq_packet (str "a.txt") (str "netascii"))) env
           = (out, NoTransfer)
           /\ Blocks.decoded out
              = [(client,
                  Some (Error 4 (str "Unsupported mode (use octet)")))]).
Proof.
  cbv zeta.
  assert (H1 : str "a.txt" <> []) by discriminate.
  assert (H2 : c_string (str "a.txt")).
  { unfold c_string. cbn. intros Hin.
    repeat (destruct Hin as [Hin | Hin]; [discriminate Hin|]). exact Hin. }
  assert (H3 : str "OcTeT" <> []) by discriminate.
  assert (H4 : c_string (str "OcTeT")).
  { unfold c_string. cbn. intros Hin.
    repeat (destruct Hin as [Hin | Hin]; [discriminate Hin|]). exact Hin. }
  assert (H5 : (length (str "a.txt") + length (str "OcTeT") + 4
                <= MAX_PACKET_SIZE)%nat)
    by (unfold MAX_PACKET_SIZE; cbn; lia).
  assert (H6 : ~ contains (str "..") (str "a.txt"))
    by (apply not_contains; reflexivity).
  assert (H7 : ~ contains [x2f] (str "a.txt"))
    by (apply not_contains; reflexivity).
  assert (H8 : ~ contains [x5c] (str "a.txt"))
    by (apply not_contains; reflexivity).
  assert (H9 : map tolower (str "OcTeT") = str "octet") by reflexivity.
  assert (N3 : str "netascii" <> []) by discriminate.
  assert (N4 : c_string (str "netascii")).
  { unfold c_string. cbn. intros Hin.
    repeat (destruct Hin as [Hin | Hin]; [discriminate Hin|]). exact Hin. }
  assert (N5 : (length (str "a.txt") + length (str "netascii") + 4
                <= MAX_PACKET_SIZE)%nat)
    by (unfold MAX_PACKET_SIZE; cbn; lia).
  assert (N9 : map tolower (str "netascii") <> str "octet") by discriminate.
  split; [repeat split; assumption|]. split.
  - split; [repeat split; assumption|].
    exact (proj2 (proj1 (dispatch_serves_octet_only
                           {| s_addr := 7; sin_port := 1234 |} _ _
                           {| socket_ok := true; timeout_ok := true;
                              path_check := InsideBase |}
                           H1 H2 H3 H4 H5 eq_refl eq_refl eq_refl H6 H7 H8)
                        H9)).
  - split; [repeat split; assumption|].
    exact (proj1 (proj2 (dispatch_serves_octet_only
                           {| s_addr := 7; sin_port := 1234 |} _ _
                           {| socket_ok := true; timeout_ok := true;
                              path_check := InsideBase |}
                           H1 H2 N3 N4 N5 eq_refl eq_refl eq_refl H6 H7 H8)
                        N9)).
Defined.



(** X11. A handler is only ever started for the sender of a request
    whose file name is non-empty and contains no zero byte, no "..", no
    slash and no backslash, whose mode lower-cases to "octet" and whose
    opcode is the handler's; and nothing has been sent when it starts. *)
Theorem dispatch_starts_handler_on_clean_name
    (r : recv_result) (env : server_env) (out : list sent)
    (client : sockaddr_in) (f : list byte) (act : action) :
  dispatch r env = (out, act) ->
  act = ServeRead client f \/ act = ServeWrite client f ->
  out = []
  /\ (exists payload m,
         r = Datagram client payload
         /\ parse_request_packet (recvfrom_buffer payload) = Some (f, m)
         /\ map tolower m = str "octet"
         /\ (act = ServeRead client f ->
             get_opcode payload = TFTP_OPCODE_RRQ)
         /\ (act = ServeWrite client f ->
             get_opcode payload = TFTP_OPCODE_WRQ))
  /\ f <> [] /\ c_string f
  /\ ~ contains (str "..") f /\ ~ contains [x2f] f /\ ~ contains [x5c] f
  /\ path_check env = InsideBase.
Proof.
  unfold dispatch.
  destruct r as [| |src payload];
    try (intros H [-> | ->]; discriminate H).
  cbv zeta.
  destruct (socket_ok env); cbn [negb];
    [|intros H [-> | ->]; discriminate H].
  destruct (timeout_ok env); cbn [negb];
    [|intros H [-> | ->]; discriminate H].
  destruct (parse_request_packet (recvfrom_buffer payload))
    as [[f0 m]|] eqn:Ep; [|intros H [-> | ->]; discriminate H].
  destruct (potential_path_traversal f0) eqn:Et;
    [intros H [-> | ->]; discriminate H|].
  destruct (path_check env) eqn:Epath;
    try (intros H [-> | ->]; discriminate H).
  destruct (string_eqb (map tolower m) (str "octet")) eqn:Em; cbn [negb];
    [|intros H [-> | ->]; discriminate H].
  apply string_eqb_spec in Em.
  destruct (accepted_request_is_well_formed _ _ _ Ep)
    as (Hop & Hf & Hcf & _ & _ & _).
  rewrite get_opcode_recvfrom in Hop.
  assert (Hclean : ~ contains (str "..") f0 /\ ~ contains [x2f] f0
                   /\ ~ contains [x5c] f0).
  { repeat split; intros Hc;
      assert (Hb : potential_path_traversal f0 = true)
        by (apply potential_path_traversal_spec; tauto);
      rewrite Hb in Et; discriminate Et. }
  rewrite get_opcode_recvfrom.
  destruct (get_opcode payload =? TFTP_OPCODE_RRQ) eqn:Eo;
    intros H Hact; injection H as <- <-;
    destruct Hact as [Hact | Hact]; try discriminate Hact;
    injection Hact as <- <-.
  - apply N.eqb_eq in Eo.
    split; [reflexivity|]. split; [|tauto].
    exists payload, m. repeat split; auto. discriminate.
  - apply N.eqb_neq in Eo. destruct Hop as [Hop | Hop]; [contradiction|].
    split; [reflexivity|]. split; [|tauto].
    exists payload, m. repeat split; auto. discriminate.
Qed.

Lemma dispatch_starts_handler_on_clean_name_witness :
  let r := Datagram {| s_addr := 7; sin_port := 1234 |}
             (create_rrq_packet (str "a.txt") (str "octet")) in
  let env := {| socket_ok := true; timeout_ok := true;
                path_check := InsideBase |} in
  let client := {| s_addr := 7; sin_port := 1234 |} in
  (dispatch r env = ([], ServeRead client (str "a.txt"))
   /\ (ServeRead client (str "a.txt") = ServeRead client (str "a.txt")
       \/ ServeRead client (str "a.txt") = ServeWrite client (str "a.txt")))
  /\ ~ contains (str "..") (str "a.txt")
  /\ path_check env = InsideBase.
Proof.
  cbv zeta.
  assert (H1 : dispatch
                 (Datagram {| s_addr := 7; sin_port := 1234 |}
                    (create_rrq_packet (str "a.txt") (str "octet")))
                 {| socket_ok := true; timeout_ok := true;
                    path_check := InsideBase |}
               = ([], ServeRead {| s_addr := 7; sin_port := 1234 |}
                        (str "a.txt"))) by reflexivity.
  assert (H2 : ServeRead {| s_addr := 7; sin_port := 1234 |} (str "a.txt")
               = ServeRead {| s_addr := 7; sin_port := 1234 |} (str "a.txt")
               \/ ServeRead {| s_addr := 7; sin_port := 1234 |} (str "a.txt")
                  = ServeWrite {| s_addr := 7; sin_port := 1234 |}
                      (str "a.txt")) by (left; reflexivity).
  split; [split; assumption|].
  destruct (dispatch_starts_handler_on_clean_name _ _ _ _ _ _ H1 H2)
    as (_ & _ & _ & _ & Hdd & _ & _ & Hpath).
  split; assumption.
Defined.

End DispatcherInvariants.

Section DispatcherReplies.
Import Codec Net RunServer.

(** X12. Whatever arrives, the dispatcher itself sends at most one
    packet: an Error with code 0, 2 or 4, addressed to the sender of the
    datagram, and only when it starts no handler. *)
Theorem dispatch_reply_is_one_error
    (r : recv_result) (env : server_env) (p : sent) :
  In p (fst (dispatch r env)) ->
  fst (dispatch r env) = [p]
  /\ snd (dispatch r env) = NoTransfer
  /\ (exists payload, r = Datagram (dst p) payload)
  /\ exists code msg,
       parse (pkt p) = Some (Error code msg)
       /\ (code = TFTP_ERROR_NOT_DEFINED
           \/ code = TFTP_ERROR_ACCESS_VIOLATION
           \/ code = TFTP_ERROR_ILLEGAL_OPERATION).
Proof.
  unfold dispatch. destruct r as [| |src payload]; try (intros []).
  cbv zeta.
  destruct (socket_ok env); cbn [negb]; [|intros []].
  destruct (timeout_ok env); cbn [negb]; [|intros []].
  destruct (parse_request_packet (recvfrom_buffer payload)) as [[f m]|].
  - destruct (potential_path_traversal f).
    + intros [<- | []]. repeat split; eauto.
      eexists _, _. split; [reflexivity|]. auto.
    + destruct (path_check env).
      * destruct (string_eqb (map tolower m) (str "octet")); cbn [negb].
        -- destruct (get_opcode (recvfrom_buffer payload) =? TFTP_OPCODE_RRQ);
             intros [].
        -- intros [<- | []]. repeat split; eauto.
           eexists _, _. split; [reflexivity|]. auto.
      * intros [<- | []]. repeat split; eauto.
        eexists _, _. split; [reflexivity|]. auto.
      * intros [<- | []]. repeat split; eauto.
        eexists _, _. split; [reflexivity|]. auto.
  - intros [<- | []]. repeat split; eauto.
    eexists _, _. split; [reflexivity|]. auto.
Qed.

Lemma dispatch_reply_is_one_error_witness :
  let r := Datagram {| s_addr := 7; sin_port := 1234 |}
             (create_rrq_packet (str "a.txt") (str "netascii")) in
  let env := {| socket_ok := true; timeout_ok := true;
                path_check := InsideBase |} in
  let p := reply {| s_addr := 7; sin_port := 1234 |}
                 TFTP_ERROR_ILLEGAL_OPERATION
                 "Unsupported mode (use octet)" in
  In p (fst (dispatch r env))
  /\ fst (dispatch r env) = [p]
  /\ snd (dispatch r env) = NoTransfer.
Proof.
  cbv zeta.
  match goal with
  | |- ?A /\ _ => assert (H : A) by (left; reflexivity)
  end.
  split; [exact H|].
  destruct (dispatch_reply_is_one_error _ _ _ H) as (H1 & H2 & _).
  split; assumption.
Defined.

(** X13. A well-formed octet request that cannot be served gets exactly
    one packet, read by the requester as an Error, and leaves the disk as
    it was: a read request for a file that cannot be opened gets
    Error(FileNotFound = 1); where the write handler can check whether
    the file exists, a write request for a file that exists gets
    Error(FileAlreadyExists = 6) and the file keeps its contents, and a
    write request for a file that cannot be opened gets
    Error(AccessViolation = 2). *)
Theorem serve_refusal_leaves_disk
    (client : sockaddr_in) (f contents : list byte) (env : server_env)
    (status_ok open_ok : bool) (reached : nat)
    (i0 : input) (ins : list input) :
  f <> [] -> c_string f ->
  (length f + 9 <= MAX_PACKET_SIZE)%nat ->
  socket_ok env = true -> timeout_ok env = true ->
  path_check env = InsideBase ->
  ~ contains (str "..") f -> ~ contains [x2f] f -> ~ contains [x5c] f ->
  (exists out,
      serve (Datagram client (create_rrq_packet f (str "octet"))) env
            status_ok None open_ok reached i0 ins
      = (out, None)
      /\ Blocks.decoded out
         = [(client, Some (Error 1 (str "File not found")))])
  /\ (exists out,
         serve (Datagram client (create_wrq_packet f (str "octet"))) env
               true (Some contents) open_ok reached i0 ins
         = (out, Some contents)
         /\ Blocks.decoded out
            = [(client, Some (Error 6 (str "File already exists")))])
  /\ (exists out,
         serve (Datagram client (create_wrq_packet f (str "octet"))) env
               true None false reached i0 ins
         = (out, None)
         /\ Blocks.decoded out
            = [(client, Some (Error 2 (str "Cannot write file")))]).
Proof.
  intros Hf Hcf Hlen Hsock Htime Hpath Hdd Hsl Hbs.
  assert (Hm : str "octet" <> []) by discriminate.
  assert (Hcm : c_string (str "octet")).
  { unfold c_string. cbn. intros Hin.
    repeat (destruct Hin as [Hin | Hin]; [discriminate Hin|]). exact Hin. }
  assert (Hlen' : (length f + length (str "octet") + 4
                   <= MAX_PACKET_SIZE)%nat)
    by (change (length (str "octet")) with 5%nat; lia).
  destruct (proj1 (dispatch_on_clean_request client f (str "octet") env
                     Hf Hcf Hm Hcm Hlen' Hsock Htime Hpath Hdd Hsl Hbs)
                  eq_refl) as [Hr Hw].
  unfold serve. rewrite Hr, Hw.
  split; [|split]; eexists; split; reflexivity.
Qed.

End DispatcherReplies.

(** * The receiving loops *)

Section ReaderSteps.
Import Codec Net.

(** What both receive loops read from a Data packet that arrives. *)
Lemma data_arrives (b : N) (d : list byte) :
  b < 65536 -> (length d <= MAX_DATA_SIZE)%nat ->
  get_opcode (recvfrom_buffer (Peer.wire (Data b d))) = TFTP_OPCODE_DATA
  /\ parse_data_packet (recvfrom_buffer (Peer.wire (Data b d))) = Some (b, d).
Proof.
  intros Hb Hd. rewrite recvfrom_data by exact Hd.
  rewrite wire_data by exact Hd. split; [reflexivity|].
  now apply parse_data_created.
Qed.

(** [receive_file] with the TID still open, or locked on the sender. *)
Lemma receive_file_step_from_peer (s : ReceiveFile.state) (i : input)
    (src : sockaddr_in) (payload : list byte) :
  recv i = Datagram src payload ->
  ReceiveFile.first_data_packet s = true
  \/ (ReceiveFile.first_data_packet s = false
      /\ ReceiveFile.server_addr s = src) ->
  ReceiveFile.step s i
  = ReceiveFile.handle_packet (ReceiveFile.lock_tid s src) i
                              (recvfrom_buffer payload).
Proof.
  intros Hrecv Htid. unfold ReceiveFile.step. rewrite Hrecv.
  destruct Htid as [Hfirst | [Hfirst Haddr]]; rewrite Hfirst.
  - reflexivity.
  - rewrite <- Haddr, same_endpoint_refl. cbn [negb].
    destruct s; cbn in *. subst. reflexivity.
Qed.

(** A block numbered below the expected one, in both receive loops. *)
Lemma duplicate_data_step
    (i : input) (src : sockaddr_in) (b : N) (d : list byte) :
  recv i = Datagram src (Peer.wire (Data b d)) ->
  (length d <= MAX_DATA_SIZE)%nat ->
  (forall s : ReceiveFile.state,
      b < ReceiveFile.expected_block_num s ->
      ReceiveFile.expected_block_num s < 65536 ->
      ReceiveFile.first_data_packet s = false ->
      ReceiveFile.server_addr s = src ->
      ReceiveFile.step s i = (Await, s, Peer.sent_to src [Ack b]))
  /\ (forall s : HandleWriteRequest.state,
         b < HandleWriteRequest.expected_block_num s ->
         HandleWriteRequest.expected_block_num s < 65536 ->
         HandleWriteRequest.step s i
         = (Await, HandleWriteRequest.set_client s src,
            Peer.sent_to src [Ack b])).
Proof.
  intros Hrecv Hd. split.
  - intros s Hlt Hexp Hfirst Haddr.
    destruct (data_arrives b d ltac:(lia) Hd) as [Hop Hparse].
    rewrite (receive_file_step_from_peer s i src _ Hrecv)
      by (right; split; assumption).
    unfold ReceiveFile.handle_packet. rewrite Hop, Hparse.
    cbn [ReceiveFile.lock_tid ReceiveFile.expected_block_num].
    assert (Hne : (b =? ReceiveFile.expected_block_num s) = false)
      by (apply N.eqb_neq; lia).
    apply N.ltb_lt in Hlt. rewrite Hne, Hlt.
    destruct s; cbn in *; subst. reflexivity.
  - intros s Hlt Hexp.
    destruct (data_arrives b d ltac:(lia) Hd) as [Hop Hparse].
    unfold HandleWriteRequest.step. rewrite Hrecv. cbv zeta.
    rewrite Hop, Hparse.
    cbn [HandleWriteRequest.set_client HandleWriteRequest.expected_block_num].
    assert (Hne : (b =? HandleWriteRequest.expected_block_num s) = false)
      by (apply N.eqb_neq; lia).
    apply N.ltb_lt in Hlt. rewrite Hne, Hlt. reflexivity.
Qed.

(** X14. A Data block that was already received is acknowledged again
    and otherwise ignored, in the client's GET as in the server's WRQ
    handler: for a block number below the expected one the loop sends
    exactly one packet, to the sender, who reads it as Ack of that
    number; it writes nothing, keeps the expected number and waits again
    -- whether or not that send succeeds. *)
Theorem duplicate_data_is_acknowledged_again
    (i : input) (src : sockaddr_in) (b : N) (d : list byte) :
  recv i = Datagram src (Peer.wire (Data b d)) ->
  (length d <= MAX_DATA_SIZE)%nat ->
  (forall s : ReceiveFile.state,
      b < ReceiveFile.expected_block_num s ->
      ReceiveFile.expected_block_num s < 65536 ->
      ReceiveFile.first_data_packet s = false ->
      ReceiveFile.server_addr s = src ->
      exists out,
        ReceiveFile.step s i = (Await, s, out)
        /\ Blocks.decoded out = [(src, Some (Ack b))])
  /\ (forall s : HandleWriteRequest.state,
         b < HandleWriteRequest.expected_block_num s ->
         HandleWriteRequest.expected_block_num s < 65536 ->
         exists out,
           HandleWriteRequest.step s i
           = (Await, HandleWriteRequest.set_client s src, out)
           /\ Blocks.decoded out = [(src, Some (Ack b))]).
Proof.
  intros Hrecv Hd.
  destruct (duplicate_data_step i src b d Hrecv Hd) as [Hc Hs]. split.
  - intros s Hlt Hexp Hfirst Haddr. eexists.
    split; [exact (Hc s Hlt Hexp Hfirst Haddr)|].
    apply (decoded_sent_to src [Ack b]). repeat constructor. cbn. lia.
  - intros s Hlt Hexp. eexists. split; [exact (Hs s Hlt Hexp)|].
    apply (decoded_sent_to src [Ack b]). repeat constructor. cbn. lia.
Qed.

Lemma duplicate_data_is_acknowledged_again_witness :
  let src := {| s_addr := 10; sin_port := 2000 |} in
  let i := {| recv := Datagram src (Peer.wire (Data 1 (repeat x41 512)));
              send_ok := false; write_ok := true |} in
  let s := {| HandleWriteRequest.client_addr := src;
              HandleWriteRequest.expected_block_num := 2;
              HandleWriteRequest.transfer_complete := false;
              HandleWriteRequest.local_file := Some (repeat x41 512) |} in
  (recv i = Datagram src (Peer.wire (Data 1 (repeat x41 512)))
   /\ (length (repeat x41 512) <= MAX_DATA_SIZE)%nat
   /\ 1 < HandleWriteRequest.expected_block_num s
   /\ HandleWriteRequest.expected_block_num s < 65536)
  /\ exists out,
       HandleWriteRequest.step s i
       = (Await, HandleWriteRequest.set_client s src, out)
       /\ Blocks.decoded out = [(src, Some (Ack 1))].
Proof.
  cbv zeta.
  assert (H2 : (length (repeat x41 512) <= MAX_DATA_SIZE)%nat)
    by (rewrite repeat_length; unfold MAX_DATA_SIZE; lia).
  split; [repeat split; exact H2|].
  match goal with
  | |- exists out, HandleWriteRequest.step _ ?i = _ /\ _ =>
      refine (proj2 (duplicate_data_is_acknowledged_again
                       i {| s_addr := 10; sin_port := 2000 |} 1
                       (repeat x41 512) eq_refl H2) _ _ _); reflexivity
  end.
Defined.




End ReaderSteps.

Section ReaderStrays.
Import Codec Net.

(** A datagram that is neither Data nor Error, in both receive loops. *)
Lemma stray_packet_step
    (i : input) (src : sockaddr_in) (payload : list byte) :
  recv i = Datagram src payload ->
  get_opcode payload <> TFTP_OPCODE_DATA ->
  get_opcode payload <> TFTP_OPCODE_ERROR ->
  (forall s : ReceiveFile.state,
      ReceiveFile.first_data_packet s = false ->
      ReceiveFile.server_addr s = src ->
      ReceiveFile.step s i = (Await, s, []))
  /\ (forall s : HandleWriteRequest.state,
         HandleWriteRequest.step s i
         = (Throw "Protocol error: Unexpected packet type.",
            HandleWriteRequest.remove (HandleWriteRequest.set_client s src),
            Peer.sent_to src
              [Error TFTP_ERROR_ILLEGAL_OPERATION
                     (str "Unexpected packet type")])).
Proof.
  intros Hrecv Hd He. apply N.eqb_neq in Hd, He. split.
  - intros s Hfirst Haddr.
    rewrite (receive_file_step_from_peer s i src _ Hrecv)
      by (right; split; assumption).
    unfold ReceiveFile.handle_packet.
    rewrite get_opcode_recvfrom, Hd, He.
    destruct s; cbn in *; subst. reflexivity.
  - intros s. unfold HandleWriteRequest.step. rewrite Hrecv. cbv zeta.
    rewrite get_opcode_recvfrom, Hd, He. reflexivity.
Qed.

(** X16. A datagram from the peer that is neither Data nor Error (an Ack,
    a request, an unknown opcode, fewer than two bytes) is treated
    differently by the two receiving sides: the client's GET ignores it
    -- nothing is sent, nothing changes -- while the server's WRQ handler
    sends exactly one packet, to the sender, who reads it as
    Error(IllegalOperation = 4) "Unexpected packet type", removes the
    file and throws. *)
Theorem stray_packet_in_reception
    (i : input) (src : sockaddr_in) (payload : list byte) :
  recv i = Datagram src payload ->
  get_opcode payload <> TFTP_OPCODE_DATA ->
  get_opcode payload <> TFTP_OPCODE_ERROR ->
  (forall s : ReceiveFile.state,
      ReceiveFile.first_data_packet s = false ->
      ReceiveFile.server_addr s = src ->
      ReceiveFile.step s i = (Await, s, []))
  /\ (forall s : HandleWriteRequest.state,
         exists out,
           HandleWriteRequest.step s i
           = (Throw "Protocol error: Unexpected packet type.",
              HandleWriteRequest.remove (HandleWriteRequest.set_client s src),
              out)
           /\ Blocks.decoded out
              = [(src, Some (Error 4 (str "Unexpected packet type")))]).
Proof.
  intros Hrecv Hd He.
  destruct (stray_packet_step i src payload Hrecv Hd He) as [Hc Hs].
  split; [exact Hc|].
  intros s. eexists. split; [exact (Hs s)|]. reflexivity.
Qed.

Lemma stray_packet_in_reception_witness :
  let src := {| s_addr := 10; sin_port := 2000 |} in
  let i := {| recv := Datagram src [x00; x04; x00; x01];
              send_ok := true; write_ok := true |} in
  let s := {| ReceiveFile.expected_block_num := 1;
              ReceiveFile.server_addr := src;
              ReceiveFile.first_data_packet := false;
              ReceiveFile.transfer_complete := false;
              ReceiveFile.local_file := Some [] |} in
  let w := {| HandleWriteRequest.client_addr := src;
              HandleWriteRequest.expected_block_num := 1;
              HandleWriteRequest.transfer_complete := false;
              HandleWriteRequest.local_file := Some [] |} in
  (recv i = Datagram src [x00; x04; x00; x01]
   /\ get_opcode [x00; x04; x00; x01] <> TFTP_OPCODE_DATA
   /\ get_opcode [x00; x04; x00; x01] <> TFTP_OPCODE_ERROR
   /\ ReceiveFile.first_data_packet s = false
   /\ ReceiveFile.server_addr s = src)
  /\ ReceiveFile.step s i = (Await, s, [])
  /\ exists out,
       HandleWriteRequest.step w i
       = (Throw "Protocol error: Unexpected packet type.",
          HandleWriteRequest.remove (HandleWriteRequest.set_client w src),
          out)
       /\ Blocks.decoded out
          = [(src, Some (Error 4 (str "Unexpected packet type")))].
Proof.
  cbv zeta.
  assert (H1 : get_opcode [x00; x04; x00; x01] <> TFTP_OPCODE_DATA)
    by discriminate.
  assert (H2 : get_opcode [x00; x04; x00; x01] <> TFTP_OPCODE_ERROR)
    by discriminate.
  split; [repeat split; assumption|].
  match goal with
  | |- ReceiveFile.step _ ?i = _ /\ _ =>
      pose proof (stray_packet_in_reception
                    i {| s_addr := 10; sin_port := 2000 |}
                    [x00; x04; x00; x01] eq_refl H1 H2) as [Hc Hs]
  end.
  split; [apply Hc; reflexivity | apply Hs].
Defined.

End ReaderStrays.

Section RunRelation.
Import Net.
Context {S : Type}.
Variable step : S -> input -> control * S * list sent.
Variable R : S -> S -> Prop.
Hypothesis R_refl : forall s, R s s.
Hypothesis R_trans : forall a b c, R a b -> R b c -> R a c.
Hypothesis step_related : forall s i, R s (state_of (step s i)).

(** A reflexive and transitive relation that every iteration respects
    relates the first state of a run to its last. *)
Lemma run_related (ins : list input) :
  forall s, R s (state_of (run step s ins)).
Proof.
  induction ins as [|i rest IH]; intros s.
  - apply R_refl.
  - cbn [run]. pose proof (step_related s i) as Hstep.
    destruct (step s i) as [[c s1] out].
    destruct c; [|exact Hstep|exact Hstep].
    specialize (IH s1). destruct (run step s1 rest) as [[c2 s2] out2].
    cbn in *. eapply R_trans; eassumption.
Qed.

End RunRelation.

Section FileOnlyGrows.
Import Codec Net Blocks.

Lemma grown_refl (f : option (list byte)) : grown f f.
Proof.
  destruct f as [old|]; cbn; [|reflexivity].
  right. exists []. now rewrite app_nil_r.
Qed.

Lemma grown_trans (a b c : option (list byte)) :
  grown a b -> grown b c -> grown a c.
Proof.
  destruct a as [old|]; cbn.
  - intros [-> | [more ->]]; cbn.
    + intros ->. now left.
    + intros [-> | [more' ->]]; [now left|].
      right. exists (more ++ more'). now rewrite app_assoc.
  - intros ->. cbn. auto.
Qed.

Lemma grown_append (f : option (list byte)) (d : list byte) :
  grown f (option_map (fun old => old ++ d) f).
Proof.
  destruct f as [old|]; cbn; [|reflexivity]. right. now exists d.
Qed.

Lemma grown_removed (f : option (list byte)) : grown f None.
Proof. destruct f; cbn; auto. Qed.

Lemma receive_file_step_grows (s : ReceiveFile.state) (i : input) :
  grown (ReceiveFile.local_file s)
        (ReceiveFile.local_file (state_of (ReceiveFile.step s i))).
Proof.
  unfold ReceiveFile.step, ReceiveFile.handle_packet.
  split_step; cbn [state_of fst snd ReceiveFile.local_file
                   ReceiveFile.remove ReceiveFile.write
                   ReceiveFile.lock_tid ReceiveFile.set_complete
                   ReceiveFile.next_block];
    auto using grown_refl, grown_append, grown_removed.
Qed.

Lemma write_request_step_grows (s : HandleWriteRequest.state) (i : input) :
  grown (HandleWriteRequest.local_file s)
        (HandleWriteRequest.local_file
           (state_of (HandleWriteRequest.step s i))).
Proof.
  unfold HandleWriteRequest.step.
  split_step; cbn [state_of fst snd HandleWriteRequest.local_file
                   HandleWriteRequest.remove HandleWriteRequest.write
                   HandleWriteRequest.set_client
                   HandleWriteRequest.set_complete
                   HandleWriteRequest.next_block];
    auto using grown_refl, grown_append, grown_removed.
Qed.

(** X17. Whatever arrives during a reception, in whatever order, bytes
    already written are never overwritten, reordered or dropped one by
    one: after any run of the receive loop of [receive_file] or
    [handle_write_request] the output file is either removed or consists
    of its earlier contents followed by further bytes. *)
Theorem received_file_only_grows (old : list byte) (ins : list input) :
  (forall s : ReceiveFile.state,
      ReceiveFile.local_file s = Some old ->
      ReceiveFile.local_file (state_of (run ReceiveFile.step s ins)) = None
      \/ exists more,
           ReceiveFile.local_file (state_of (run ReceiveFile.step s ins))
           = Some (old ++ more))
  /\ (forall s : HandleWriteRequest.state,
         HandleWriteRequest.local_file s = Some old ->
         HandleWriteRequest.local_file
           (state_of (run HandleWriteRequest.step s ins)) = None
         \/ exists more,
              HandleWriteRequest.local_file
                (state_of (run HandleWriteRequest.step s ins))
              = Some (old ++ more)).
Proof.
  split; intros s Hold.
  - pose proof (run_related ReceiveFile.step
                  (fun a b => grown (ReceiveFile.local_file a)
                                    (ReceiveFile.local_file b))
                  (fun a => grown_refl _)
                  (fun a b c => grown_trans _ _ _)
                  receive_file_step_grows ins s) as H.
    cbv beta in H. rewrite Hold in H. exact H.
  - pose proof (run_related HandleWriteRequest.step
                  (fun a b => grown (HandleWriteRequest.local_file a)
                                    (HandleWriteRequest.local_file b))
                  (fun a => grown_refl _)
                  (fun a b c => grown_trans _ _ _)
                  write_request_step_grows ins s) as H.
    cbv beta in H. rewrite Hold in H. exact H.
Qed.

End FileOnlyGrows.

Section FileOnlyGrowsWitness.
Import Codec Net.

Lemma received_file_only_grows_witness :
  let s := {| ReceiveFile.expected_block_num := 2;
              ReceiveFile.server_addr := {| s_addr := 10; sin_port := 2000 |};
              ReceiveFile.first_data_packet := false;
              ReceiveFile.transfer_complete := false;
              ReceiveFile.local_file := Some (repeat x41 512) |} in
  let ins := [Peer.data_from {| s_addr := 10; sin_port := 2000 |} 1 [x21];
              Peer.data_from {| s_addr := 10; sin_port := 2000 |} 2 [x42]] in
  ReceiveFile.local_file s = Some (repeat x41 512)
  /\ (ReceiveFile.local_file (state_of (run ReceiveFile.step s ins)) = None
      \/ exists more,
           ReceiveFile.local_file (state_of (run ReceiveFile.step s ins))
           = Some (repeat x41 512 ++ more)).
Proof.
  cbv zeta. split; [reflexivity|].
  match goal with
  | |- context [run ReceiveFile.step ?s ?ins] =>
      exact (proj1 (received_file_only_grows (repeat x41 512) ins) s eq_refl)
  end.
Defined.

End FileOnlyGrowsWitness.

Section WholeFileReceived.
Import Codec Net Blocks.

Lemma full_count_bounds (file : list byte) :
  (MAX_DATA_SIZE * full_count file <= length file
   < MAX_DATA_SIZE * S (full_count file))%nat.
Proof.
  unfold full_count, MAX_DATA_SIZE. split.
  - apply Nat.Div0.mul_div_le.
  - apply Nat.mul_succ_div_gt. lia.
Qed.

Lemma chunk_lengths (file : list byte) (k : nat) :
  (MAX_DATA_SIZE * S k <= length file < MAX_DATA_SIZE * S (S k))%nat ->
  length (firstn MAX_DATA_SIZE file) = MAX_DATA_SIZE
  /\ (MAX_DATA_SIZE * k <= length (skipn MAX_DATA_SIZE file)
      < MAX_DATA_SIZE * S k)%nat.
Proof.
  intros H. rewrite length_firstn, length_skipn. lia.
Qed.

(** The in-order block in [handle_write_request]. *)
Lemma write_request_step_in_order (s : HandleWriteRequest.state)
    (src : sockaddr_in) (b : N) (d : list byte) :
  HandleWriteRequest.expected_block_num s = b -> b < 65536 ->
  (length d <= MAX_DATA_SIZE)%nat ->
  HandleWriteRequest.step s (Peer.data_from src b d)
  = let s1 := HandleWriteRequest.write
                (HandleWriteRequest.set_client s src) d in
    if (length d <? MAX_DATA_SIZE)%nat
    then (Return, HandleWriteRequest.set_complete s1,
          Peer.sent_to src [Ack b])
    else (Await, HandleWriteRequest.next_block s1, Peer.sent_to src [Ack b]).
Proof.
  intros Hexp Hb Hd. destruct (data_arrives b d Hb Hd) as [Hop Hparse].
  unfold HandleWriteRequest.step.
  cbn [Peer.data_from recv send_ok write_ok]. cbv zeta.
  rewrite Hop, N.eqb_refl, Hparse.
  cbn [HandleWriteRequest.expected_block_num HandleWriteRequest.set_client].
  rewrite Hexp, N.eqb_refl. cbn [negb]. reflexivity.
Qed.

(** The in-order block in [receive_file]. *)
Lemma receive_file_step_in_order (s : ReceiveFile.state)
    (src : sockaddr_in) (b : N) (d : list byte) :
  ReceiveFile.expected_block_num s = b -> b < 65536 ->
  (length d <= MAX_DATA_SIZE)%nat ->
  ReceiveFile.first_data_packet s = true
  \/ (ReceiveFile.first_data_packet s = false
      /\ ReceiveFile.server_addr s = src) ->
  ReceiveFile.step s (Peer.data_from src b d)
  = let s1 := ReceiveFile.write (ReceiveFile.lock_tid s src) d in
    if (length d <? MAX_DATA_SIZE)%nat
    then (Return, ReceiveFile.set_complete s1, Peer.sent_to src [Ack b])
    else (Await, ReceiveFile.next_block s1, Peer.sent_to src [Ack b]).
Proof.
  intros Hexp Hb Hd Htid. destruct (data_arrives b d Hb Hd) as [Hop Hparse].
  rewrite (receive_file_step_from_peer s _ src (Peer.wire (Data b d)))
    by (reflexivity || exact Htid).
  unfold ReceiveFile.handle_packet. rewrite Hop, N.eqb_refl, Hparse.
  cbn [ReceiveFile.expected_block_num ReceiveFile.lock_tid
       Peer.data_from send_ok write_ok].
  rewrite Hexp, N.eqb_refl. cbn [negb]. reflexivity.
Qed.

(** The server's receive loop fed the blocks of a file in order. *)
Lemma write_request_receives_blocks (k : nat) :
  forall (s : HandleWriteRequest.state) (file old : list byte)
         (src : sockaddr_in),
    HandleWriteRequest.expected_block_num s < 65536 ->
    HandleWriteRequest.local_file s = Some old ->
    (MAX_DATA_SIZE * k <= length file < MAX_DATA_SIZE * S k)%nat ->
    run HandleWriteRequest.step s
        (arriving src
           (blocks_of (HandleWriteRequest.expected_block_num s) file k))
    = (Return,
       {| HandleWriteRequest.client_addr := src;
          HandleWriteRequest.expected_block_num :=
            Peer.block_after k (HandleWriteRequest.expected_block_num s);
          HandleWriteRequest.transfer_complete := true;
          HandleWriteRequest.local_file := Some (old ++ file) |},
       Peer.sent_to src
         (ack_run (HandleWriteRequest.expected_block_num s) (S k))).
Proof.
  induction k as [|k IH]; intros s file old src Hb Hold Hlen.
  - cbn [blocks_of arriving map run].
    change {| recv := Datagram src (Peer.wire
                 (Data (HandleWriteRequest.expected_block_num s) file));
              send_ok := true; write_ok := true |}
      with (Peer.data_from src (HandleWriteRequest.expected_block_num s)
                           file).
    rewrite write_request_step_in_order
      by (reflexivity || exact Hb || (unfold MAX_DATA_SIZE in *; lia)).
    cbv zeta.
    assert (Hshort : (length file <? MAX_DATA_SIZE)%nat = true)
      by (apply Nat.ltb_lt; lia).
    rewrite Hshort. destruct s; cbn in *. subst. reflexivity.
  - destruct (chunk_lengths file k Hlen) as [Hfull Hrest].
    cbn [blocks_of arriving map run].
    change {| recv := Datagram src (Peer.wire
                 (Data (HandleWriteRequest.expected_block_num s)
                       (firstn MAX_DATA_SIZE file)));
              send_ok := true; write_ok := true |}
      with (Peer.data_from src (HandleWriteRequest.expected_block_num s)
                           (firstn MAX_DATA_SIZE file)).
    rewrite write_request_step_in_order
      by (reflexivity || exact Hb || (rewrite Hfull; lia)).
    cbv zeta. rewrite Hfull, Nat.ltb_irrefl.
    change (map (fun p => {| recv := Datagram src (Peer.wire p);
                             send_ok := true; write_ok := true |})
                (blocks_of (incr16 (HandleWriteRequest.expected_block_num s))
                           (skipn MAX_DATA_SIZE file) k))
      with (arriving src
              (blocks_of (incr16 (HandleWriteRequest.expected_block_num s))
                         (skipn MAX_DATA_SIZE file) k)).
    match goal with
    | |- context [run _ ?st _] => set (s1 := st)
    end.
    change (incr16 (HandleWriteRequest.expected_block_num s))
      with (HandleWriteRequest.expected_block_num s1).
    rewrite (IH s1 (skipn MAX_DATA_SIZE file)
                (old ++ firstn MAX_DATA_SIZE file) src).
    + cbn [prepend]. subst s1.
      cbn [HandleWriteRequest.expected_block_num
           HandleWriteRequest.next_block HandleWriteRequest.write
           HandleWriteRequest.set_client].
      rewrite <- block_after_succ, <- app_assoc, firstn_skipn.
      reflexivity.
    + subst s1. cbn. apply incr16_bound.
    + subst s1. cbn. now rewrite Hold.
    + exact Hrest.
Qed.

(** The client's receive loop fed the blocks of a file in order. *)
Lemma receive_file_receives_blocks (k : nat) :
  forall (s : ReceiveFile.state) (file old : list byte) (src : sockaddr_in),
    ReceiveFile.expected_block_num s < 65536 ->
    ReceiveFile.local_file s = Some old ->
    ReceiveFile.first_data_packet s = true
    \/ (ReceiveFile.first_data_packet s = false
        /\ ReceiveFile.server_addr s = src) ->
    (MAX_DATA_SIZE * k <= length file < MAX_DATA_SIZE * S k)%nat ->
    run ReceiveFile.step s
        (arriving src (blocks_of (ReceiveFile.expected_block_num s) file k))
    = (Return,
       {| ReceiveFile.expected_block_num :=
            Peer.block_after k (ReceiveFile.expected_block_num s);
          ReceiveFile.server_addr := src;
          ReceiveFile.first_data_packet := false;
          ReceiveFile.transfer_complete := true;
          ReceiveFile.local_file := Some (old ++ file) |},
       Peer.sent_to src (ack_run (ReceiveFile.expected_block_num s) (S k))).
Proof.
  induction k as [|k IH]; intros s file old src Hb Hold Htid Hlen.
  - cbn [blocks_of arriving map run].
    change {| recv := Datagram src (Peer.wire
                 (Data (ReceiveFile.expected_block_num s) file));
              send_ok := true; write_ok := true |}
      with (Peer.data_from src (ReceiveFile.expected_block_num s) file).
    rewrite (receive_file_step_in_order s src _ file eq_refl Hb)
      by (exact Htid || (unfold MAX_DATA_SIZE in *; lia)).
    cbv zeta.
    assert (Hshort : (length file <? MAX_DATA_SIZE)%nat = true)
      by (apply Nat.ltb_lt; lia).
    rewrite Hshort. destruct s; cbn in *. subst. reflexivity.
  - destruct (chunk_lengths file k Hlen) as [Hfull Hrest].
    cbn [blocks_of arriving map run].
    change {| recv := Datagram src (Peer.wire
                 (Data (ReceiveFile.expected_block_num s)
                       (firstn MAX_DATA_SIZE file)));
              send_ok := true; write_ok := true |}
      with (Peer.data_from src (ReceiveFile.expected_block_num s)
                           (firstn MAX_DATA_SIZE file)).
    rewrite (receive_file_step_in_order s src _ _ eq_refl Hb)
      by (exact Htid || (rewrite Hfull; lia)).
    cbv zeta. rewrite Hfull, Nat.ltb_irrefl.
    change (map (fun p => {| recv := Datagram src (Peer.wire p);
                             send_ok := true; write_ok := true |})
                (blocks_of (incr16 (ReceiveFile.expected_block_num s))
                           (skipn MAX_DATA_SIZE file) k))
      with (arriving src
              (blocks_of (incr16 (ReceiveFile.expected_block_num s))
                         (skipn MAX_DATA_SIZE file) k)).
    match goal with
    | |- context [run _ ?st _] => set (s1 := st)
    end.
    change (incr16 (ReceiveFile.expected_block_num s))
      with (ReceiveFile.expected_block_num s1).
    rewrite (IH s1 (skipn MAX_DATA_SIZE file)
                (old ++ firstn MAX_DATA_SIZE file) src).
    + cbn [prepend]. subst s1.
      cbn [ReceiveFile.expected_block_num ReceiveFile.next_block
           ReceiveFile.write ReceiveFile.lock_tid].
      rewrite <- block_after_succ, <- app_assoc, firstn_skipn.
      reflexivity.
    + subst s1. cbn. apply incr16_bound.
    + subst s1. cbn. now rewrite Hold.
    + right. subst s1. split; reflexivity.
    + exact Hrest.
Qed.

(** Both receiving functions on the blocks of a file. *)
Lemma file_received_from_blocks
    (file remote_filename : list byte)
    (server tid client : sockaddr_in) (on_disk : option (list byte)) :
  let k := full_count file in
  ReceiveFile.receive_file server remote_filename true true on_disk
    (arriving tid (blocks_of 1 file k))
  = (Return,
     {| ReceiveFile.expected_block_num := Peer.block_after k 1;
        ReceiveFile.server_addr := tid;
        ReceiveFile.first_data_packet := false;
        ReceiveFile.transfer_complete := true;
        ReceiveFile.local_file := Some file |},
     {| dst := server;
        pkt := create_rrq_packet remote_filename (str "octet") |}
     :: Peer.sent_to tid (ack_run 1 (S k)))
  /\ HandleWriteRequest.handle_write_request client true None true true
       (arriving client (blocks_of 1 file k))
     = (Return,
        {| HandleWriteRequest.client_addr := client;
           HandleWriteRequest.expected_block_num := Peer.block_after k 1;
           HandleWriteRequest.transfer_complete := true;
           HandleWriteRequest.local_file := Some file |},
        Peer.sent_to client (ack_run 0 (S (S k)))).
Proof.
  intros k. pose proof (full_count_bounds file) as Hlen. fold k in Hlen.
  split.
  - unfold ReceiveFile.receive_file, ReceiveFile.start.
    cbn [negb and_then].
    match goal with
    | |- context [run _ ?st _] =>
        pose proof (receive_file_receives_blocks k st file [] tid
                      ltac:(cbn; lia) eq_refl (or_introl eq_refl) Hlen)
          as Hrun
    end.
    cbn [ReceiveFile.expected_block_num] in Hrun. rewrite Hrun.
    reflexivity.
  - unfold HandleWriteRequest.handle_write_request, HandleWriteRequest.start.
    cbn [negb and_then].
    match goal with
    | |- context [run _ ?st _] =>
        pose proof (write_request_receives_blocks k st file [] client
                      ltac:(cbn; lia) eq_refl Hlen) as Hrun
    end.
    cbn [HandleWriteRequest.expected_block_num] in Hrun. rewrite Hrun.
    reflexivity.
Qed.

(** X18. Reception reassembles the file. Fed the blocks of any file in
    order -- its full 512-byte blocks and then the short (possibly empty)
    last block -- a GET and the server's WRQ handler each return
    normally, having written exactly the file's bytes to the output
    stream and having sent, after the client's request, one packet per
    block, which the sender of the blocks reads as the Acks of the
    blocks in order (the server's starting with Ack 0). On disk are the
    bytes that the flush of the final [close] wrote: the whole file when
    it wrote them all. *)
Theorem blocks_received_in_order_give_the_file
    (file remote_filename : list byte)
    (server tid client : sockaddr_in) (on_disk : option (list byte))
    (reached : nat) :
  let k := full_count file in
  let g := ReceiveFile.receive_file server remote_filename true true on_disk
             (arriving tid (blocks_of 1 file k)) in
  let w := HandleWriteRequest.handle_write_request client true None true true
             (arriving client (blocks_of 1 file k)) in
  (control_of g = Return
   /\ ReceiveFile.local_file (state_of g) = Some file
   /\ (exists acks,
          sent_of g
          = {| dst := server;
               pkt := create_rrq_packet remote_filename (str "octet") |}
            :: acks
          /\ decoded acks = addressed tid (ack_run 1 (S k)))
   /\ ReceiveFile.disk_after g reached = Some (firstn reached file)
   /\ ((length file <= reached)%nat ->
       ReceiveFile.disk_after g reached = Some file))
  /\ (control_of w = Return
      /\ HandleWriteRequest.local_file (state_of w) = Some file
      /\ decoded (sent_of w) = addressed client (ack_run 0 (S (S k)))
      /\ HandleWriteRequest.disk_after w reached = Some (firstn reached file)
      /\ ((length file <= reached)%nat ->
          HandleWriteRequest.disk_after w reached = Some file)).
Proof.
  intros k g w.
  destruct (file_received_from_blocks file remote_filename server tid client
              on_disk) as [Hg Hw].
  fold k in Hg, Hw. fold g in Hg. fold w in Hw. split.
  - rewrite Hg. split; [reflexivity|]. split; [reflexivity|]. split.
    + eexists. split; [reflexivity|].
      apply decoded_sent_to, ack_run_valid. lia.
    + split; [reflexivity|]. intros Hr.
      unfold ReceiveFile.disk_after. cbn.
      now rewrite firstn_all2.
  - rewrite Hw. split; [reflexivity|]. split; [reflexivity|]. split.
    + apply decoded_sent_to, ack_run_valid. lia.
    + split; [reflexivity|]. intros Hr.
      unfold HandleWriteRequest.disk_after. cbn.
      now rewrite firstn_all2.
Qed.

End WholeFileReceived.

(** * The sending loops *)

Section WholeFileSent.
Import Codec Net Blocks.

Lemma arriving_acks (peer : sockaddr_in) (n : nat) :
  forall b, arriving peer (ack_run b n) = Peer.acks_from peer b n.
Proof.
  induction n as [|n IH]; intros b; [reflexivity|].
  cbn [ack_run arriving map Peer.acks_from]. f_equal. apply IH.
Qed.

(** The client's write loop on any file, fed the matching
    acknowledgements. *)
Lemma send_file_loop_sends_blocks (k : nat) :
  forall (s : SendFile.state) (i : input),
    send_ok i = true ->
    SendFile.last_data_sent s = false ->
    SendFile.current_block_num s < 65536 ->
    (MAX_DATA_SIZE * k <= length (SendFile.input_file s)
     < MAX_DATA_SIZE * S k)%nat ->
    exists s',
      and_then SendFile.step (SendFile.loop s i)
        (Peer.acks_from (SendFile.server_addr s)
                        (SendFile.current_block_num s) (S k))
      = (Return, s',
         Peer.sent_to (SendFile.server_addr s)
           (blocks_of (SendFile.current_block_num s)
                      (SendFile.input_file s) k)).
Proof.
  induction k as [|k IH]; intros s i Hsend Hlast Hb Hlen.
  - unfold SendFile.loop at 1. rewrite Hlast.
    rewrite (send_file_send_next s i Hsend). cbv zeta.
    assert (Hall : firstn MAX_DATA_SIZE (SendFile.input_file s)
                   = SendFile.input_file s)
      by (apply firstn_all2; lia).
    rewrite Hall.
    assert (Hshort : (length (SendFile.input_file s) <? MAX_DATA_SIZE)%nat
                     = true) by (apply Nat.ltb_lt; lia).
    rewrite Hshort.
    cbn [and_then Peer.acks_from]. rewrite run_cons.
    rewrite (send_file_step_on_ack _ (SendFile.server_addr s)
               (SendFile.current_block_num s))
      by (reflexivity || exact Hb).
    unfold SendFile.loop.
    cbn [SendFile.set_block SendFile.last_data_sent and_then prepend
         blocks_of run].
    eexists. rewrite ?app_nil_r. reflexivity.
  - destruct (chunk_lengths _ k Hlen) as [Hfull Hrest].
    unfold SendFile.loop at 1. rewrite Hlast.
    rewrite (send_file_send_next s i Hsend). cbv zeta.
    rewrite Hfull, Nat.ltb_irrefl, Hlast.
    cbn [and_then]. change (Peer.acks_from ?p ?b (S (S k)))
      with (Peer.ack_from p b :: Peer.acks_from p (incr16 b) (S k)).
    rewrite run_cons.
    rewrite (send_file_step_on_ack _ (SendFile.server_addr s)
               (SendFile.current_block_num s))
      by (reflexivity || exact Hb).
    match goal with
    | |- context [and_then _ (SendFile.loop ?st _) _] => set (s2 := st)
    end.
    destruct (IH s2 (Peer.ack_from (SendFile.server_addr s)
                                   (SendFile.current_block_num s))
                 eq_refl eq_refl
                 (incr16_bound (SendFile.current_block_num s)) Hrest)
      as [s' Hrun].
    change (SendFile.server_addr s2) with (SendFile.server_addr s) in Hrun.
    change (SendFile.current_block_num s2)
      with (incr16 (SendFile.current_block_num s)) in Hrun.
    change (SendFile.input_file s2)
      with (skipn MAX_DATA_SIZE (SendFile.input_file s)) in Hrun.
    rewrite Hrun. exists s'. reflexivity.
Qed.

(** The server's [do] loop on any file, fed the matching
    acknowledgements. *)
Lemma read_request_loop_sends_blocks (k : nat) :
  forall (s : HandleReadRequest.state) (i : input),
    send_ok i = true ->
    HandleReadRequest.block_num s < 65536 ->
    (MAX_DATA_SIZE * k <= length (HandleReadRequest.input_file s)
     < MAX_DATA_SIZE * S k)%nat ->
    exists s',
      and_then HandleReadRequest.step (HandleReadRequest.send_next s i)
        (Peer.acks_from (HandleReadRequest.client_addr s)
                        (HandleReadRequest.block_num s) (S k))
      = (Return, s',
         Peer.sent_to (HandleReadRequest.client_addr s)
           (blocks_of (HandleReadRequest.block_num s)
                      (HandleReadRequest.input_file s) k)).
Proof.
  induction k as [|k IH]; intros s i Hsend Hb Hlen.
  - rewrite (read_request_send_next s i Hsend). cbv zeta.
    assert (Hall : firstn MAX_DATA_SIZE (HandleReadRequest.input_file s)
                   = HandleReadRequest.input_file s)
      by (apply firstn_all2; lia).
    rewrite Hall.
    cbn [and_then Peer.acks_from]. rewrite run_cons.
    rewrite (read_request_step_on_ack _ _ (HandleReadRequest.block_num s))
      by (reflexivity || exact Hb).
    unfold HandleReadRequest.after_retry_loop.
    cbn [HandleReadRequest.set_acked HandleReadRequest.set_client
         HandleReadRequest.last_ack_received HandleReadRequest.bytes_read
         negb].
    assert (Hne : (length (HandleReadRequest.input_file s)
                   =? MAX_DATA_SIZE)%nat = false)
      by (apply Nat.eqb_neq; lia).
    rewrite Hne. cbn [and_then prepend blocks_of run].
    eexists. rewrite ?app_nil_r. reflexivity.
  - destruct (chunk_lengths _ k Hlen) as [Hfull Hrest].
    rewrite (read_request_send_next s i Hsend). cbv zeta.
    rewrite Hfull.
    cbn [and_then]. change (Peer.acks_from ?p ?b (S (S k)))
      with (Peer.ack_from p b :: Peer.acks_from p (incr16 b) (S k)).
    rewrite run_cons.
    rewrite (read_request_step_on_ack _ _ (HandleReadRequest.block_num s))
      by (reflexivity || exact Hb).
    unfold HandleReadRequest.after_retry_loop.
    cbn [HandleReadRequest.set_acked HandleReadRequest.set_client
         HandleReadRequest.last_ack_received HandleReadRequest.bytes_read
         negb].
    rewrite Nat.eqb_refl.
    match goal with
    | |- context [and_then _ (HandleReadRequest.send_next ?st _) _] =>
        set (s2 := st)
    end.
    destruct (IH s2 (Peer.ack_from (HandleReadRequest.client_addr s)
                                   (HandleReadRequest.block_num s))
                 eq_refl (incr16_bound (HandleReadRequest.block_num s)) Hrest)
      as [s' Hrun].
    change (HandleReadRequest.client_addr s2)
      with (HandleReadRequest.client_addr s) in Hrun.
    change (HandleReadRequest.block_num s2)
      with (incr16 (HandleReadRequest.block_num s)) in Hrun.
    change (HandleReadRequest.input_file s2)
      with (skipn MAX_DATA_SIZE (HandleReadRequest.input_file s)) in Hrun.
    rewrite Hrun. exists s'. reflexivity.
Qed.

(** Both sending functions on a file that is acknowledged block by block. *)
Lemma file_sent_in_blocks
    (file remote_filename : list byte)
    (server tid client : sockaddr_in) (i0 : input) :
  send_ok i0 = true ->
  let k := full_count file in
  (exists s',
      SendFile.send_file server remote_filename file true
        (arriving tid (ack_run 0 (S (S k))))
      = (Return, s',
         {| dst := server;
            pkt := create_wrq_packet remote_filename (str "octet") |}
         :: Peer.sent_to tid (blocks_of 1 file k)))
  /\ (exists s',
         HandleReadRequest.handle_read_request client (Some file) i0
           (arriving client (ack_run 1 (S k)))
         = (Return, s', Peer.sent_to client (blocks_of 1 file k))).
Proof.
  intros Hsend k. pose proof (full_count_bounds file) as Hlen.
  fold k in Hlen. rewrite !arriving_acks. split.
  - unfold SendFile.send_file, SendFile.start. cbn [negb and_then].
    change (Peer.acks_from tid 0 (S (S k)))
      with (Peer.ack_from tid 0 :: Peer.acks_from tid 1 (S k)).
    rewrite run_cons. unfold SendFile.step at 2.
    cbn [SendFile.waiting Peer.ack_from recv].
    unfold SendFile.handle_ack0. rewrite recvfrom_ack.
    change (get_opcode (create_ack_packet 0)) with TFTP_OPCODE_ACK.
    rewrite N.eqb_refl, (parse_ack_created 0) by lia.
    rewrite N.eqb_refl.
    match goal with
    | |- context [and_then _ (SendFile.loop ?st ?i) _] =>
        destruct (send_file_loop_sends_blocks k st i eq_refl eq_refl
                    ltac:(cbn; lia) Hlen) as [s' Hrun]
    end.
    cbn [SendFile.lock_tid SendFile.server_addr SendFile.current_block_num
         SendFile.input_file] in Hrun.
    exists s'. rewrite Hrun. reflexivity.
  - unfold HandleReadRequest.handle_read_request, HandleReadRequest.start.
    match goal with
    | |- context [and_then _ (HandleReadRequest.send_next ?st _) _] =>
        destruct (read_request_loop_sends_blocks k st i0 Hsend
                    ltac:(cbn; lia) Hlen) as [s' Hrun]
    end.
    cbn [HandleReadRequest.client_addr HandleReadRequest.block_num
         HandleReadRequest.input_file] in Hrun.
    exists s'. exact Hrun.
Qed.

(** X19. Sending cuts any file into its blocks. When every block is
    acknowledged once, in order, a PUT and the server's RRQ handler each
    return normally, and what they have sent (the client after its
    request) the receiver reads as the file: its full 512-byte blocks as
    Data packets numbered from 1, followed by one Data packet with the
    short (possibly empty) rest. Nothing else is sent. *)
Theorem acknowledged_file_is_sent_in_blocks
    (file remote_filename : list byte)
    (server tid client : sockaddr_in) (i0 : input) :
  send_ok i0 = true ->
  let k := full_count file in
  (exists s' datagrams,
      SendFile.send_file server remote_filename file true
        (arriving tid (ack_run 0 (S (S k))))
      = (Return, s',
         {| dst := server;
            pkt := create_wrq_packet remote_filename (str "octet") |}
         :: datagrams)
      /\ datagrams = Peer.sent_to tid (blocks_of 1 file k)
      /\ decoded datagrams = addressed tid (blocks_of 1 file k))
  /\ (exists s' datagrams,
         HandleReadRequest.handle_read_request client (Some file) i0
           (arriving client (ack_run 1 (S k)))
         = (Return, s', datagrams)
         /\ datagrams = Peer.sent_to client (blocks_of 1 file k)
         /\ decoded datagrams = addressed client (blocks_of 1 file k)).
Proof.
  intros Hsend k.
  destruct (file_sent_in_blocks file remote_filename server tid client i0
              Hsend) as [[s1 H1] [s2 H2]].
  fold k in H1, H2.
  assert (Hvalid : Forall valid_packet (blocks_of 1 file k)).
  { apply blocks_of_valid; [lia|].
    pose proof (full_count_bounds file) as Hlen. fold k in Hlen. lia. }
  split.
  - exists s1. eexists. split; [exact H1|]. split; [reflexivity|].
    now apply decoded_sent_to.
  - exists s2. eexists. split; [exact H2|]. split; [reflexivity|].
    now apply decoded_sent_to.
Qed.

End WholeFileSent.

(** * Two sides of one transfer *)

Section EndToEnd.
Import Codec Net Blocks RunServer.

Lemma delivered_sent_to (from to : sockaddr_in) (ps : list Packet) :
  delivered from (Peer.sent_to to ps) = arriving from ps.
Proof.
  unfold delivered, Peer.sent_to, arriving. rewrite map_map. reflexivity.
Qed.

Lemma acknowledged_file_is_sent_in_blocks_witness :
  let file := repeat x41 512 ++ [x42] in
  let server := {| s_addr := 10; sin_port := 69 |} in
  let tid := {| s_addr := 10; sin_port := 2000 |} in
  let client := {| s_addr := 20; sin_port := 4000 |} in
  send_ok Peer.timeout = true
  /\ (exists s' datagrams,
         SendFile.send_file server (str "f") file true
           (arriving tid (ack_run 0 (S (S (full_count file)))))
         = (Return, s',
            {| dst := server;
               pkt := create_wrq_packet (str "f") (str "octet") |}
            :: datagrams)
         /\ datagrams = Peer.sent_to tid (blocks_of 1 file (full_count file))
         /\ decoded datagrams
            = addressed tid (blocks_of 1 file (full_count file)))
  /\ (exists s' datagrams,
         HandleReadRequest.handle_read_request client (Some file)
           Peer.timeout (arriving client (ack_run 1 (S (full_count file))))
         = (Return, s', datagrams)
         /\ datagrams
            = Peer.sent_to client (blocks_of 1 file (full_count file))
         /\ decoded datagrams
            = addressed client (blocks_of 1 file (full_count file))).
Proof.
  cbv zeta.
  assert (H : send_ok Peer.timeout = true) by reflexivity.
  split; [exact H|].
  exact (acknowledged_file_is_sent_in_blocks
           (repeat x41 512 ++ [x42]) (str "f")
           {| s_addr := 10; sin_port := 69 |}
           {| s_addr := 10; sin_port := 2000 |}
           {| s_addr := 20; sin_port := 4000 |} Peer.timeout H).
Defined.

(** X20. Sender and receiver fit together. For every file there is an
    exchange in which each side receives exactly what the other side
    sends: in a PUT the client's Data packets drive the server's WRQ
    handler and the handler's Acks drive the client; in a GET likewise
    with the roles swapped. Both sides return normally and the receiving
    side has written exactly the file's bytes to its output stream; they
    are the file on disk when the flush of the final [close] writes them
    all. *)
Theorem lock_step_transfer_delivers_file
    (file remote_filename : list byte)
    (server tid client : sockaddr_in) (i0 : input)
    (on_disk : option (list byte)) (reached : nat) :
  send_ok i0 = true ->
  (exists acks datas s1 s2,
      SendFile.send_file server remote_filename file true
        (delivered tid acks)
      = (Return, s1,
         {| dst := server;
            pkt := create_wrq_packet remote_filename (str "octet") |}
         :: datas)
      /\ HandleWriteRequest.handle_write_request client true None true true
           (delivered client datas)
         = (Return, s2, acks)
      /\ HandleWriteRequest.local_file s2 = Some file
      /\ ((length file <= reached)%nat ->
          HandleWriteRequest.disk_after (Return, s2, acks) reached
          = Some file))
  /\ (exists acks datas s1 s2,
         HandleReadRequest.handle_read_request client (Some file) i0
           (delivered client acks)
         = (Return, s1, datas)
         /\ ReceiveFile.receive_file server remote_filename true true on_disk
              (delivered tid datas)
            = (Return, s2,
               {| dst := server;
                  pkt := create_rrq_packet remote_filename (str "octet") |}
               :: acks)
         /\ ReceiveFile.local_file s2 = Some file
         /\ ((length file <= reached)%nat ->
             ReceiveFile.disk_after
               (Return, s2,
                {| dst := server;
                   pkt := create_rrq_packet remote_filename (str "octet") |}
                :: acks) reached
             = Some file)).
Proof.
  intros Hsend.
  destruct (file_sent_in_blocks file remote_filename
              server tid client i0 Hsend) as [[p1 Hput] [g1 Hget]].
  destruct (file_received_from_blocks file remote_filename
              server tid client on_disk) as [Hrecv Hstore].
  cbv zeta in Hput, Hget, Hrecv, Hstore.
  split.
  - exists (Peer.sent_to client (ack_run 0 (S (S (full_count file))))),
           (Peer.sent_to tid (blocks_of 1 file (full_count file))).
    eexists p1, _. rewrite !delivered_sent_to.
    split; [exact Hput|]. split; [exact Hstore|]. split; [reflexivity|].
    intros Hr. unfold HandleWriteRequest.disk_after. cbn.
    now rewrite firstn_all2.
  - exists (Peer.sent_to tid (ack_run 1 (S (full_count file)))),
           (Peer.sent_to client (blocks_of 1 file (full_count file))).
    eexists g1, _. rewrite !delivered_sent_to.
    split; [exact Hget|]. split; [exact Hrecv|]. split; [reflexivity|].
    intros Hr. unfold ReceiveFile.disk_after. cbn.
    now rewrite firstn_all2.
Qed.

End EndToEnd.

(** * What the sending sides put on the wire *)

Section RunSent.
Import Net.
Context {S : Type}.
Variable step : S -> input -> control * S * list sent.
Variable Inv : S -> Prop.
Variable P : sent -> Prop.
Hypothesis step_sent :
  forall s i, Inv s ->
              Inv (state_of (step s i)) /\ Forall P (sent_of (step s i)).

(** If every iteration started in a good state sends only good packets
    and ends in a good state, a run sends only good packets. *)
Lemma run_sent (ins : list input) :
  forall s, Inv s -> Forall P (sent_of (run step s ins)).
Proof.
  induction ins as [|i rest IH]; intros s Hs.
  - constructor.
  - cbn [run]. destruct (step_sent s i Hs) as [Hinv Hout].
    destruct (step s i) as [[c s1] out]. cbn in Hinv, Hout.
    destruct c; [|exact Hout|exact Hout].
    specialize (IH s1 Hinv). destruct (run step s1 rest) as [[c2 s2] out2].
    cbn in IH |- *. apply Forall_app. now split.
Qed.

Lemma and_then_sent (r : control * S * list sent) (ins : list input) :
  Inv (state_of r) -> Forall P (sent_of r) ->
  Forall P (sent_of (and_then step r ins)).
Proof.
  destruct r as [[c s] out]. cbn. intros Hs Hout.
  destruct c; [|exact Hout|exact Hout].
  pose proof (run_sent ins s Hs) as Hrun.
  destruct (run step s ins) as [[c2 s2] out2]. cbn in Hrun |- *.
  apply Forall_app. now split.
Qed.

End RunSent.

Section OnlyData.
Import Codec Net Blocks.

Lemma created_data_opcode (b : N) (d p : list byte) :
  create_data_packet b d = Some p -> get_opcode p = TFTP_OPCODE_DATA.
Proof.
  unfold create_data_packet.
  destruct (MAX_DATA_SIZE <? length d)%nat; [discriminate|].
  intros H. assert (Hp : p = put_u16 TFTP_OPCODE_DATA ++ put_u16 b ++ d)
    by congruence.
  rewrite Hp. reflexivity.
Qed.

Lemma send_file_send_next_data (s : SendFile.state) (i : input) :
  client_ready s ->
  client_ready (state_of (SendFile.send_next s i))
  /\ Forall is_data (sent_of (SendFile.send_next s i)).
Proof.
  intros Hs. unfold SendFile.send_next, read_chunk.
  destruct (create_data_packet (SendFile.current_block_num s)
              (firstn MAX_DATA_SIZE (SendFile.input_file s)))
    as [packet|] eqn:E.
  - apply created_data_opcode in E.
    destruct (negb (send_ok i));
      [|destruct (length (firstn MAX_DATA_SIZE (SendFile.input_file s))
                  <? MAX_DATA_SIZE)%nat];
      (split; [right; exact E | repeat constructor; exact E]).
  - split; [exact Hs | constructor].
Qed.

Lemma send_file_loop_data (s : SendFile.state) (i : input) :
  client_ready s ->
  client_ready (state_of (SendFile.loop s i))
  /\ Forall is_data (sent_of (SendFile.loop s i)).
Proof.
  intros Hs. unfold SendFile.loop. destruct (SendFile.last_data_sent s).
  - split; [exact Hs | constructor].
  - now apply send_file_send_next_data.
Qed.

Lemma send_file_step_data (s : SendFile.state) (i : input) :
  client_ready s ->
  client_ready (state_of (SendFile.step s i))
  /\ Forall is_data (sent_of (SendFile.step s i)).
Proof.
  intros Hs. unfold SendFile.step. destruct (SendFile.waiting s) eqn:Ew.
  - destruct (recv i) as [| |src payload];
      try (split; [exact Hs | constructor]).
    unfold SendFile.handle_ack0.
    assert (Hl : client_ready (SendFile.lock_tid s src))
      by (left; exact Ew).
    destruct (get_opcode (recvfrom_buffer payload) =? TFTP_OPCODE_ACK).
    + destruct (parse_ack_packet (recvfrom_buffer payload)) as [a|].
      * destruct (a =? 0); [now apply send_file_loop_data|].
        split; [exact Hl | constructor].
      * split; [exact Hl | constructor].
    + destruct (get_opcode (recvfrom_buffer payload) =? TFTP_OPCODE_ERROR);
        (split; [exact Hl | constructor]).
  - destruct Hs as [Hs | Hs]; [congruence|].
    destruct (recv i) as [| |src payload].
    + destruct (negb (send_ok i));
        (split; [right; exact Hs | repeat constructor; exact Hs]).
    + split; [right; exact Hs | constructor].
    + unfold SendFile.handle_reply.
      split_step;
        try (apply send_file_loop_data; right; exact Hs);
        (split; [right; exact Hs | constructor]).
  - destruct Hs as [Hs | Hs]; [congruence|].
    destruct (recv i) as [| |src payload];
      try (split; [right; exact Hs | constructor]).
    unfold SendFile.handle_reply.
    split_step;
      try (apply send_file_loop_data; right; exact Hs);
      (split; [right; exact Hs | constructor]).
Qed.

End OnlyData.

Section OnlyDataServer.
Import Codec Net Blocks.

Lemma read_request_send_next_data (s : HandleReadRequest.state) (i : input) :
  get_opcode (HandleReadRequest.data_packet s) = TFTP_OPCODE_DATA
  \/ HandleReadRequest.data_packet s = [] ->
  get_opcode (HandleReadRequest.data_packet
                (state_of (HandleReadRequest.send_next s i)))
  = TFTP_OPCODE_DATA
  /\ Forall is_data (sent_of (HandleReadRequest.send_next s i))
  \/ HandleReadRequest.send_next s i
     = (Throw "Data size exceeds maximum allowed", s, []).
Proof.
  intros _. unfold HandleReadRequest.send_next, read_chunk.
  destruct (create_data_packet (HandleReadRequest.block_num s)
              (firstn MAX_DATA_SIZE (HandleReadRequest.input_file s)))
    as [packet|] eqn:E; [left | right; reflexivity].
  apply created_data_opcode in E.
  destruct (negb (send_ok i)); (split; [exact E | repeat constructor; exact E]).
Qed.

Lemma read_request_after_loop_data (s : HandleReadRequest.state) (i : input) :
  get_opcode (HandleReadRequest.data_packet s) = TFTP_OPCODE_DATA ->
  get_opcode (HandleReadRequest.data_packet
                (state_of (HandleReadRequest.after_retry_loop s i)))
  = TFTP_OPCODE_DATA
  /\ Forall is_data (sent_of (HandleReadRequest.after_retry_loop s i)).
Proof.
  intros Hs. unfold HandleReadRequest.after_retry_loop.
  destruct (negb (HandleReadRequest.last_ack_received s));
    [split; [exact Hs | constructor]|].
  destruct (HandleReadRequest.bytes_read s =? MAX_DATA_SIZE)%nat;
    [|split; [exact Hs | constructor]].
  match goal with
  | |- context [HandleReadRequest.send_next ?st i] =>
      destruct (read_request_send_next_data st i (or_introl Hs))
        as [H | H]; [exact H | rewrite H; split; [exact Hs | constructor]]
  end.
Qed.

Lemma read_request_retry_loop_data (s : HandleReadRequest.state) (i : input) :
  get_opcode (HandleReadRequest.data_packet s) = TFTP_OPCODE_DATA ->
  get_opcode (HandleReadRequest.data_packet
                (state_of (HandleReadRequest.retry_loop s i)))
  = TFTP_OPCODE_DATA
  /\ Forall is_data (sent_of (HandleReadRequest.retry_loop s i)).
Proof.
  intros Hs. unfold HandleReadRequest.retry_loop.
  destruct (HandleReadRequest.retry_count s
            <? HandleReadRequest.MAX_RETRIES)%nat.
  - split; [exact Hs | constructor].
  - now apply read_request_after_loop_data.
Qed.

Lemma read_request_step_data (s : HandleReadRequest.state) (i : input) :
  get_opcode (HandleReadRequest.data_packet s) = TFTP_OPCODE_DATA ->
  get_opcode (HandleReadRequest.data_packet
                (state_of (HandleReadRequest.step s i)))
  = TFTP_OPCODE_DATA
  /\ Forall is_data (sent_of (HandleReadRequest.step s i)).
Proof.
  intros Hs. unfold HandleReadRequest.step.
  destruct (recv i) as [| |src payload].
  - destruct (negb (send_ok i));
      [split; [exact Hs | repeat constructor; exact Hs]|].
    match goal with
    | |- context [HandleReadRequest.retry_loop ?st i] =>
        destruct (read_request_retry_loop_data st i Hs) as [H1 H2];
        destruct (HandleReadRequest.retry_loop st i) as [[c s'] out]
    end.
    cbn in H1, H2 |- *. split; [exact H1|].
    constructor; [exact Hs | exact H2].
  - split; [exact Hs | constructor].
  - cbv zeta.
    split_step;
      try (apply read_request_retry_loop_data; exact Hs);
      try (apply read_request_after_loop_data; exact Hs);
      (split; [exact Hs | constructor]).
Qed.

(** X21. The sending sides put nothing but Data packets on the wire.
    Whatever arrives -- wrong block numbers, foreign senders, Error
    packets, timeouts -- every packet a PUT sends after its request is a
    Data packet, and every packet the server sends while serving an
    existing file is a Data packet: a sender that gives up does so
    without telling the peer. *)
Theorem senders_send_only_data
    (server client : sockaddr_in) (remote_filename file : list byte)
    (sendto_ok : bool) (i0 : input) (ins : list input) :
  (exists rest,
      sent_of (SendFile.send_file server remote_filename file sendto_ok ins)
      = {| dst := server;
           pkt := create_wrq_packet remote_filename (str "octet") |} :: rest
      /\ Forall is_data rest)
  /\ Forall is_data
       (sent_of (HandleReadRequest.handle_read_request
                   client (Some file) i0 ins)).
Proof.
  split.
  - unfold SendFile.send_file, SendFile.start.
    destruct (negb sendto_ok).
    + eexists. split; [reflexivity | constructor].
    + cbn [and_then].
      match goal with
      | |- context [run SendFile.step ?st ins] =>
          pose proof (run_sent SendFile.step client_ready is_data
                        send_file_step_data ins st (or_introl eq_refl))
            as Hrun;
          destruct (run SendFile.step st ins) as [[c s'] out]
      end.
      cbn in Hrun |- *. eexists. split; [reflexivity | exact Hrun].
  - unfold HandleReadRequest.handle_read_request, HandleReadRequest.start.
    match goal with
    | |- context [HandleReadRequest.send_next ?st i0] =>
        destruct (read_request_send_next_data st i0 (or_intror eq_refl))
          as [[H1 H2] | H]
    end.
    + apply (and_then_sent HandleReadRequest.step
               (fun s => get_opcode (HandleReadRequest.data_packet s)
                         = TFTP_OPCODE_DATA)
               is_data read_request_step_data); assumption.
    + rewrite H. constructor.
Qed.

End OnlyDataServer.

Section SenderStrays.
Import Codec Net Blocks.

(** X22. A datagram that is neither an Error nor a well-formed Ack (a
    Data packet, a request, an Ack of the wrong size, fewer than two
    bytes) is treated differently by the two sending sides: the server's
    RRQ handler ignores it without counting a retry and waits again,
    while the client's PUT throws; neither sends anything. *)
Theorem stray_packet_in_sending
    (i : input) (src : sockaddr_in) (payload : list byte) :
  recv i = Datagram src payload ->
  get_opcode payload <> TFTP_OPCODE_ERROR ->
  parse_ack_packet (recvfrom_buffer payload) = None ->
  (forall s : HandleReadRequest.state,
      (HandleReadRequest.retry_count s < HandleReadRequest.MAX_RETRIES)%nat ->
      HandleReadRequest.step s i
      = (Await, HandleReadRequest.set_client s src, []))
  /\ (forall s : SendFile.state,
         SendFile.waiting s <> SendFile.WaitAck0 ->
         SendFile.server_addr s = src ->
         exists what, SendFile.step s i = (Throw what, s, [])).
Proof.
  intros Hrecv He Hack. apply N.eqb_neq in He. split.
  - intros s Hretry. unfold HandleReadRequest.step. rewrite Hrecv. cbv zeta.
    rewrite Hack, get_opcode_recvfrom, He.
    unfold HandleReadRequest.retry_loop.
    cbn [HandleReadRequest.retry_count HandleReadRequest.set_client].
    apply Nat.ltb_lt in Hretry. rewrite Hretry.
    destruct (get_opcode payload =? TFTP_OPCODE_ACK); reflexivity.
  - intros s Hw Haddr. unfold SendFile.step.
    assert (Hreply : exists what,
               SendFile.handle_reply s i src (recvfrom_buffer payload)
               = (Throw what, s, [])).
    { unfold SendFile.handle_reply.
      rewrite Haddr, same_endpoint_refl, Hack, get_opcode_recvfrom, He.
      cbn [negb].
      destruct (get_opcode payload =? TFTP_OPCODE_ACK); eexists; reflexivity. }
    destruct (SendFile.waiting s); [contradiction| |];
      rewrite Hrecv; exact Hreply.
Qed.

Lemma stray_packet_in_sending_witness :
  let src := {| s_addr := 10; sin_port := 2000 |} in
  let i := Peer.data_from src 1 [x21] in
  let s := {| HandleReadRequest.client_addr := src;
              HandleReadRequest.input_file := [];
              HandleReadRequest.block_num := 1;
              HandleReadRequest.bytes_read := 1;
              HandleReadRequest.data_packet := [x00; x03; x00; x01; x41];
              HandleReadRequest.retry_count := 2;
              HandleReadRequest.last_ack_received := false |} in
  (recv i = Datagram src (Peer.wire (Data 1 [x21]))
   /\ get_opcode (Peer.wire (Data 1 [x21])) <> TFTP_OPCODE_ERROR
   /\ parse_ack_packet (recvfrom_buffer (Peer.wire (Data 1 [x21]))) = None
   /\ (HandleReadRequest.retry_count s < HandleReadRequest.MAX_RETRIES)%nat)
  /\ HandleReadRequest.step s i
     = (Await, HandleReadRequest.set_client s src, []).
Proof.
  cbv zeta.
  assert (H1 : get_opcode (Peer.wire (Data 1 [x21])) <> TFTP_OPCODE_ERROR)
    by discriminate.
  assert (H2 : parse_ack_packet (recvfrom_buffer (Peer.wire (Data 1 [x21])))
               = None) by reflexivity.
  assert (H3 : (2 < HandleReadRequest.MAX_RETRIES)%nat)
    by (unfold HandleReadRequest.MAX_RETRIES; lia).
  split; [repeat split; assumption|].
  match goal with
  | |- HandleReadRequest.step ?s ?i = _ =>
      exact (proj1 (stray_packet_in_sending
                      i {| s_addr := 10; sin_port := 2000 |}
                      (Peer.wire (Data 1 [x21])) eq_refl H1 H2) s H3)
  end.
Defined.

(** The fifth timeout on a block, whatever the flag. *)
Lemma read_request_step_at_cap (s : HandleReadRequest.state) :
  HandleReadRequest.retry_count s = 4%nat ->
  HandleReadRequest.step s Peer.timeout
  = prepend [HandleReadRequest.to_client s (HandleReadRequest.data_packet s)]
      (HandleReadRequest.after_retry_loop (HandleReadRequest.set_retry s 5)
                                          Peer.timeout).
Proof.
  intros Hr. unfold HandleReadRequest.step.
  cbn [recv send_ok Peer.timeout negb].
  unfold HandleReadRequest.retry_loop.
  cbn [HandleReadRequest.retry_count HandleReadRequest.set_retry].
  rewrite Hr. reflexivity.
Qed.

(** X23. The retry cap of the RRQ handler only ends the transfer while
    no block has been acknowledged. Once any Ack has been accepted, five
    timeouts in a row on a later block make the handler resend that block
    five times and then go on as if it had been acknowledged: after a
    short block it returns normally, after a full block it sends the
    next one. *)
Theorem read_request_cap_after_first_ack (s : HandleReadRequest.state) :
  HandleReadRequest.retry_count s = O ->
  HandleReadRequest.last_ack_received s = true ->
  let again :=
    HandleReadRequest.to_client s (HandleReadRequest.data_packet s) in
  let counted :=
    HandleReadRequest.set_block (HandleReadRequest.set_retry s 5)
                                (incr16 (HandleReadRequest.block_num s)) in
  (HandleReadRequest.bytes_read s <> MAX_DATA_SIZE ->
   run HandleReadRequest.step s (repeat Peer.timeout 5)
   = (Return, counted, repeat again 5))
  /\ (HandleReadRequest.bytes_read s = MAX_DATA_SIZE ->
      run HandleReadRequest.step s (repeat Peer.timeout 5)
      = prepend (repeat again 5)
                (HandleReadRequest.send_next counted Peer.timeout)).
Proof.
  intros Hr Hack again counted.
  assert (Hrun : run HandleReadRequest.step s (repeat Peer.timeout 5)
                 = prepend (repeat again 5)
                     (HandleReadRequest.after_retry_loop
                        (HandleReadRequest.set_retry s 5) Peer.timeout)).
  { change (repeat Peer.timeout 5)
      with (repeat Peer.timeout 4 ++ [Peer.timeout]).
    rewrite run_app, read_request_timeouts_below_cap
      by (rewrite Hr; unfold HandleReadRequest.MAX_RETRIES; lia).
    rewrite Hr. cbn [Nat.add and_then run].
    rewrite read_request_step_at_cap by reflexivity.
    cbn [HandleReadRequest.set_retry HandleReadRequest.data_packet
         HandleReadRequest.to_client HandleReadRequest.client_addr].
    fold again.
    change (HandleReadRequest.set_retry (HandleReadRequest.set_retry s 4) 5)
      with (HandleReadRequest.set_retry s 5).
    destruct (HandleReadRequest.after_retry_loop
                (HandleReadRequest.set_retry s 5) Peer.timeout)
      as [[c s'] out].
    change ({| dst := HandleReadRequest.client_addr s;
               pkt := HandleReadRequest.data_packet s |}) with again.
    destruct c; cbn [prepend app repeat]; rewrite ?app_nil_r; reflexivity. }
  rewrite Hrun. unfold HandleReadRequest.after_retry_loop.
  cbn [HandleReadRequest.last_ack_received HandleReadRequest.set_retry
       HandleReadRequest.bytes_read HandleReadRequest.block_num].
  rewrite Hack. cbn [negb]. split; intros Hbytes.
  - apply Nat.eqb_neq in Hbytes. rewrite Hbytes. cbn [prepend].
    now rewrite app_nil_r.
  - rewrite Hbytes, Nat.eqb_refl. reflexivity.
Qed.

Lemma read_request_cap_after_first_ack_witness :
  let s := {| HandleReadRequest.client_addr :=
                {| s_addr := 20; sin_port := 4000 |};
              HandleReadRequest.input_file := [];
              HandleReadRequest.block_num := 2;
              HandleReadRequest.bytes_read := 1;
              HandleReadRequest.data_packet := [x00; x03; x00; x02; x42];
              HandleReadRequest.retry_count := O;
              HandleReadRequest.last_ack_received := true |} in
  (HandleReadRequest.retry_count s = O
   /\ HandleReadRequest.last_ack_received s = true
   /\ HandleReadRequest.bytes_read s <> MAX_DATA_SIZE)
  /\ run HandleReadRequest.step s (repeat Peer.timeout 5)
     = (Return,
        HandleReadRequest.set_block (HandleReadRequest.set_retry s 5)
                                    (incr16 (HandleReadRequest.block_num s)),
        repeat (HandleReadRequest.to_client s
                  (HandleReadRequest.data_packet s)) 5).
Proof.
  cbv zeta.
  match goal with
  | |- (_ /\ _ /\ ?C) /\ run _ ?s _ = _ =>
      assert (H3 : C) by (unfold MAX_DATA_SIZE; cbn; lia);
      split; [repeat split; exact H3|];
      exact (proj1 (read_request_cap_after_first_ack s eq_refl eq_refl) H3)
  end.
Defined.

End SenderStrays.

Section SendFileStepsBack.
Import Codec Net Blocks.

(** [send_file] after [current_block_num--; continue]. *)
Lemma send_file_step_back
    (s : SendFile.state) (i : input) (src : sockaddr_in)
    (payload : list byte) :
  SendFile.waiting s <> SendFile.WaitAck0 ->
  recv i = Datagram src payload ->
  send_ok i = true ->
  src <> SendFile.server_addr s
  \/ (exists b, src = SendFile.server_addr s
                /\ payload = create_ack_packet b
                /\ b < SendFile.current_block_num s
                /\ SendFile.current_block_num s < 65536) ->
  let chunk := firstn MAX_DATA_SIZE (SendFile.input_file s) in
  let back := decr16 (SendFile.current_block_num s) in
  SendFile.step s i
  = (Await,
     {| SendFile.server_addr := SendFile.server_addr s;
        SendFile.input_file := skipn MAX_DATA_SIZE (SendFile.input_file s);
        SendFile.current_block_num := back;
        SendFile.last_data_sent := (length chunk <? MAX_DATA_SIZE)%nat;
        SendFile.data_packet := Peer.wire (Data back chunk);
        SendFile.waiting := SendFile.WaitAck |},
     Peer.sent_to (SendFile.server_addr s) [Data back chunk]).
Proof.
  intros Hw Hrecv Hsend Hwhy chunk back.
  assert (Hreply : SendFile.handle_reply s i src (recvfrom_buffer payload)
                   = SendFile.loop (SendFile.set_block s back false) i).
  { unfold SendFile.handle_reply.
    destruct Hwhy as [Hsrc | (b & Hsrc & Hp & Hlt & Hcur)].
    - now rewrite (same_endpoint_false _ _ Hsrc).
    - subst src payload. rewrite same_endpoint_refl, recvfrom_ack.
      change (get_opcode (create_ack_packet b)) with TFTP_OPCODE_ACK.
      rewrite N.eqb_refl, (parse_ack_created b) by lia.
      assert (Hne : (b =? SendFile.current_block_num s) = false)
        by (apply N.eqb_neq; lia).
      apply N.ltb_lt in Hlt. now rewrite Hne, Hlt. }
  assert (Hstep : SendFile.step s i
                  = SendFile.loop (SendFile.set_block s back false) i).
  { unfold SendFile.step.
    destruct (SendFile.waiting s); [contradiction| |];
      rewrite Hrecv; exact Hreply. }
  rewrite Hstep. unfold SendFile.loop.
  cbn [SendFile.last_data_sent SendFile.set_block].
  rewrite (send_file_send_next _ i Hsend). cbv zeta.
  cbn [SendFile.set_block SendFile.server_addr SendFile.input_file
       SendFile.current_block_num SendFile.last_data_sent].
  fold chunk. destruct (length chunk <? MAX_DATA_SIZE)%nat; reflexivity.
Qed.

Lemma decr16_below (b : N) : decr16 b < 65536.
Proof. unfold decr16. apply N.mod_lt. discriminate. Qed.

(** X24. In a PUT, a datagram from a source other than the bound TID, and
    likewise an Ack for an earlier block from the bound TID, makes the
    client step its block number back by one, read the next chunk of the
    file and send exactly one packet, to the bound TID, which reads it as
    a Data packet carrying that chunk under the stepped-back number; the
    chunk that is awaiting its Ack is not sent again, and the new packet
    replaces it as the one kept for retransmission. *)
Theorem send_file_steps_back
    (s : SendFile.state) (i : input) (src : sockaddr_in)
    (payload : list byte) :
  SendFile.waiting s <> SendFile.WaitAck0 ->
  recv i = Datagram src payload ->
  send_ok i = true ->
  src <> SendFile.server_addr s
  \/ (exists b, src = SendFile.server_addr s
                /\ payload = create_ack_packet b
                /\ b < SendFile.current_block_num s
                /\ SendFile.current_block_num s < 65536) ->
  let chunk := firstn MAX_DATA_SIZE (SendFile.input_file s) in
  let back := decr16 (SendFile.current_block_num s) in
  exists packet,
    SendFile.step s i
    = (Await,
       {| SendFile.server_addr := SendFile.server_addr s;
          SendFile.input_file := skipn MAX_DATA_SIZE (SendFile.input_file s);
          SendFile.current_block_num := back;
          SendFile.last_data_sent := (length chunk <? MAX_DATA_SIZE)%nat;
          SendFile.data_packet := packet;
          SendFile.waiting := SendFile.WaitAck |},
       [{| dst := SendFile.server_addr s; pkt := packet |}])
    /\ parse packet = Some (Data back chunk).
Proof.
  intros Hw Hrecv Hsend Hwhy chunk back.
  exists (Peer.wire (Data back chunk)). split.
  - exact (send_file_step_back s i src payload Hw Hrecv Hsend Hwhy).
  - apply parse_wire. split; [apply decr16_below|].
    apply firstn_le_length.
Qed.

Lemma send_file_steps_back_witness :
  let tid := {| s_addr := 10; sin_port := 2000 |} in
  let stranger := {| s_addr := 99; sin_port := 3000 |} in
  let s := {| SendFile.server_addr := tid;
              SendFile.input_file := [x43; x44];
              SendFile.current_block_num := 2;
              SendFile.last_data_sent := false;
              SendFile.data_packet := [x00; x03; x00; x02] ++ repeat x42 512;
              SendFile.waiting := SendFile.WaitAck |} in
  let i := {| recv := Datagram stranger [x00; x04; x00; x02];
              send_ok := true; write_ok := true |} in
  (SendFile.waiting s <> SendFile.WaitAck0
   /\ recv i = Datagram stranger [x00; x04; x00; x02]
   /\ send_ok i = true
   /\ stranger <> SendFile.server_addr s)
  /\ exists packet,
       SendFile.step s i
       = (Await,
          {| SendFile.server_addr := tid;
             SendFile.input_file := [];
             SendFile.current_block_num := 1;
             SendFile.last_data_sent := true;
             SendFile.data_packet := packet;
             SendFile.waiting := SendFile.WaitAck |},
          [{| dst := tid; pkt := packet |}])
       /\ parse packet = Some (Data 1 [x43; x44]).
Proof.
  cbv zeta.
  assert (H1 : SendFile.WaitAck <> SendFile.WaitAck0) by discriminate.
  assert (H4 : {| s_addr := 99; sin_port := 3000 |}
               <> {| s_addr := 10; sin_port := 2000 |}) by discriminate.
  split; [repeat split; assumption|].
  match goal with
  | |- exists packet, SendFile.step ?s ?i = _ /\ _ =>
      exact (send_file_steps_back s i {| s_addr := 99; sin_port := 3000 |}
               [x00; x04; x00; x02] H1 eq_refl eq_refl (or_introl H4))
  end.
Defined.

End SendFileStepsBack.

Section FailedGet.
Import Codec Net Blocks RunServer.



End FailedGet.

Section RoundTripThroughServer.
Import Codec Net Blocks RunServer.

Lemma octet_c_string : c_string (str "octet").
Proof.
  unfold c_string. cbn. intros Hin.
  repeat (destruct Hin as [Hin | Hin]; [discriminate Hin|]). exact Hin.
Qed.

(** X26. A file that is PUT under an acceptable name and then fetched
    with GET comes back byte for byte, provided the server can check
    that the name is free and the flush of the final [close] writes all
    bytes on either side. The client's WRQ makes the dispatcher start
    the write handler, whose Acks drive the client and which stores
    exactly the file; the RRQ for the same name then makes the
    dispatcher start the read handler on the stored file, and the
    client's GET ends with exactly those bytes in its local file. *)
Theorem put_then_get_returns_the_file
    (file f : list byte) (server tid1 tid2 client1 client2 : sockaddr_in)
    (env : server_env) (i0 : input) (stored fetched : nat) :
  f <> [] -> c_string f ->
  (length f + 9 <= MAX_PACKET_SIZE)%nat ->
  socket_ok env = true -> timeout_ok env = true ->
  path_check env = InsideBase ->
  ~ contains (str "..") f -> ~ contains [x2f] f -> ~ contains [x5c] f ->
  send_ok i0 = true ->
  (length file <= stored)%nat -> (length file <= fetched)%nat ->
  exists acks1 datas1 acks2 datas2 p g,
    SendFile.send_file server f file true (delivered tid1 acks1)
    = (Return, p,
       {| dst := server; pkt := create_wrq_packet f (str "octet") |}
       :: datas1)
    /\ serve (Datagram client1 (create_wrq_packet f (str "octet"))) env
             true None true stored i0 (delivered client1 datas1)
       = (acks1, Some file)
    /\ serve (Datagram client2 (create_rrq_packet f (str "octet"))) env
             true (Some file) true stored i0 (delivered client2 acks2)
       = (datas2, Some file)
    /\ ReceiveFile.receive_file server f true true None
         (delivered tid2 datas2)
       = (Return, g,
          {| dst := server; pkt := create_rrq_packet f (str "octet") |}
          :: acks2)
    /\ ReceiveFile.local_file g = Some file
    /\ ReceiveFile.disk_after
         (ReceiveFile.receive_file server f true true None
            (delivered tid2 datas2)) fetched
       = Some file.
Proof.
  intros Hf Hcf Hlen Hsock Htime Hpath Hdd Hsl Hbs Hsend Hstored Hfetched.
  assert (Hm : str "octet" <> []) by discriminate.
  assert (Hlen' : (length f + length (str "octet") + 4
                   <= MAX_PACKET_SIZE)%nat)
    by (change (length (str "octet")) with 5%nat; lia).
  destruct (proj1 (dispatch_on_clean_request client1 f (str "octet") env
                     Hf Hcf Hm octet_c_string Hlen' Hsock Htime Hpath
                     Hdd Hsl Hbs) eq_refl) as [_ Hw].
  destruct (proj1 (dispatch_on_clean_request client2 f (str "octet") env
                     Hf Hcf Hm octet_c_string Hlen' Hsock Htime Hpath
                     Hdd Hsl Hbs) eq_refl) as [Hr _].
  destruct (file_sent_in_blocks file f server tid1 client2 i0 Hsend)
    as [[p Hput] [q Hget]].
  destruct (file_received_from_blocks file f server tid2 client1 None)
    as [Hrecv Hstore].
  cbv zeta in Hput, Hget, Hrecv, Hstore.
  exists (Peer.sent_to client1 (ack_run 0 (S (S (full_count file))))),
         (Peer.sent_to tid1 (blocks_of 1 file (full_count file))),
         (Peer.sent_to tid2 (ack_run 1 (S (full_count file)))),
         (Peer.sent_to client2 (blocks_of 1 file (full_count file))).
  eexists p, _. rewrite !delivered_sent_to.
  split; [exact Hput|].
  split.
  { unfold serve. rewrite Hw, Hsend, Hstore.
    unfold HandleWriteRequest.disk_after. cbn.
    now rewrite firstn_all2. }
  split.
  { unfold serve. rewrite Hr, Hget. reflexivity. }
  split; [exact Hrecv|]. split; [reflexivity|].
  rewrite Hrecv. unfold ReceiveFile.disk_after. cbn.
  now rewrite firstn_all2.
Qed.

End RoundTripThroughServer.

Section TransferWitnesses.
Import Codec Net Blocks RunServer.

Lemma name_a_bin_acceptable :
  str "a.bin" <> [] /\ c_string (str "a.bin")
  /\ (length (str "a.bin") + 9 <= MAX_PACKET_SIZE)%nat
  /\ ~ contains (str "..") (str "a.bin")
  /\ ~ contains [x2f] (str "a.bin")
  /\ ~ contains [x5c] (str "a.bin").
Proof.
  split; [discriminate|]. split.
  { unfold c_string. cbn. intros Hin.
    repeat (destruct Hin as [Hin | Hin]; [discriminate Hin|]). exact Hin. }
  split; [unfold MAX_PACKET_SIZE; cbn; lia|].
  repeat split; apply not_contains; reflexivity.
Defined.

Lemma serve_refusal_leaves_disk_witness :
  let client := {| s_addr := 7; sin_port := 1234 |} in
  let env := {| socket_ok := true; timeout_ok := true;
                path_check := InsideBase |} in
  (str "a.bin" <> [] /\ c_string (str "a.bin")
   /\ (length (str "a.bin") + 9 <= MAX_PACKET_SIZE)%nat
   /\ ~ contains (str "..") (str "a.bin")
   /\ ~ contains [x2f] (str "a.bin")
   /\ ~ contains [x5c] (str "a.bin"))
  /\ exists out,
       serve (Datagram client (create_wrq_packet (str "a.bin") (str "octet")))
             env true (Some [x6f; x6c; x64]) true 0 Peer.timeout []
       = (out, Some [x6f; x6c; x64])
       /\ decoded out
          = [(client, Some (Error 6 (str "File already exists")))].
Proof.
  cbv zeta. split; [exact name_a_bin_acceptable|].
  destruct name_a_bin_acceptable as (H1 & H2 & H3 & H4 & H5 & H6).
  exact (proj1 (proj2 (serve_refusal_leaves_disk
                         {| s_addr := 7; sin_port := 1234 |} (str "a.bin")
                         [x6f; x6c; x64]
                         {| socket_ok := true; timeout_ok := true;
                            path_check := InsideBase |}
                         true true 0 Peer.timeout []
                         H1 H2 H3 eq_refl eq_refl eq_refl H4 H5 H6))).
Defined.

Lemma blocks_received_in_order_give_the_file_witness :
  let file := repeat x41 512 ++ [x42] in
  let client := {| s_addr := 7; sin_port := 1234 |} in
  let w := HandleWriteRequest.handle_write_request client true None true true
             (arriving client (blocks_of 1 file (full_count file))) in
  (length file <= 513)%nat
  /\ control_of w = Return
  /\ decoded (sent_of w) = addressed client [Ack 0; Ack 1; Ack 2]
  /\ HandleWriteRequest.disk_after w 513 = Some file.
Proof.
  cbv zeta.
  assert (H : (length (repeat x41 512 ++ [x42]) <= 513)%nat)
    by (rewrite length_app, repeat_length; cbn; lia).
  split; [exact H|].
  destruct (proj2 (blocks_received_in_order_give_the_file
                     (repeat x41 512 ++ [x42]) (str "a.bin")
                     {| s_addr := 10; sin_port := 69 |}
                     {| s_addr := 10; sin_port := 2000 |}
                     {| s_addr := 7; sin_port := 1234 |} None 513))
    as (Hc & _ & Hs & _ & Hd).
  split; [exact Hc|]. split; [exact Hs|]. exact (Hd H).
Defined.

Lemma lock_step_transfer_delivers_file_witness :
  let file := repeat x41 512 ++ [x42] in
  (send_ok Peer.timeout = true /\ (length file <= 513)%nat)
  /\ exists acks datas s1 s2,
       SendFile.send_file {| s_addr := 10; sin_port := 69 |} (str "a.bin")
         file true (delivered {| s_addr := 10; sin_port := 2000 |} acks)
       = (Return, s1,
          {| dst := {| s_addr := 10; sin_port := 69 |};
             pkt := create_wrq_packet (str "a.bin") (str "octet") |}
          :: datas)
       /\ HandleWriteRequest.handle_write_request
            {| s_addr := 7; sin_port := 1234 |} true None true true
            (delivered {| s_addr := 7; sin_port := 1234 |} datas)
          = (Return, s2, acks)
       /\ HandleWriteRequest.local_file s2 = Some file
       /\ HandleWriteRequest.disk_after (Return, s2, acks) 513 = Some file.
Proof.
  cbv zeta.
  assert (H : send_ok Peer.timeout = true) by reflexivity.
  assert (H' : (length (repeat x41 512 ++ [x42]) <= 513)%nat)
    by (rewrite length_app, repeat_length; cbn; lia).
  split; [split; assumption|].
  destruct (proj1 (lock_step_transfer_delivers_file
                     (repeat x41 512 ++ [x42]) (str "a.bin")
                     {| s_addr := 10; sin_port := 69 |}
                     {| s_addr := 10; sin_port := 2000 |}
                     {| s_addr := 7; sin_port := 1234 |} Peer.timeout None
                     513 H))
    as (acks & datas & s1 & s2 & Hput & Hstore & Hfile & Hdisk).
  exists acks, datas, s1, s2.
  split; [exact Hput|]. split; [exact Hstore|]. split; [exact Hfile|].
  exact (Hdisk H').
Defined.

Lemma put_then_get_returns_the_file_witness :
  let server := {| s_addr := 10; sin_port := 69 |} in
  let tid1 := {| s_addr := 10; sin_port := 2000 |} in
  let tid2 := {| s_addr := 10; sin_port := 2001 |} in
  let client1 := {| s_addr := 7; sin_port := 1234 |} in
  let client2 := {| s_addr := 8; sin_port := 4321 |} in
  let env := {| socket_ok := true; timeout_ok := true;
                path_check := InsideBase |} in
  let file := repeat x41 512 ++ [x42] in
  (str "a.bin" <> [] /\ c_string (str "a.bin")
   /\ (length (str "a.bin") + 9 <= MAX_PACKET_SIZE)%nat
   /\ ~ contains (str "..") (str "a.bin")
   /\ ~ contains [x2f] (str "a.bin")
   /\ ~ contains [x5c] (str "a.bin"))
  /\ (send_ok Peer.timeout = true /\ (length file <= 513)%nat)
  /\ exists acks1 datas1 acks2 datas2 p g,
       SendFile.send_file server (str "a.bin") file true
         (delivered tid1 acks1)
       = (Return, p,
          {| dst := server;
             pkt := create_wrq_packet (str "a.bin") (str "octet") |}
          :: datas1)
       /\ serve (Datagram client1
                   (create_wrq_packet (str "a.bin") (str "octet"))) env
                true None true 513 Peer.timeout (delivered client1 datas1)
          = (acks1, Some file)
       /\ serve (Datagram client2
                   (create_rrq_packet (str "a.bin") (str "octet"))) env
                true (Some file) true 513 Peer.timeout
                (delivered client2 acks2)
          = (datas2, Some file)
       /\ ReceiveFile.receive_file server (str "a.bin") true true None
            (delivered tid2 datas2)
          = (Return, g,
             {| dst := server;
                pkt := create_rrq_packet (str "a.bin") (str "octet") |}
             :: acks2)
       /\ ReceiveFile.local_file g = Some file
       /\ ReceiveFile.disk_after
            (ReceiveFile.receive_file server (str "a.bin") true true None
               (delivered tid2 datas2)) 513
          = Some file.
Proof.
  cbv zeta. split; [exact name_a_bin_acceptable|].
  assert (H' : (length (repeat x41 512 ++ [x42]) <= 513)%nat)
    by (rewrite length_app, repeat_length; cbn; lia).
  split; [split; [reflexivity | exact H']|].
  destruct name_a_bin_acceptable as (H1 & H2 & H3 & H4 & H5 & H6).
  exact (put_then_get_returns_the_file
           (repeat x41 512 ++ [x42]) (str "a.bin")
           {| s_addr := 10; sin_port := 69 |}
           {| s_addr := 10; sin_port := 2000 |}
           {| s_addr := 10; sin_port := 2001 |}
           {| s_addr := 7; sin_port := 1234 |}
           {| s_addr := 8; sin_port := 4321 |}
           {| socket_ok := true; timeout_ok := true;
              path_check := InsideBase |}
           Peer.timeout 513 513
           H1 H2 H3 eq_refl eq_refl eq_refl H4 H5 H6 eq_refl H' H').
Defined.

End TransferWitnesses.
